(** * Weather RSS Feed Application: ingestion pipeline

    A shallow embedding of [backend/fetcher.py], [backend/database.py] and
    [backend/scheduler.py], and the properties of the pipeline proved on it.

    Conventions.
    - Python [int] is [Z]; Python [str] is [string], one character standing
      for one code point (the development covers code points below 256).
    - [Optional[T]] is [option T]; a raised exception is the left summand of
      a sum, or [None] where the message is irrelevant.
    - The outside world (network responses, the clock, the SQLite engine
      raising [sqlite3.Error]) enters every operation as an explicit argument.
    - Library functions whose tables are not part of the repository (SHA-256,
      HTML entity decoding, [str.upper], [str.title], [int(str)], the XML and
      feed parsers) are fields of the [PyRuntime] class. *)

From Stdlib Require Import ZArith List Bool Ascii String Lia QArith Qround Qabs Lqa.
From Stdlib Require Import Sorted Permutation.
From stdpp Require Import base option list strings gmap pretty.

Set Default Proof Using "Type".
Local Open Scope string_scope.
Local Open Scope Z_scope.

(** ** Python numbers *)

Module PyFloat.

(** [float(n)] for a Python int: the nearest binary64 value, ties to even.
    The binary64 values reached from an int are integers, so the result is
    kept as a [Z].  (Past the largest finite double, about 1.8e308, Python
    raises OverflowError; the exponent is not bounded here.) *)
Definition of_int (n : Z) : Z :=
  let a := Z.abs n in
  let e := Z.log2 a - 52 in
  if e <=? 0 then n
  else
    let q := Z.shiftr a e in
    let r := a - Z.shiftl q e in
    let half := Z.shiftl 1 (e - 1) in
    let q' := if (half <? r) || ((half =? r) && Z.odd q) then q + 1 else q in
    Z.sgn n * Z.shiftl q' e.

(** [v >= t * 0.5] with [v], [t] ints.  The product converts [t] with
    [of_int]; scaling a double of magnitude at least 1 by 0.5 is exact, and
    Python compares an int with a float by value, so the test is
    [2 * v >= float(t)]. *)
Definition int_ge_half (v t : Z) : bool := of_int t <=? 2 * v.

End PyFloat.

(** ** Python strings *)

Module PyStr.

Definition code (c : ascii) : N := N_of_ascii c.

(** [str.isspace] on one character (also the class \s of [re]). *)
Definition is_space (c : ascii) : bool :=
  let n := code c in
  ((9 <=? n) && (n <=? 13) || (28 <=? n) && (n <=? 32)
   || (n =? 133) || (n =? 160))%N.

(** Decimal digits, the class \d. *)
Definition is_digit (c : ascii) : bool :=
  let n := code c in ((48 <=? n) && (n <=? 57))%N.

(** Alphanumerics and the underscore, the class \w. *)
Definition is_word (c : ascii) : bool :=
  let n := code c in
  (is_digit c || (65 <=? n) && (n <=? 90) || (97 <=? n) && (n <=? 122)
   || (n =? 95) || (n =? 170) || (n =? 178) || (n =? 179) || (n =? 181)
   || (n =? 185) || (n =? 186) || (188 <=? n) && (n <=? 190)
   || (192 <=? n) && (n <=? 214) || (216 <=? n) && (n <=? 246)
   || (248 <=? n))%N.

(** Lower-case mapping of one character, as used by [re.IGNORECASE]. *)
Definition lower (c : ascii) : ascii :=
  let n := code c in
  if ((65 <=? n) && (n <=? 90)
      || (192 <=? n) && (n <=? 222) && negb (n =? 215))%N
  then ascii_of_N (n + 32) else c.

Definition len (s : string) : Z := Z.of_nat (String.length s).

(** [s[:n]] for [n >= 0] *)
Fixpoint take (n : nat) (s : string) : string :=
  match n, s with
  | S n', String c s' => String c (take n' s')
  | _, _ => EmptyString
  end.

(** [s[n:]] for [n >= 0] *)
Fixpoint drop (n : nat) (s : string) : string :=
  match n, s with
  | S n', String _ s' => drop n' s'
  | _, _ => s
  end.

Fixpoint lstrip (s : string) : string :=
  match s with
  | String c s' => if is_space c then lstrip s' else s
  | EmptyString => EmptyString
  end.

Fixpoint rstrip (s : string) : string :=
  match s with
  | String c s' =>
      match rstrip s' with
      | EmptyString => if is_space c then EmptyString else String c EmptyString
      | r => String c r
      end
  | EmptyString => EmptyString
  end.

(** [s.strip()] *)
Definition strip (s : string) : string := rstrip (lstrip s).

(** [s.startswith(p)] *)
Fixpoint startswith (p s : string) : bool :=
  match p, s with
  | EmptyString, _ => true
  | String a p', String b s' => Ascii.eqb a b && startswith p' s'
  | String _ _, EmptyString => false
  end.

(** [p in s] *)
Fixpoint contains (p s : string) : bool :=
  startswith p s ||
  match s with
  | String _ s' => contains p s'
  | EmptyString => false
  end.

(** [sep.join(parts)] *)
Fixpoint join (sep : string) (parts : list string) : string :=
  match parts with
  | [] => EmptyString
  | [x] => x
  | x :: rest => x +:+ sep +:+ join sep rest
  end.

(** Truthiness of a string: [bool(s)] *)
Definition truthy (s : string) : bool :=
  match s with EmptyString => false | _ => true end.

(** [a or b] on strings *)
Definition or_ (a b : string) : string := if truthy a then a else b.

(** [s[:n] if len(s) > n else s] *)
Definition clip (n : nat) (s : string) : string :=
  if Z.of_nat n <? len s then take n s else s.

End PyStr.

(** ** The [re] module: a backtracking matcher

    Enough of Python's regular expressions for the patterns of the
    repository: literals, the classes [.], \s, \d, \w, one-character sets,
    concatenation, alternation, greedy and lazy repetition, numbered
    capturing groups, and [$].  Matching follows the backtracking order of [re]: the
    leftmost start, and at each choice point the first alternative that leads
    to an overall match. *)

Module Re.

Inductive cls :=
| Any                      (* .  : anything but a newline *)
| Space                    (* \s *)
| Digit                    (* \d *)
| Word                     (* \w *)
| Chr (c : ascii)          (* a literal character *)
| NotChr (c : ascii)       (* [^c] *)
| Union (a b : cls).       (* [ab] *)

Inductive regex :=
| Eps
| One (c : cls)
| Seq (r1 r2 : regex)
| Alt (r1 r2 : regex)
| Star (greedy : bool) (r : regex)   (* r* and r*? *)
| Group (i : nat) (r : regex)        (* ( r ), the group number i *)
| Eos.                               (* $ *)

Definition Plus (greedy : bool) (r : regex) : regex := Seq r (Star greedy r).
Definition Opt (r : regex) : regex := Alt r Eps.

(** A literal string *)
Fixpoint Lit (s : string) : regex :=
  match s with
  | EmptyString => Eps
  | String c EmptyString => One (Chr c)
  | String c s' => Seq (One (Chr c)) (Lit s')
  end.

Fixpoint Cat (rs : list regex) : regex :=
  match rs with
  | [] => Eps
  | [r] => r
  | r :: rest => Seq r (Cat rest)
  end.

Fixpoint cls_match (ic : bool) (k : cls) (c : ascii) : bool :=
  match k with
  | Any => negb (Ascii.eqb c "010")
  | Space => PyStr.is_space c
  | Digit => PyStr.is_digit c
  | Word => PyStr.is_word c
  | Chr d => if ic then Ascii.eqb (PyStr.lower d) (PyStr.lower c)
             else Ascii.eqb d c
  | NotChr d => negb (if ic then Ascii.eqb (PyStr.lower d) (PyStr.lower c)
                      else Ascii.eqb d c)
  | Union a b => cls_match ic a c || cls_match ic b c
  end.

Section Matcher.
Context {A : Type}.
Variable ic : bool.   (* re.IGNORECASE *)

(** [m r s g k]: match [r] at the head of [s]; [g] gives the text of
    each group so far; [k] receives the rest of the subject and the
    groups.  A repetition stops when its body consumes nothing. *)
Fixpoint m (r : regex) (s : string) (g : nat -> string)
    (k : string -> (nat -> string) -> option A) {struct r} : option A :=
  match r with
  | Eps => k s g
  | One c =>
      match s with
      | String x s' => if cls_match ic c x then k s' g else None
      | EmptyString => None
      end
  | Seq r1 r2 => m r1 s g (fun s' g' => m r2 s' g' k)
  | Alt r1 r2 =>
      match m r1 s g k with
      | Some x => Some x
      | None => m r2 s g k
      end
  | Star greedy r1 =>
      (fix loop (n : nat) (s : string) (g : nat -> string) {struct n}
           : option A :=
         let more (_ : unit) :=
           match n with
           | O => None
           | S n' =>
               m r1 s g (fun s' g' =>
                 if (String.length s' <? String.length s)%nat
                 then loop n' s' g' else None)
           end in
         if greedy then
           match more tt with
           | Some x => Some x
           | None => k s g
           end
         else
           match k s g with
           | Some x => Some x
           | None => more tt
           end) (String.length s) s g
  | Group i r1 =>
      m r1 s g (fun s' g' =>
        let txt := PyStr.take (String.length s - String.length s') s in
        k s' (fun j => if (j =? i)%nat then txt else g' j))
  | Eos =>
      match s with
      | EmptyString => k s g
      | String "010" EmptyString => k s g
      | _ => None
      end
  end.
End Matcher.

(** A match: the text of each group and the subject after the match.
    (Every group of the repository's patterns takes part in every match.) *)
Record Match := { group : nat -> string; rest : string }.

(** [re.match]-like: [r] at the head of [s]. *)
Definition match_here (ic : bool) (r : regex) (s : string) : option Match :=
  m ic r s (fun _ => EmptyString) (fun s' g => Some {| group := g; rest := s' |}).

(** [re.search(r, s)]: the leftmost match. *)
Fixpoint search (ic : bool) (r : regex) (s : string) : option Match :=
  match match_here ic r s with
  | Some x => Some x
  | None =>
      match s with
      | EmptyString => None
      | String _ s' => search ic r s'
      end
  end.

(** [re.sub(r, repl, s)] for a pattern that matches no empty string (all
    the substitution patterns of the repository). *)
Fixpoint sub_from (n : nat) (ic : bool) (r : regex) (repl s : string) : string :=
  match n, s with
  | S n', String c s' =>
      match match_here ic r s with
      | Some mt =>
          if (String.length (rest mt) <? String.length s)%nat
          then repl +:+ sub_from n' ic r repl (rest mt)
          else String c (sub_from n' ic r repl s')
      | None => String c (sub_from n' ic r repl s')
      end
  | _, _ => s
  end.

Definition sub (ic : bool) (r : regex) (repl s : string) : string :=
  sub_from (String.length s) ic r repl s.

End Re.

(** ** xml.etree.ElementTree *)

Module ET.

#[local] Set Warnings "-register-all".
Inductive Element :=
| Elem (tag : string) (attrib : list (string * string))
       (text : option string) (children : list Element).

Definition tag (e : Element) : string := match e with Elem t _ _ _ => t end.
Definition attrib (e : Element) := match e with Elem _ a _ _ => a end.
Definition text (e : Element) := match e with Elem _ _ x _ => x end.
Definition children (e : Element) := match e with Elem _ _ _ c => c end.

Fixpoint assoc (key : string) (l : list (string * string)) : option string :=
  match l with
  | [] => None
  | (k, v) :: l' => if String.eqb k key then Some v else assoc key l'
  end.

(** [e.get(key, default)] *)
Definition get (e : Element) (key default : string) : string :=
  match assoc key (attrib e) with Some v => v | None => default end.

(** [e.findall(t)]: the direct children with tag [t], in document order *)
Definition findall (e : Element) (t : string) : list Element :=
  List.filter (fun c => String.eqb (tag c) t) (children e).

(** [e.findtext(t, default)]: the text of the first child with tag [t]
    ([elem.text or ""]), or [default] without such a child *)
Definition findtext (e : Element) (t default : string) : string :=
  match findall e t with
  | [] => default
  | c :: _ => match text c with Some x => x | None => EmptyString end
  end.

(** [e.findall(".//" + t)]: the elements with tag [t] at any depth below
    [e], in document order *)
Fixpoint findall_below (t : string) (e : Element) : list Element :=
  match e with
  | Elem _ _ _ cs =>
      List.flat_map
        (fun c => ((if String.eqb (tag c) t then [c] else [])
                     ++ findall_below t c)%list)
        cs
  end.

End ET.

(** ** feedparser *)

Module Feedparser.

(** One entry of a parsed feed; [None] is an attribute that is missing
    (or None). *)
Record Entry := {
  title : option string;
  summary : option string;
  description : option string;
  published_parsed : option (list Z);
  published : option string;
  link : option string
}.

Record Feed := {
  bozo : bool;
  bozo_exception : string;
  entries : list Entry
}.

End Feedparser.

Abbreviation bytes := (list Byte.byte).

(** The library functions the fetcher calls. *)
Class PyRuntime := {
  (** [hashlib.sha256(s.encode("utf-8", errors="ignore")).hexdigest()] *)
  sha256_hexdigest : string -> string;
  (** the replacement of character references by [html.unescape], for a
      text that contains an ampersand *)
  html_charref_sub : string -> string;
  str_upper : string -> string;
  str_title : string -> string;
  (** [int(s)]; [None] is ValueError *)
  int_of_str : string -> option Z;
  (** [content.decode("utf-8", errors="ignore")] *)
  utf8_decode_ignore : bytes -> string;
  (** [ET.fromstring(content)]; the left summand is ET.ParseError *)
  ET_fromstring : bytes -> string + ET.Element;
  feedparser_parse : bytes -> Feedparser.Feed;
  (** the ISO text of [datetime] built from the fields of a time tuple;
      [None] when the constructor raises *)
  datetime_isoformat : list Z -> option string
}.

(** ** fetcher.py *)

Module Fetcher.

Definition DEFAULT_TIMEOUT : Z := 15.
Definition MAX_RETRIES : Z := 3.

Definition FORECAST_FRESHNESS_HOURS : Z := 12.
Definition ALERT_FRESHNESS_HOURS : Z := 1.

Definition ANM_FORECAST_XML_URL : string :=
  "http://www.meteoromania.ro/anm/prognoza-orase-xml.php".
Definition ANM_ALERTS_RSS_URL : string :=
  "http://www.meteoromania.ro/anm2/avertizari-rss.php".

Inductive SourceType := FORECAST | ALERT.

Inductive DataQuality := VALID | STALE | PARTIAL | INVALID | UNAVAILABLE.

(** [DataQuality.value] *)
Definition DataQuality_value (q : DataQuality) : string :=
  match q with
  | VALID => "valid"
  | STALE => "stale"
  | PARTIAL => "partial"
  | INVALID => "invalid"
  | UNAVAILABLE => "unavailable"
  end.

Module CityForecast.
Record t := {
  city : string;
  forecast_date : string;
  data_date : string;
  temp_min : Z;
  temp_max : Z;
  conditions : string;
  conditions_code : string;
  source_url : string;
  content_hash : string;
  fetched_at : string
}.
End CityForecast.

Module WeatherAlert.
Record t := {
  title : string;
  description : string;
  published_at : option string;
  link : option string;
  alert_level : option string;
  affected_zones : option string;
  time_range : option string;
  source_url : string;
  content_hash : string;
  fetched_at : string
}.
End WeatherAlert.

Module FetchMetadata.
Record t := {
  source_url : string;
  source_type : SourceType;
  fetch_time : string;
  success : bool;
  entries_count : Z;
  valid_entries : Z;
  error_message : option string;
  response_time_ms : Z;
  data_quality : DataQuality;
  is_fresh : bool;
  last_modified : option string
}.
End FetchMetadata.

(** The exceptions of the module; the argument is [str(e)]. *)
Inductive Raised :=
| FetchError (msg : string)
| ValidationError (msg : string).

Definition str_of_exn (e : Raised) : string :=
  match e with FetchError m => m | ValidationError m => m end.

(** What [session.get] followed by [raise_for_status] does for one call,
    retries included. *)
Inductive Response :=
| Content (content : bytes)
| Timeout
| ConnectionError (e : string)
| HTTPError (status_code : Z)
| RequestException (e : string).

(** The outside world during one fetch: the response, the ISO text of the
    clock when the fetch starts, the elapsed milliseconds measured when it
    ends, and the ISO text of the clock when the records are built. *)
Record FetchEnv := {
  response : Response;
  fetch_start_iso : string;
  elapsed_ms : Z;
  now_iso : string
}.

(** The state of an [ANMFetcher] (the HTTP session is in [FetchEnv]). *)
Record ANMFetcher := {
  timeout : Z;
  _last_fetch_metadata : gmap string FetchMetadata.t;
  _cached_cities : list string
}.

(** [ANMFetcher(timeout)] *)
Definition init (timeout : Z) : ANMFetcher :=
  {| timeout := timeout; _last_fetch_metadata := ∅; _cached_cities := [] |}.

(** [_assess_quality] *)
Definition _assess_quality (valid total : Z) : DataQuality :=
  if total =? 0 then UNAVAILABLE
  else if valid =? 0 then INVALID
  else if valid =? total then VALID
  else if PyFloat.int_ge_half valid total then PARTIAL
  else INVALID.

(** [_fetch_raw] *)
Definition _fetch_raw (self : ANMFetcher) (env : FetchEnv)
  : Raised + (bytes * Z) :=
  match response env with
  | Content content => inr (content, elapsed_ms env)
  | Timeout =>
      inl (FetchError ("Request timed out after " +:+ pretty (timeout self) +:+ "s"))
  | ConnectionError e =>
      inl (FetchError ("Connection error - source unavailable: " +:+ e))
  | HTTPError status_code =>
      inl (FetchError ("HTTP error " +:+ pretty status_code))
  | RequestException e => inl (FetchError ("Request failed: " +:+ e))
  end.

Section WithRuntime.
Context `{PyRuntime}.

(** [_compute_hash], on the [str] of each argument *)
Definition _compute_hash (args : list string) : string :=
  sha256_hexdigest (PyStr.join "|" args).

(** [_validate_xml_structure] *)
Definition _validate_xml_structure (content : bytes) : bool :=
  let content_str := utf8_decode_ignore content in
  if negb (PyStr.truthy (PyStr.strip content_str)) then false
  else if negb (PyStr.contains "<?xml" content_str)
          && negb (PyStr.startswith "<" (PyStr.strip content_str))
  then false
  else match ET_fromstring content with
       | inr _ => true
       | inl _ => false
       end.

(** The [translations] table of [_translate_conditions], in insertion
    order. *)
Definition translations : list (string * string) :=
  [ ("CER SENIN", "Clear Sky");
    ("CER VARIABIL", "Partly Cloudy");
    ("CER PARTIAL NOROS", "Partly Cloudy");
    ("CER MAI MULT NOROS", "Mostly Cloudy");
    ("CER NOROS", "Cloudy");
    ("INNNORAT", "Overcast");
    ("PLOAIE SLABA", "Light Rain");
    ("PLOAIE", "Rain");
    ("PLOAIE MODERATA", "Moderate Rain");
    ("PLOI", "Rainy");
    ("AVERSE", "Showers");
    ("FURTUNA", "Thunderstorm");
    ("NINSOARE SLABA", "Light Snow");
    ("NINSOARE", "Snow");
    ("NINSOARE MODERATA", "Moderate Snow");
    ("LAPOVITA", "Sleet");
    ("CEATA", "Fog");
    ("BURNITA", "Drizzle") ].

(** [_translate_conditions] *)
Definition _translate_conditions (romanian : string) : string :=
  if negb (PyStr.truthy romanian) then "Unknown"
  else
    let romanian_upper := str_upper romanian in
    let result_parts :=
      List.map snd
        (List.filter (fun e => PyStr.contains (fst e) romanian_upper)
                     translations) in
    match result_parts with
    | [] => str_title romanian
    | _ => PyStr.join ", " result_parts
    end.

(** The accumulators of [_parse_forecast_xml]: [forecasts],
    [valid_count], [total_count]. *)
Definition ParseAcc : Type := list CityForecast.t * Z * Z.

(** The body of the loop over the [prognoza] children of one location.
    [continue] and the handled ValueError leave the loop body with only
    [total_count] advanced. *)
Definition parse_prognoza (now : string) (city_name data_prognozei : string)
    (acc : ParseAcc) (prognoza : ET.Element) : ParseAcc :=
  let '(forecasts, valid_count, total_count) := acc in
  let total_count := total_count + 1 in
  let forecast_date := ET.get prognoza "data" "" in
  let temp_min_text := ET.findtext prognoza "temp_min" "" in
  let temp_max_text := ET.findtext prognoza "temp_max" "" in
  let conditions := ET.findtext prognoza "fenomen_descriere" "" in
  let conditions_code := ET.findtext prognoza "fenomen_simbol" "" in
  if negb (List.forallb PyStr.truthy
             [forecast_date; temp_min_text; temp_max_text])
  then (forecasts, valid_count, total_count)
  else
    match int_of_str temp_min_text with
    | None => (forecasts, valid_count, total_count)
    | Some temp_min =>
        match int_of_str temp_max_text with
        | None => (forecasts, valid_count, total_count)
        | Some temp_max =>
            let conditions_en := _translate_conditions conditions in
            let content_hash :=
              _compute_hash [city_name; forecast_date; pretty temp_min;
                             pretty temp_max; conditions] in
            let forecast :=
              {| CityForecast.city := city_name;
                 CityForecast.forecast_date := forecast_date;
                 CityForecast.data_date := data_prognozei;
                 CityForecast.temp_min := temp_min;
                 CityForecast.temp_max := temp_max;
                 CityForecast.conditions := conditions_en;
                 CityForecast.conditions_code := conditions_code;
                 CityForecast.source_url := ANM_FORECAST_XML_URL;
                 CityForecast.content_hash := content_hash;
                 CityForecast.fetched_at := now |} in
            ((forecasts ++ [forecast])%list, valid_count + 1, total_count)
        end
    end.

(** The body of the loop over the [localitate] elements. *)
Definition parse_localitate (now : string) (acc : ParseAcc)
    (localitate : ET.Element) : ParseAcc :=
  let city_name := PyStr.strip (ET.get localitate "nume" "") in
  if negb (PyStr.truthy city_name) then acc
  else
    let data_prognozei := ET.findtext localitate "DataPrognozei" "" in
    List.fold_left (parse_prognoza now city_name data_prognozei)
                   (ET.findall localitate "prognoza") acc.

(** [_parse_forecast_xml] *)
Definition _parse_forecast_xml (now : string) (content : bytes)
  : Raised + ParseAcc :=
  match ET_fromstring content with
  | inl e => inl (ValidationError ("XML parsing failed: " +:+ e))
  | inr root =>
      inr (List.fold_left (parse_localitate now)
                          (ET.findall_below "localitate" root)
                          ([], 0, 0))
  end.

(** [fetch_forecasts]: the records, the metadata and the fetcher
    afterwards *)
Definition fetch_forecasts (env : FetchEnv) (self : ANMFetcher)
  : list CityForecast.t * FetchMetadata.t * ANMFetcher :=
  let url := ANM_FORECAST_XML_URL in
  let attempt : Raised + (ParseAcc * Z) :=
    match _fetch_raw self env with
    | inl e => inl e
    | inr (raw_content, response_time) =>
        if negb (_validate_xml_structure raw_content)
        then inl (ValidationError "Invalid XML structure")
        else
          match _parse_forecast_xml (now_iso env) raw_content with
          | inl e => inl e
          | inr acc => inr (acc, response_time)
          end
    end in
  match attempt with
  | inr ((forecasts, valid_count, total_count), response_time) =>
      let cached := remove_dups (List.map CityForecast.city forecasts) in
      let data_quality := _assess_quality valid_count total_count in
      let metadata :=
        {| FetchMetadata.source_url := url;
           FetchMetadata.source_type := FORECAST;
           FetchMetadata.fetch_time := fetch_start_iso env;
           FetchMetadata.success := true;
           FetchMetadata.entries_count := total_count;
           FetchMetadata.valid_entries := valid_count;
           FetchMetadata.error_message := None;
           FetchMetadata.response_time_ms := response_time;
           FetchMetadata.data_quality := data_quality;
           FetchMetadata.is_fresh := true;
           FetchMetadata.last_modified := None |} in
      (forecasts, metadata,
       {| timeout := timeout self;
          _last_fetch_metadata := <[url := metadata]> (_last_fetch_metadata self);
          _cached_cities := cached |})
  | inl e =>
      let metadata :=
        {| FetchMetadata.source_url := url;
           FetchMetadata.source_type := FORECAST;
           FetchMetadata.fetch_time := fetch_start_iso env;
           FetchMetadata.success := false;
           FetchMetadata.entries_count := 0;
           FetchMetadata.valid_entries := 0;
           FetchMetadata.error_message := Some (str_of_exn e);
           FetchMetadata.response_time_ms := elapsed_ms env;
           FetchMetadata.data_quality := UNAVAILABLE;
           FetchMetadata.is_fresh := false;
           FetchMetadata.last_modified := None |} in
      ([], metadata,
       {| timeout := timeout self;
          _last_fetch_metadata := <[url := metadata]> (_last_fetch_metadata self);
          _cached_cities := _cached_cities self |})
  end.

(** *** Alerts *)

Definition ws : Re.regex := Re.One Re.Space.

(** The pattern "<[^>]+>" *)
Definition tag_re : Re.regex :=
  Re.Cat [Re.Lit "<"; Re.Plus true (Re.One (Re.NotChr ">")); Re.Lit ">"].

(** [html.unescape] *)
Definition html_unescape (s : string) : string :=
  if negb (PyStr.contains "&" s) then s else html_charref_sub s.

(** [_clean_html] *)
Definition _clean_html (text : string) : string :=
  if negb (PyStr.truthy text) then EmptyString
  else
    let text := Re.sub false tag_re " " text in
    let text := html_unescape text in
    PyStr.strip (Re.sub false (Re.Plus true ws) " " text).

(** The pattern "COD\s*:\s*(\w+)" *)
Definition level_re : Re.regex :=
  Re.Cat [Re.Lit "COD"; Re.Star true ws; Re.Lit ":"; Re.Star true ws;
          Re.Group 1 (Re.Plus true (Re.One Re.Word))].

Definition levels : list (string * string) :=
  [("GALBEN", "YELLOW"); ("PORTOCALIU", "ORANGE"); ("ROSU", "RED")].

(** [_extract_alert_level] *)
Definition _extract_alert_level (text : string) : option string :=
  match Re.search true level_re text with
  | Some mt =>
      let level := str_upper (Re.group mt 1) in
      Some (match ET.assoc level levels with Some l => l | None => level end)
  | None => None
  end.

(** The pattern "In zona\s*:\s*(.+?)(?:Se vor|$)" *)
Definition zones_re : Re.regex :=
  Re.Cat [Re.Lit "In zona"; Re.Star true ws; Re.Lit ":"; Re.Star true ws;
          Re.Group 1 (Re.Plus false (Re.One Re.Any));
          Re.Alt (Re.Lit "Se vor") Re.Eos].

(** [_extract_zones] *)
Definition _extract_zones (text : string) : option string :=
  match Re.search false zones_re (_clean_html text) with
  | Some mt => Some (PyStr.clip 200 (PyStr.strip (Re.group mt 1)))
  | None => None
  end.

(** The pattern "Intre orele\s*:\s*([\d:]+)\s*si\s*([\d:]+)" *)
Definition time_re : Re.regex :=
  let hhmm := Re.Plus true (Re.One (Re.Union Re.Digit (Re.Chr ":"))) in
  Re.Cat [Re.Lit "Intre orele"; Re.Star true ws; Re.Lit ":"; Re.Star true ws;
          Re.Group 1 hhmm; Re.Star true ws; Re.Lit "si"; Re.Star true ws;
          Re.Group 2 hhmm].

(** [_extract_time_range] *)
Definition _extract_time_range (text : string) : option string :=
  match Re.search false time_re text with
  | Some mt => Some (Re.group mt 1 +:+ " - " +:+ Re.group mt 2)
  | None => None
  end.

(** The [patterns] list of [_format_alert_description]:
    "Se vor semnala\s*:\s*(.+?)(?:$)",
    "Fenomene vizate\s*:\s*(.+?)(?:$)",
    "Fenomene\s*:\s*conform textelor\s+Mesaj\s*:\s*(.+?)(?:Interval de valabilitate|$)" *)
Definition patterns : list Re.regex :=
  let body := Re.Group 1 (Re.Plus false (Re.One Re.Any)) in
  [ Re.Cat [Re.Lit "Se vor semnala"; Re.Star true ws; Re.Lit ":";
            Re.Star true ws; body; Re.Eos];
    Re.Cat [Re.Lit "Fenomene vizate"; Re.Star true ws; Re.Lit ":";
            Re.Star true ws; body; Re.Eos];
    Re.Cat [Re.Lit "Fenomene"; Re.Star true ws; Re.Lit ":"; Re.Star true ws;
            Re.Lit "conform textelor"; Re.Plus true ws; Re.Lit "Mesaj";
            Re.Star true ws; Re.Lit ":"; Re.Star true ws; body;
            Re.Alt (Re.Lit "Interval de valabilitate") Re.Eos] ].

(** The pattern "\s*Interval de valabilitate.*$" *)
Definition validity_tail_re : Re.regex :=
  Re.Cat [Re.Star true ws; Re.Lit "Interval de valabilitate";
          Re.Star true (Re.One Re.Any); Re.Eos].

(** The fallback pattern: "Mesaj\s*:\s*", then the optional group
    "MESAJ\s*\d+/\d+\s*", then "(.+?)(?:Interval de valabilitate|$)" *)
Definition mesaj_re : Re.regex :=
  Re.Cat [Re.Lit "Mesaj"; Re.Star true ws; Re.Lit ":"; Re.Star true ws;
          Re.Opt (Re.Cat [Re.Lit "MESAJ"; Re.Star true ws;
                          Re.Plus true (Re.One Re.Digit); Re.Lit "/";
                          Re.Plus true (Re.One Re.Digit); Re.Star true ws]);
          Re.Group 1 (Re.Plus false (Re.One Re.Any));
          Re.Alt (Re.Lit "Interval de valabilitate") Re.Eos].

(** The [for pattern in patterns] loop of [_format_alert_description]:
    [Some r] is [return r] from inside the loop, [None] is the loop
    running to its end. *)
Fixpoint try_patterns (ps : list Re.regex) (clean : string) : option string :=
  match ps with
  | [] => None
  | pattern :: ps' =>
      match Re.search true pattern clean with
      | Some mt =>
          let result := PyStr.strip (Re.group mt 1) in
          let result := Re.sub true validity_tail_re EmptyString result in
          if 20 <? PyStr.len result then Some (PyStr.clip 500 result)
          else try_patterns ps' clean
      | None => try_patterns ps' clean
      end
  end.

(** [_format_alert_description] *)
Definition _format_alert_description (text : string) : string :=
  let clean := _clean_html text in
  match try_patterns patterns clean with
  | Some result => result
  | None =>
      let fallback := PyStr.clip 500 clean in
      match Re.search true mesaj_re clean with
      | Some mt =>
          let result := PyStr.strip (Re.group mt 1) in
          if 20 <? PyStr.len result then PyStr.clip 500 result
          else fallback
      | None => fallback
      end
  end.

(** [str(x)] for an optional string *)
Definition str_of_optional (x : option string) : string :=
  match x with Some v => v | None => "None" end.

(** The [try] block in the loop of [_parse_alert_rss]: the alert built
    from one entry.  Every call in it is total on strings, so the
    handler of the block is never entered. *)
Definition alert_of_entry (now : string) (item : Feedparser.Entry)
  : WeatherAlert.t :=
  let title :=
    _clean_html (PyStr.or_ (default EmptyString (Feedparser.title item))
                           EmptyString) in
  let description_raw :=
    PyStr.or_ (default EmptyString (Feedparser.summary item))
      (PyStr.or_ (default EmptyString (Feedparser.description item))
                 EmptyString) in
  let alert_level := _extract_alert_level description_raw in
  let affected_zones := _extract_zones description_raw in
  let time_range := _extract_time_range description_raw in
  let description := _format_alert_description description_raw in
  let published_at :=
    match Feedparser.published_parsed item with
    | Some (_ :: _ as t) =>
        match datetime_isoformat (List.firstn 6 t) with
        | Some iso => Some iso
        | None => Feedparser.published item
        end
    | _ => None
    end in
  let link := Feedparser.link item in
  let content_hash :=
    _compute_hash [title; description_raw; str_of_optional published_at] in
  {| WeatherAlert.title := if PyStr.truthy title then title else "Weather Alert";
     WeatherAlert.description := description;
     WeatherAlert.published_at := published_at;
     WeatherAlert.link := link;
     WeatherAlert.alert_level := alert_level;
     WeatherAlert.affected_zones := affected_zones;
     WeatherAlert.time_range := time_range;
     WeatherAlert.source_url := ANM_ALERTS_RSS_URL;
     WeatherAlert.content_hash := content_hash;
     WeatherAlert.fetched_at := now |}.

(** The body of the loop of [_parse_alert_rss] over the entries. *)
Definition parse_entry (now : string)
    (acc : list WeatherAlert.t * Z * Z) (item : Feedparser.Entry)
  : list WeatherAlert.t * Z * Z :=
  let '(alerts, valid_count, total_count) := acc in
  let total_count := total_count + 1 in
  let alert := alert_of_entry now item in
  ((alerts ++ [alert])%list, valid_count + 1, total_count).

(** [_parse_alert_rss] *)
Definition _parse_alert_rss (now : string) (content : bytes)
  : Raised + (list WeatherAlert.t * Z * Z) :=
  let parsed := feedparser_parse content in
  if Feedparser.bozo parsed
     && match Feedparser.entries parsed with [] => true | _ => false end
  then inl (ValidationError
              ("RSS parsing failed: " +:+ Feedparser.bozo_exception parsed))
  else inr (List.fold_left (parse_entry now) (Feedparser.entries parsed)
                           ([], 0, 0)).

(** [fetch_alerts] *)
Definition fetch_alerts (env : FetchEnv) (self : ANMFetcher)
  : list WeatherAlert.t * FetchMetadata.t * ANMFetcher :=
  let url := ANM_ALERTS_RSS_URL in
  let attempt : Raised + (list WeatherAlert.t * Z * Z * Z) :=
    match _fetch_raw self env with
    | inl e => inl e
    | inr (raw_content, response_time) =>
        match _parse_alert_rss (now_iso env) raw_content with
        | inl e => inl e
        | inr acc => inr (acc, response_time)
        end
    end in
  match attempt with
  | inr ((alerts, valid_count, total_count), response_time) =>
      let data_quality := _assess_quality valid_count total_count in
      let metadata :=
        {| FetchMetadata.source_url := url;
           FetchMetadata.source_type := ALERT;
           FetchMetadata.fetch_time := fetch_start_iso env;
           FetchMetadata.success := true;
           FetchMetadata.entries_count := total_count;
           FetchMetadata.valid_entries := valid_count;
           FetchMetadata.error_message := None;
           FetchMetadata.response_time_ms := response_time;
           FetchMetadata.data_quality := data_quality;
           FetchMetadata.is_fresh := true;
           FetchMetadata.last_modified := None |} in
      (alerts, metadata,
       {| timeout := timeout self;
          _last_fetch_metadata := <[url := metadata]> (_last_fetch_metadata self);
          _cached_cities := _cached_cities self |})
  | inl e =>
      let metadata :=
        {| FetchMetadata.source_url := url;
           FetchMetadata.source_type := ALERT;
           FetchMetadata.fetch_time := fetch_start_iso env;
           FetchMetadata.success := false;
           FetchMetadata.entries_count := 0;
           FetchMetadata.valid_entries := 0;
           FetchMetadata.error_message := Some (str_of_exn e);
           FetchMetadata.response_time_ms := elapsed_ms env;
           FetchMetadata.data_quality := UNAVAILABLE;
           FetchMetadata.is_fresh := false;
           FetchMetadata.last_modified := None |} in
      ([], metadata,
       {| timeout := timeout self;
          _last_fetch_metadata := <[url := metadata]> (_last_fetch_metadata self);
          _cached_cities := _cached_cities self |})
  end.

End WithRuntime.

(** [sorted(l)] on strings, by insertion *)
Fixpoint insert_sorted (x : string) (l : list string) : list string :=
  match l with
  | [] => [x]
  | y :: l' => if String.leb x y then x :: l else y :: insert_sorted x l'
  end.

Definition sorted (l : list string) : list string :=
  List.fold_right insert_sorted [] l.

(** [get_available_cities] *)
Definition get_available_cities (self : ANMFetcher) : list string :=
  sorted (_cached_cities self).

Definition FORECAST_SOURCE_name : string := "ANM Romania Forecasts".
Definition ALERT_SOURCE_name : string := "ANM Romania Alerts".

End Fetcher.

(** ** database.py *)

Module Database.

(** One call of a [Database] method runs its SQL statements in order,
    numbered from 0.  A [Fault] names the statement, if any, at which the
    engine raises [sqlite3.Error] for a reason outside the data (I/O,
    locking, a full disk), with the text of the exception. *)
Definition Fault : Type := option (nat * string).

Definition raises (f : Fault) (i : nat) : option string :=
  match f with
  | Some (j, msg) => if (j =? i)%nat then Some msg else None
  | None => None
  end.

Module ForecastRow.
Record t := {
  id : Z;
  city : string;
  forecast_date : string;
  data_date : string;
  temp_min : Z;
  temp_max : Z;
  conditions : string;
  conditions_code : string;
  source_url : string;
  content_hash : string;
  fetched_at : string
}.
End ForecastRow.

Module AlertRow.
Record t := {
  id : Z;
  title : string;
  description : string;
  published_at : option string;
  link : option string;
  alert_level : option string;
  affected_zones : option string;
  time_range : option string;
  source_url : string;
  content_hash : string;
  fetched_at : string;
  is_active : Z
}.
End AlertRow.

(** A row of [source_status].  Rows are written by [update_source_status]
    only, which stores no NULL in the counters; there is no column for the
    reliability percentage. *)
Module SourceStatus.
Record t := {
  id : Z;
  source_url : string;
  source_type : string;
  source_name : string;
  last_fetch_at : option string;
  last_success_at : option string;
  fetch_count : Z;
  success_count : Z;
  error_count : Z;
  last_error : option string;
  status : string;
  data_quality : string;
  is_fresh : Z;
  avg_response_time_ms : Z;
  last_response_time_ms : Z;
  consecutive_failures : Z;
  entries_count : Z
}.
End SourceStatus.

(** The tables, and for each AUTOINCREMENT key the largest rowid handed out
    so far ([sqlite_sequence]).  [source_status] is keyed by its UNIQUE
    [source_url]. *)
Record t := {
  city_forecasts : list ForecastRow.t;
  city_forecasts_seq : Z;
  weather_alerts : list AlertRow.t;
  weather_alerts_seq : Z;
  source_status : gmap string SourceStatus.t;
  source_status_seq : Z
}.

(** [Database()] on a new file: [_init_schema] creates empty tables. *)
Definition init : t :=
  {| city_forecasts := []; city_forecasts_seq := 0;
     weather_alerts := []; weather_alerts_seq := 0;
     source_status := ∅; source_status_seq := 0 |}.

(** The rowid of INTEGER PRIMARY KEY AUTOINCREMENT: one more than the
    largest rowid that ever existed in the table. *)
Definition next_rowid (seq : Z) (ids : list Z) : Z :=
  List.fold_right Z.max seq ids + 1.

(** *** Forecasts *)

(** WHERE city = ? AND forecast_date = ? *)
Definition forecast_key_is (city forecast_date : string) (r : ForecastRow.t) : bool :=
  String.eqb (ForecastRow.city r) city
  && String.eqb (ForecastRow.forecast_date r) forecast_date.

(** DELETE FROM city_forecasts WHERE city = ? AND forecast_date = ? *)
Definition delete_forecasts (city forecast_date : string) (self : t) : t :=
  {| city_forecasts :=
       List.filter (fun r => negb (forecast_key_is city forecast_date r))
                   (city_forecasts self);
     city_forecasts_seq := city_forecasts_seq self;
     weather_alerts := weather_alerts self;
     weather_alerts_seq := weather_alerts_seq self;
     source_status := source_status self;
     source_status_seq := source_status_seq self |}.

(** UNIQUE(city, forecast_date, content_hash) *)
Definition forecast_unique_conflict (city forecast_date content_hash : string)
    (self : t) : bool :=
  List.existsb
    (fun r => forecast_key_is city forecast_date r
              && String.eqb (ForecastRow.content_hash r) content_hash)
    (city_forecasts self).

(** INSERT INTO city_forecasts (...) VALUES (...); [None] is the
    IntegrityError of the UNIQUE constraint.  [now] is the default of
    [fetched_at]. *)
Definition insert_forecast_row (now : string) (self : t)
    (city forecast_date data_date : string) (temp_min temp_max : Z)
    (conditions conditions_code source_url content_hash : string) : option t :=
  if forecast_unique_conflict city forecast_date content_hash self then None
  else
    let rowid :=
      next_rowid (city_forecasts_seq self)
                 (List.map ForecastRow.id (city_forecasts self)) in
    let row :=
      {| ForecastRow.id := rowid;
         ForecastRow.city := city;
         ForecastRow.forecast_date := forecast_date;
         ForecastRow.data_date := data_date;
         ForecastRow.temp_min := temp_min;
         ForecastRow.temp_max := temp_max;
         ForecastRow.conditions := conditions;
         ForecastRow.conditions_code := conditions_code;
         ForecastRow.source_url := source_url;
         ForecastRow.content_hash := content_hash;
         ForecastRow.fetched_at := now |} in
    Some {| city_forecasts := (city_forecasts self ++ [row])%list;
            city_forecasts_seq := rowid;
            weather_alerts := weather_alerts self;
            weather_alerts_seq := weather_alerts_seq self;
            source_status := source_status self;
            source_status_seq := source_status_seq self |}.

(** [insert_forecast].  The connection is in autocommit mode, so a DELETE
    that succeeded stays when the INSERT raises. *)
Definition insert_forecast (fault : Fault) (now : string) (self : t)
    (city forecast_date data_date : string) (temp_min temp_max : Z)
    (conditions conditions_code source_url content_hash : string) : t * bool :=
  match raises fault 0 with
  | Some _ => (self, false)
  | None =>
      let self1 := delete_forecasts city forecast_date self in
      match raises fault 1 with
      | Some _ => (self1, false)
      | None =>
          match insert_forecast_row now self1 city forecast_date data_date
                  temp_min temp_max conditions conditions_code source_url
                  content_hash with
          | Some self2 => (self2, true)
          | None => (self1, false)
          end
      end
  end.

(** [get_all_cities]: SELECT DISTINCT city, unordered *)
Definition distinct_cities (self : t) : list string :=
  remove_dups (List.map ForecastRow.city (city_forecasts self)).

(** *** Alerts *)

(** content_hash TEXT NOT NULL UNIQUE *)
Definition alert_hash_exists (content_hash : string) (self : t) : bool :=
  List.existsb (fun r => String.eqb (AlertRow.content_hash r) content_hash)
               (weather_alerts self).

(** INSERT OR IGNORE INTO weather_alerts (...) VALUES (...): the table
    afterwards and the value of [changes()]. *)
Definition insert_or_ignore_alert (now : string) (self : t)
    (title description : string)
    (published_at link alert_level affected_zones time_range : option string)
    (source_url content_hash : string) : t * Z :=
  if alert_hash_exists content_hash self then (self, 0)
  else
    let rowid :=
      next_rowid (weather_alerts_seq self)
                 (List.map AlertRow.id (weather_alerts self)) in
    let row :=
      {| AlertRow.id := rowid;
         AlertRow.title := title;
         AlertRow.description := description;
         AlertRow.published_at := published_at;
         AlertRow.link := link;
         AlertRow.alert_level := alert_level;
         AlertRow.affected_zones := affected_zones;
         AlertRow.time_range := time_range;
         AlertRow.source_url := source_url;
         AlertRow.content_hash := content_hash;
         AlertRow.fetched_at := now;
         AlertRow.is_active := 1 |} in
    ({| city_forecasts := city_forecasts self;
        city_forecasts_seq := city_forecasts_seq self;
        weather_alerts := (weather_alerts self ++ [row])%list;
        weather_alerts_seq := rowid;
        source_status := source_status self;
        source_status_seq := source_status_seq self |}, 1).

(** [insert_alert] *)
Definition insert_alert (fault : Fault) (now : string) (self : t)
    (title description : string)
    (published_at link alert_level affected_zones time_range : option string)
    (source_url content_hash : string) : t * bool :=
  match raises fault 0 with
  | Some _ => (self, false)
  | None =>
      let '(self1, changes) :=
        insert_or_ignore_alert now self title description published_at link
          alert_level affected_zones time_range source_url content_hash in
      match raises fault 1 with
      | Some _ => (self1, false)
      | None => (self1, 0 <? changes)
      end
  end.

(** [get_alert_count] *)
Definition get_alert_count (self : t) : Z :=
  Z.of_nat (List.length
              (List.filter (fun r => AlertRow.is_active r =? 1)
                           (weather_alerts self))).

(** *** Source status *)

(** [update_source_status]; the left summand is a [sqlite3.Error] that
    leaves the method (it has no handler of its own).  [now] is
    [datetime.utcnow().isoformat()]. *)
Definition update_source_status (fault : Fault) (now : string) (self : t)
    (source_url source_type source_name : string) (success : bool)
    (data_quality : string) (is_fresh : bool) (entries_count : Z)
    (error_message : option string) (response_time_ms : Z) : string + t :=
  let status := if success then "ok" else "error" in
  match raises fault 0 with
  | Some e => inl e
  | None =>
      let existing := source_status self !! source_url in
      match raises fault 1 with
      | Some e => inl e
      | None =>
          match existing with
          | Some row =>
              let fetch_count := SourceStatus.fetch_count row in
              let old_avg := SourceStatus.avg_response_time_ms row in
              let old_failures := SourceStatus.consecutive_failures row in
              let new_avg :=
                if 0 <? fetch_count
                then Z.quot (old_avg * fetch_count + response_time_ms)
                            (fetch_count + 1)
                else response_time_ms in
              let consecutive_failures :=
                if success then 0 else old_failures + 1 in
              let row' :=
                {| SourceStatus.id := SourceStatus.id row;
                   SourceStatus.source_url := SourceStatus.source_url row;
                   SourceStatus.source_type := source_type;
                   SourceStatus.source_name := source_name;
                   SourceStatus.last_fetch_at := Some now;
                   SourceStatus.last_success_at :=
                     if success then Some now
                     else SourceStatus.last_success_at row;
                   SourceStatus.fetch_count := SourceStatus.fetch_count row + 1;
                   SourceStatus.success_count :=
                     SourceStatus.success_count row + (if success then 1 else 0);
                   SourceStatus.error_count :=
                     SourceStatus.error_count row + (if success then 0 else 1);
                   SourceStatus.last_error :=
                     if success then None else error_message;
                   SourceStatus.status := status;
                   SourceStatus.data_quality := data_quality;
                   SourceStatus.is_fresh := if is_fresh then 1 else 0;
                   SourceStatus.avg_response_time_ms := new_avg;
                   SourceStatus.last_response_time_ms := response_time_ms;
                   SourceStatus.consecutive_failures := consecutive_failures;
                   SourceStatus.entries_count := entries_count |} in
              inr {| city_forecasts := city_forecasts self;
                     city_forecasts_seq := city_forecasts_seq self;
                     weather_alerts := weather_alerts self;
                     weather_alerts_seq := weather_alerts_seq self;
                     source_status := <[source_url := row']> (source_status self);
                     source_status_seq := source_status_seq self |}
          | None =>
              let rowid :=
                next_rowid (source_status_seq self)
                  (List.map (fun kv => SourceStatus.id (snd kv))
                            (map_to_list (source_status self))) in
              let row' :=
                {| SourceStatus.id := rowid;
                   SourceStatus.source_url := source_url;
                   SourceStatus.source_type := source_type;
                   SourceStatus.source_name := source_name;
                   SourceStatus.last_fetch_at := Some now;
                   SourceStatus.last_success_at :=
                     if success then Some now else None;
                   SourceStatus.fetch_count := 1;
                   SourceStatus.success_count := if success then 1 else 0;
                   SourceStatus.error_count := if success then 0 else 1;
                   SourceStatus.last_error := error_message;
                   SourceStatus.status := status;
                   SourceStatus.data_quality := data_quality;
                   SourceStatus.is_fresh := if is_fresh then 1 else 0;
                   SourceStatus.avg_response_time_ms := response_time_ms;
                   SourceStatus.last_response_time_ms := response_time_ms;
                   SourceStatus.consecutive_failures := if success then 0 else 1;
                   SourceStatus.entries_count := entries_count |} in
              inr {| city_forecasts := city_forecasts self;
                     city_forecasts_seq := city_forecasts_seq self;
                     weather_alerts := weather_alerts self;
                     weather_alerts_seq := weather_alerts_seq self;
                     source_status := <[source_url := row']> (source_status self);
                     source_status_seq := rowid |}
          end
      end
  end.

(** ROUND(x, 1): one decimal, halves away from zero, as a fraction in
    lowest terms.  (The binary64 arithmetic of SQLite is taken as exact.) *)
Definition round1 (x : Q) : Q :=
  let t := (x * inject_Z 10)%Q in
  let n := if Qle_bool 0 t then Qfloor (t + (1 # 2))%Q
           else - Qfloor (- t + (1 # 2))%Q in
  Qred (inject_Z n / inject_Z 10)%Q.

(** The column [reliability_percent] of [get_system_status]:
    CASE WHEN fetch_count > 0
         THEN ROUND(CAST(success_count AS FLOAT) / fetch_count * 100, 1)
         ELSE 0 END *)
Definition reliability_percent (row : SourceStatus.t) : Q :=
  if 0 <? SourceStatus.fetch_count row
  then round1 (inject_Z (SourceStatus.success_count row)
               / inject_Z (SourceStatus.fetch_count row) * inject_Z 100)%Q
  else 0%Q.

(** ORDER BY source_type, source_url *)
Definition status_leb (a b : SourceStatus.t) : bool :=
  if String.eqb (SourceStatus.source_type a) (SourceStatus.source_type b)
  then String.leb (SourceStatus.source_url a) (SourceStatus.source_url b)
  else String.leb (SourceStatus.source_type a) (SourceStatus.source_type b).

Fixpoint insert_status (x : SourceStatus.t) (l : list SourceStatus.t) :=
  match l with
  | [] => [x]
  | y :: l' => if status_leb x y then x :: l else y :: insert_status x l'
  end.

(** [get_system_status]: every stored row with its derived reliability *)
Definition get_system_status (self : t) : list (SourceStatus.t * Q) :=
  List.map (fun row => (row, reliability_percent row))
    (List.fold_right insert_status []
       (List.map snd (map_to_list (source_status self)))).

End Database.

(** ** scheduler.py *)

Module Scheduler.

Definition FORECAST_POLL_INTERVAL_MINUTES : Z := 60.
Definition ALERT_POLL_INTERVAL_MINUTES : Z := 10.

Module FetchResult.
Record t := {
  source_url : string;
  source_type : string;
  source_name : string;
  success : bool;
  entries_added : Z;
  total_entries : Z;
  error_message : option string;
  fetch_time : string;
  data_quality : string;
  response_time_ms : Z
}.
End FetchResult.

(** [forecast_healthy] and [alert_healthy] hold the value of
    [result and result.success]: [None] while there is no result. *)
Module SyncStatus.
Record t := {
  last_sync_time : string;
  forecast_healthy : option bool;
  alert_healthy : option bool;
  overall_quality : string;
  cities_available : Z;
  active_alerts : Z
}.
End SyncStatus.

(** The callables registered with the background scheduler. *)
Inductive JobFunc := Call_fetch_forecasts | Call_fetch_alerts.

Record Job := {
  func : JobFunc;
  name : string;
  minutes : Z;
  max_instances : Z;
  coalesce : bool
}.

Record WeatherScheduler := {
  database : Database.t;
  forecast_interval : Z;
  alert_interval : Z;
  fetcher : Fetcher.ANMFetcher;
  scheduler : gmap string Job;
  _is_running : bool;
  _last_forecast_result : option FetchResult.t;
  _last_alert_result : option FetchResult.t;
  _last_sync_status : option SyncStatus.t
}.

(** [WeatherScheduler(database, forecast_interval, alert_interval)] *)
Definition init (database : Database.t) (forecast_interval alert_interval : Z)
  : WeatherScheduler :=
  {| database := database;
     forecast_interval := forecast_interval;
     alert_interval := alert_interval;
     fetcher := Fetcher.init Fetcher.DEFAULT_TIMEOUT;
     scheduler := ∅;
     _is_running := false;
     _last_forecast_result := None;
     _last_alert_result := None;
     _last_sync_status := None |}.

(** The outside world during one run for one source: the fetch, the engine
    fault (if any) at the insert of the i-th record and at the status
    update, the clock of the database and the clock read by the handler. *)
Record RunEnv := {
  net : Fetcher.FetchEnv;
  insert_fault : nat -> Database.Fault;
  status_fault : Database.Fault;
  db_now : string;
  handler_now : string
}.

Definition set_forecast_run (self : WeatherScheduler) (db : Database.t)
    (f : Fetcher.ANMFetcher) (r : FetchResult.t) : WeatherScheduler :=
  {| database := db;
     forecast_interval := forecast_interval self;
     alert_interval := alert_interval self;
     fetcher := f;
     scheduler := scheduler self;
     _is_running := _is_running self;
     _last_forecast_result := Some r;
     _last_alert_result := _last_alert_result self;
     _last_sync_status := _last_sync_status self |}.

Definition set_alert_run (self : WeatherScheduler) (db : Database.t)
    (f : Fetcher.ANMFetcher) (r : FetchResult.t) : WeatherScheduler :=
  {| database := db;
     forecast_interval := forecast_interval self;
     alert_interval := alert_interval self;
     fetcher := f;
     scheduler := scheduler self;
     _is_running := _is_running self;
     _last_forecast_result := _last_forecast_result self;
     _last_alert_result := Some r;
     _last_sync_status := _last_sync_status self |}.

Section WithRuntime.
Context `{PyRuntime}.

(** The loop of [_fetch_forecasts] that stores the records; [i] is the
    index of the next record, [added] the counter. *)
Fixpoint store_forecasts (env : RunEnv) (i : nat) (db : Database.t)
    (added : Z) (forecasts : list Fetcher.CityForecast.t) : Database.t * Z :=
  match forecasts with
  | [] => (db, added)
  | forecast :: rest =>
      let '(db', inserted) :=
        Database.insert_forecast (insert_fault env i) (db_now env) db
          (Fetcher.CityForecast.city forecast)
          (Fetcher.CityForecast.forecast_date forecast)
          (Fetcher.CityForecast.data_date forecast)
          (Fetcher.CityForecast.temp_min forecast)
          (Fetcher.CityForecast.temp_max forecast)
          (Fetcher.CityForecast.conditions forecast)
          (Fetcher.CityForecast.conditions_code forecast)
          (Fetcher.CityForecast.source_url forecast)
          (Fetcher.CityForecast.content_hash forecast) in
      store_forecasts env (S i) db' (if inserted then added + 1 else added) rest
  end.

(** [_fetch_forecasts] *)
Definition _fetch_forecasts (env : RunEnv) (self : WeatherScheduler)
  : WeatherScheduler * FetchResult.t :=
  let '(forecasts, metadata, fetcher1) :=
    Fetcher.fetch_forecasts (net env) (fetcher self) in
  let '(db1, added) := store_forecasts env 0 (database self) 0 forecasts in
  match
    Database.update_source_status (status_fault env) (db_now env) db1
      (Fetcher.FetchMetadata.source_url metadata) "forecast"
      Fetcher.FORECAST_SOURCE_name
      (Fetcher.FetchMetadata.success metadata)
      (Fetcher.DataQuality_value (Fetcher.FetchMetadata.data_quality metadata))
      (Fetcher.FetchMetadata.is_fresh metadata)
      (Fetcher.FetchMetadata.valid_entries metadata)
      (Fetcher.FetchMetadata.error_message metadata)
      (Fetcher.FetchMetadata.response_time_ms metadata)
  with
  | inr db2 =>
      let result :=
        {| FetchResult.source_url := Fetcher.FetchMetadata.source_url metadata;
           FetchResult.source_type := "forecast";
           FetchResult.source_name := Fetcher.FORECAST_SOURCE_name;
           FetchResult.success := Fetcher.FetchMetadata.success metadata;
           FetchResult.entries_added := added;
           FetchResult.total_entries := Fetcher.FetchMetadata.entries_count metadata;
           FetchResult.error_message := Fetcher.FetchMetadata.error_message metadata;
           FetchResult.fetch_time := Fetcher.FetchMetadata.fetch_time metadata;
           FetchResult.data_quality :=
             Fetcher.DataQuality_value (Fetcher.FetchMetadata.data_quality metadata);
           FetchResult.response_time_ms :=
             Fetcher.FetchMetadata.response_time_ms metadata |} in
      (set_forecast_run self db2 fetcher1 result, result)
  | inl e =>
      let result :=
        {| FetchResult.source_url := Fetcher.ANM_FORECAST_XML_URL;
           FetchResult.source_type := "forecast";
           FetchResult.source_name := Fetcher.FORECAST_SOURCE_name;
           FetchResult.success := false;
           FetchResult.entries_added := 0;
           FetchResult.total_entries := 0;
           FetchResult.error_message := Some e;
           FetchResult.fetch_time := handler_now env;
           FetchResult.data_quality :=
             Fetcher.DataQuality_value Fetcher.UNAVAILABLE;
           FetchResult.response_time_ms := 0 |} in
      (set_forecast_run self db1 fetcher1 result, result)
  end.

(** The loop of [_fetch_alerts] that stores the records. *)
Fixpoint store_alerts (env : RunEnv) (i : nat) (db : Database.t)
    (added : Z) (alerts : list Fetcher.WeatherAlert.t) : Database.t * Z :=
  match alerts with
  | [] => (db, added)
  | alert :: rest =>
      let '(db', inserted) :=
        Database.insert_alert (insert_fault env i) (db_now env) db
          (Fetcher.WeatherAlert.title alert)
          (Fetcher.WeatherAlert.description alert)
          (Fetcher.WeatherAlert.published_at alert)
          (Fetcher.WeatherAlert.link alert)
          (Fetcher.WeatherAlert.alert_level alert)
          (Fetcher.WeatherAlert.affected_zones alert)
          (Fetcher.WeatherAlert.time_range alert)
          (Fetcher.WeatherAlert.source_url alert)
          (Fetcher.WeatherAlert.content_hash alert) in
      store_alerts env (S i) db' (if inserted then added + 1 else added) rest
  end.

(** [_fetch_alerts] *)
Definition _fetch_alerts (env : RunEnv) (self : WeatherScheduler)
  : WeatherScheduler * FetchResult.t :=
  let '(alerts, metadata, fetcher1) :=
    Fetcher.fetch_alerts (net env) (fetcher self) in
  let '(db1, added) := store_alerts env 0 (database self) 0 alerts in
  match
    Database.update_source_status (status_fault env) (db_now env) db1
      (Fetcher.FetchMetadata.source_url metadata) "alert"
      Fetcher.ALERT_SOURCE_name
      (Fetcher.FetchMetadata.success metadata)
      (Fetcher.DataQuality_value (Fetcher.FetchMetadata.data_quality metadata))
      (Fetcher.FetchMetadata.is_fresh metadata)
      (Fetcher.FetchMetadata.valid_entries metadata)
      (Fetcher.FetchMetadata.error_message metadata)
      (Fetcher.FetchMetadata.response_time_ms metadata)
  with
  | inr db2 =>
      let result :=
        {| FetchResult.source_url := Fetcher.FetchMetadata.source_url metadata;
           FetchResult.source_type := "alert";
           FetchResult.source_name := Fetcher.ALERT_SOURCE_name;
           FetchResult.success := Fetcher.FetchMetadata.success metadata;
           FetchResult.entries_added := added;
           FetchResult.total_entries := Fetcher.FetchMetadata.entries_count metadata;
           FetchResult.error_message := Fetcher.FetchMetadata.error_message metadata;
           FetchResult.fetch_time := Fetcher.FetchMetadata.fetch_time metadata;
           FetchResult.data_quality :=
             Fetcher.DataQuality_value (Fetcher.FetchMetadata.data_quality metadata);
           FetchResult.response_time_ms :=
             Fetcher.FetchMetadata.response_time_ms metadata |} in
      (set_alert_run self db2 fetcher1 result, result)
  | inl e =>
      let result :=
        {| FetchResult.source_url := Fetcher.ANM_ALERTS_RSS_URL;
           FetchResult.source_type := "alert";
           FetchResult.source_name := Fetcher.ALERT_SOURCE_name;
           FetchResult.success := false;
           FetchResult.entries_added := 0;
           FetchResult.total_entries := 0;
           FetchResult.error_message := Some e;
           FetchResult.fetch_time := handler_now env;
           FetchResult.data_quality :=
             Fetcher.DataQuality_value Fetcher.UNAVAILABLE;
           FetchResult.response_time_ms := 0 |} in
      (set_alert_run self db1 fetcher1 result, result)
  end.

End WithRuntime.

(** [result and result.success] *)
Definition and_success (r : option FetchResult.t) : option bool :=
  match r with Some x => Some (FetchResult.success x) | None => None end.

(** Truthiness of [None], [True], [False] *)
Definition truthy (o : option bool) : bool :=
  match o with Some b => b | None => false end.

(** [_update_sync_status]; [now] is [datetime.utcnow().isoformat()] *)
Definition _update_sync_status (now : string) (self : WeatherScheduler)
  : WeatherScheduler :=
  let forecast_ok := and_success (_last_forecast_result self) in
  let alert_ok := and_success (_last_alert_result self) in
  let overall :=
    if truthy forecast_ok && truthy alert_ok then "valid"
    else if truthy forecast_ok || truthy alert_ok then "partial"
    else "unavailable" in
  {| database := database self;
     forecast_interval := forecast_interval self;
     alert_interval := alert_interval self;
     fetcher := fetcher self;
     scheduler := scheduler self;
     _is_running := _is_running self;
     _last_forecast_result := _last_forecast_result self;
     _last_alert_result := _last_alert_result self;
     _last_sync_status :=
       Some {| SyncStatus.last_sync_time := now;
               SyncStatus.forecast_healthy := forecast_ok;
               SyncStatus.alert_healthy := alert_ok;
               SyncStatus.overall_quality := overall;
               SyncStatus.cities_available :=
                 Z.of_nat (List.length
                             (Fetcher.get_available_cities (fetcher self)));
               SyncStatus.active_alerts :=
                 Database.get_alert_count (database self) |} |}.

(** [fetch_all]: the forecasts, then the alerts, then the sync status *)
Definition fetch_all `{PyRuntime} (env_forecast env_alert : RunEnv)
    (now : string) (self : WeatherScheduler)
  : WeatherScheduler * list FetchResult.t :=
  let '(self1, forecast_result) := _fetch_forecasts env_forecast self in
  let '(self2, alert_result) := _fetch_alerts env_alert self1 in
  (_update_sync_status now self2, [forecast_result; alert_result]).

(** [trigger_immediate_fetch] *)
Definition trigger_immediate_fetch `{PyRuntime} (env_forecast env_alert : RunEnv)
    (now : string) (self : WeatherScheduler)
  : WeatherScheduler * list FetchResult.t :=
  fetch_all env_forecast env_alert now self.

(** [start]: registers the two jobs ([replace_existing=True]) unless the
    scheduler runs already *)
Definition start (self : WeatherScheduler) : WeatherScheduler :=
  if _is_running self then self
  else
    let forecast_job :=
      {| func := Call_fetch_forecasts; name := "ANM XML Forecast Fetch";
         minutes := forecast_interval self; max_instances := 1;
         coalesce := true |} in
    let alert_job :=
      {| func := Call_fetch_alerts; name := "ANM RSS Alert Fetch";
         minutes := alert_interval self; max_instances := 1;
         coalesce := true |} in
    {| database := database self;
       forecast_interval := forecast_interval self;
       alert_interval := alert_interval self;
       fetcher := fetcher self;
       scheduler :=
         <["alert_job" := alert_job]>
           (<["forecast_job" := forecast_job]> (scheduler self));
       _is_running := true;
       _last_forecast_result := _last_forecast_result self;
       _last_alert_result := _last_alert_result self;
       _last_sync_status := _last_sync_status self |}.


(** One firing of the interval trigger of the job [id]: the background
    scheduler calls the registered callable and drops what it returns. *)
Definition run_job `{PyRuntime} (id : string) (env : RunEnv)
    (self : WeatherScheduler) : WeatherScheduler :=
  if _is_running self then
    match scheduler self !! id with
    | Some job =>
        match func job with
        | Call_fetch_forecasts => fst (_fetch_forecasts env self)
        | Call_fetch_alerts => fst (_fetch_alerts env self)
        end
    | None => self
    end
  else self.

(** [get_last_results] *)
Definition get_last_results (self : WeatherScheduler) : list FetchResult.t :=
  (match _last_forecast_result self with Some r => [r] | None => [] end
   ++ match _last_alert_result self with Some r => [r] | None => [] end)%list.

(** [get_sync_status] *)
Definition get_sync_status (self : WeatherScheduler) : option SyncStatus.t :=
  _last_sync_status self.

End Scheduler.

(** ** The forecast document, in the words of the specification

    The locations of a document are the [localitate] elements below its
    root; the name of a location is its [nume] attribute without the
    surrounding white space; the per-day entries of a location are its
    [prognoza] children. *)

Module ForecastSpec.

Section WithRuntime.
Context `{PyRuntime}.

Definition name_of (location : ET.Element) : string :=
  PyStr.strip (ET.get location "nume" "").

Definition has_name (location : ET.Element) : bool :=
  negb (String.eqb (name_of location) EmptyString).

(** The per-day entries under the locations that have a name, each with
    its location. *)
Definition entries (root : ET.Element) : list (ET.Element * ET.Element) :=
  List.flat_map
    (fun location =>
       List.map (fun entry => (location, entry))
                (ET.findall location "prognoza"))
    (List.filter has_name (ET.findall_below "localitate" root)).

Definition parses_as_int (s : string) : bool :=
  negb (String.eqb s EmptyString)
  && match int_of_str s with Some _ => true | None => false end.

(** An entry is valid when it has a forecast date and minimum and
    maximum temperatures that parse as integers. *)
Definition entry_valid (le : ET.Element * ET.Element) : bool :=
  negb (String.eqb (ET.get (snd le) "data" "") EmptyString)
  && parses_as_int (ET.findtext (snd le) "temp_min" "")
  && parses_as_int (ET.findtext (snd le) "temp_max" "").

(** The record of a valid entry. *)
Definition record_of (now : string) (le : ET.Element * ET.Element)
  : option Fetcher.CityForecast.t :=
  let '(location, entry) := le in
  if entry_valid le then
    match int_of_str (ET.findtext entry "temp_min" ""),
          int_of_str (ET.findtext entry "temp_max" "") with
    | Some lo, Some hi =>
        let raw := ET.findtext entry "fenomen_descriere" "" in
        Some {| Fetcher.CityForecast.city := name_of location;
                Fetcher.CityForecast.forecast_date := ET.get entry "data" "";
                Fetcher.CityForecast.data_date :=
                  ET.findtext location "DataPrognozei" "";
                Fetcher.CityForecast.temp_min := lo;
                Fetcher.CityForecast.temp_max := hi;
                Fetcher.CityForecast.conditions :=
                  Fetcher._translate_conditions raw;
                Fetcher.CityForecast.conditions_code :=
                  ET.findtext entry "fenomen_simbol" "";
                Fetcher.CityForecast.source_url := Fetcher.ANM_FORECAST_XML_URL;
                Fetcher.CityForecast.content_hash :=
                  Fetcher._compute_hash
                    [name_of location; ET.get entry "data" ""; pretty lo;
                     pretty hi; raw];
                Fetcher.CityForecast.fetched_at := now |}
    | _, _ => None
    end
  else None.

End WithRuntime.

End ForecastSpec.

(** ** The narrative of an alert, in the words of the specification *)

Module NarrativeSpec.

Section WithRuntime.
Context `{PyRuntime}.

(** The capture of one pattern on the cleaned text, trimmed of trailing
    validity-window text when [trim] is set, if it exceeds 20
    characters. *)
Definition capture (trim : bool) (pattern : Re.regex) (clean : string)
  : option string :=
  match Re.search true pattern clean with
  | Some mt =>
      let c := PyStr.strip (Re.group mt 1) in
      let c := if trim
               then Re.sub true Fetcher.validity_tail_re EmptyString c
               else c in
      if 20 <? PyStr.len c then Some c else None
  | None => None
  end.

Fixpoint first_some {A : Type} (l : list (option A)) : option A :=
  match l with
  | [] => None
  | Some x :: _ => Some x
  | None :: l' => first_some l'
  end.

(** The claim as the specification words it: the first capture of the
    ordered label-based patterns that exceeds 20 characters after
    trimming, else the first 500 characters of the cleaned text. *)
Definition narrative_as_specified (text : string) : string :=
  let clean := Fetcher._clean_html text in
  match first_some (List.map (fun p => capture true p clean) Fetcher.patterns) with
  | Some c => c
  | None => PyStr.take 500 clean
  end.

(** What the formatter computes: four patterns in order, the three
    label-based ones with trimming and then the message-body pattern
    without; the result is cut to 500 characters in every case. *)
Definition narrative (text : string) : string :=
  let clean := Fetcher._clean_html text in
  let captures :=
    (List.map (fun p => capture true p clean) Fetcher.patterns
     ++ [capture false Fetcher.mesaj_re clean])%list in
  match first_some captures with
  | Some c => PyStr.take 500 c
  | None => PyStr.take 500 clean
  end.

End WithRuntime.

End NarrativeSpec.

(** ** A runtime for closed examples

    The examples below evaluate the model on plain ASCII inputs without
    character references; none of them reaches a field of the runtime except
    the parsers, which return the document the example is about. *)

Module Examples.

(** ["a" * n] *)
Fixpoint times (c : ascii) (n : nat) : string :=
  match n with O => EmptyString | S n' => String c (times c n') end.

(** [int(s)] on a plain decimal literal with an optional minus sign. *)
Fixpoint digits (acc : Z) (s : string) : option Z :=
  match s with
  | EmptyString => Some acc
  | String c s' =>
      if PyStr.is_digit c
      then digits (10 * acc + Z.of_N (PyStr.code c) - 48) s'
      else None
  end.

Definition int_literal (s : string) : option Z :=
  match s with
  | EmptyString => None
  | String "-" (String _ _ as s') => option_map Z.opp (digits 0 s')
  | _ => digits 0 s
  end.

Definition runtime (root : string + ET.Element) (feed : Feedparser.Feed)
  : PyRuntime :=
  {| sha256_hexdigest := fun s => s;
     html_charref_sub := fun s => s;
     str_upper := fun s => s;
     str_title := fun s => s;
     int_of_str := int_literal;
     utf8_decode_ignore := string_of_list_byte;
     ET_fromstring := fun _ => root;
     feedparser_parse := fun _ => feed;
     datetime_isoformat := fun _ => None |}.

Definition no_feed : Feedparser.Feed :=
  {| Feedparser.bozo := true; Feedparser.bozo_exception := "no document";
     Feedparser.entries := [] |}.

Definition plain : PyRuntime := runtime (inl "no document") no_feed.

(** A forecast document with one city and two days, the second without a
    maximum temperature, and its parse. *)
Definition forecast_document : bytes :=
  list_byte_of_string
    "<?xml version='1.0'?><tara><localitate nume='Cluj'><DataPrognozei>2024-05-01</DataPrognozei><prognoza data='2024-05-02'><temp_min>5</temp_min><temp_max>17</temp_max><fenomen_descriere>CER SENIN</fenomen_descriere><fenomen_simbol>1</fenomen_simbol></prognoza><prognoza data='2024-05-03'><temp_min>6</temp_min></prognoza></localitate></tara>".

Definition leaf (tag text : string) : ET.Element :=
  ET.Elem tag [] (Some text) [].

Definition forecast_root : ET.Element :=
  ET.Elem "tara" [] None
    [ET.Elem "localitate" [("nume", "Cluj")] None
       [leaf "DataPrognozei" "2024-05-01";
        ET.Elem "prognoza" [("data", "2024-05-02")] None
          [leaf "temp_min" "5"; leaf "temp_max" "17";
           leaf "fenomen_descriere" "CER SENIN"; leaf "fenomen_simbol" "1"];
        ET.Elem "prognoza" [("data", "2024-05-03")] None
          [leaf "temp_min" "6"]]].

Definition alert_document : bytes :=
  list_byte_of_string
    "<rss><channel><item><title>Cod galben</title><description>COD : GALBEN In zona : Judetul Cluj; Se vor semnala : ploi torentiale si vijelii</description><link>http://www.meteoromania.ro/avertizari</link></item></channel></rss>".

(** The feed of [alert_document]. *)
Definition alert_feed : Feedparser.Feed :=
  {| Feedparser.bozo := false;
     Feedparser.bozo_exception := EmptyString;
     Feedparser.entries :=
       [{| Feedparser.title := Some "Cod galben";
           Feedparser.summary :=
             Some "COD : GALBEN In zona : Judetul Cluj; Se vor semnala : ploi torentiale si vijelii";
           Feedparser.description := None;
           Feedparser.published_parsed := None;
           Feedparser.published := None;
           Feedparser.link := Some "http://www.meteoromania.ro/avertizari" |}] |}.

(** The runtime on the two documents above. *)
Definition documents : PyRuntime := runtime (inr forecast_root) alert_feed.

(** A request answered with [content], with no engine fault. *)
Definition answered (content : bytes) : Scheduler.RunEnv :=
  {| Scheduler.net :=
       {| Fetcher.response := Fetcher.Content content;
          Fetcher.fetch_start_iso := "2024-05-01T09:00:00";
          Fetcher.elapsed_ms := 120;
          Fetcher.now_iso := "2024-05-01T09:00:01" |};
     Scheduler.insert_fault := fun _ => None;
     Scheduler.status_fault := None;
     Scheduler.db_now := "2024-05-01T09:00:01";
     Scheduler.handler_now := "2024-05-01T09:00:01" |}.

(** A request that times out, with no engine fault. *)
Definition timeout_env : Scheduler.RunEnv :=
  {| Scheduler.net :=
       {| Fetcher.response := Fetcher.Timeout;
          Fetcher.fetch_start_iso := "2024-05-01T10:00:00";
          Fetcher.elapsed_ms := 15000;
          Fetcher.now_iso := "2024-05-01T10:00:15" |};
     Scheduler.insert_fault := fun _ => None;
     Scheduler.status_fault := None;
     Scheduler.db_now := "2024-05-01T10:00:15";
     Scheduler.handler_now := "2024-05-01T10:00:15" |}.

(** The scheduler of a new application, on an empty database. *)
Definition fresh_scheduler : Scheduler.WeatherScheduler :=
  Scheduler.init Database.init Scheduler.FORECAST_POLL_INTERVAL_MINUTES
    Scheduler.ALERT_POLL_INTERVAL_MINUTES.

(** One recorded outcome for the source ["feed"] on a database. *)
Definition record_outcome (success : bool) (db : Database.t) : Database.t :=
  match
    Database.update_source_status None "2024-05-01T10:00:00" db "feed"
      "forecast" "Feed" success (if success then "valid" else "unavailable")
      success (if success then 7 else 0)
      (if success then None else Some "HTTP error 503") 120
  with
  | inr db' => db'
  | inl _ => db
  end.

(** Two failures and then a success. *)
Definition one_in_three : Database.t :=
  record_outcome true (record_outcome false (record_outcome false Database.init)).

Definition feed_row (db : Database.t) : option Database.SourceStatus.t :=
  Database.source_status db !! "feed".

(** The application after its start-up: the initial fetch of both sources
    succeeds and the recurring jobs are registered. *)
Definition started : Scheduler.WeatherScheduler :=
  Scheduler.start
    (@Scheduler.trigger_immediate_fetch documents
       (answered forecast_document) (answered alert_document)
       "2024-05-01T09:00:02"
       fresh_scheduler).1.

(** The recurring forecast job then fires while the source times out. *)
Definition after_failed_job : Scheduler.WeatherScheduler :=
  @Scheduler.run_job documents "forecast_job" timeout_env started.

(** A database that holds one forecast for Cluj on 2024-05-02. *)
Definition one_forecast : Database.t :=
  (Database.insert_forecast None "2024-05-01 09:00:01" Database.init
     "Cluj" "2024-05-02" "2024-05-01" 5 17 "Clear Sky" "1"
     Fetcher.ANM_FORECAST_XML_URL "hash-5-17").1.

(** The same forecast stored again an hour later. *)
Definition same_forecast_again : Database.t * bool :=
  Database.insert_forecast None "2024-05-01 10:00:01" one_forecast
    "Cluj" "2024-05-02" "2024-05-01" 5 17 "Clear Sky" "1"
    Fetcher.ANM_FORECAST_XML_URL "hash-5-17".


(** An alert whose first capture is longer than 500 characters. *)
Definition long_alert : string := "Se vor semnala: " +:+ times "a" 501.

(** A bulletin that carries only the message-body label. *)
Definition mesaj_alert : string :=
  "Mesaj : MESAJ 1/2 Ploi torentiale si vijelii puternice".

End Examples.

(** ** Failed fetches, in the words of the specification *)

Module FailureSpec.

(** A forecast fetch fails on a timeout, a connection failure, an HTTP
    error, another request failure, or a document that does not validate. *)
Definition forecast_fetch_fails `{PyRuntime} (env : Fetcher.FetchEnv) : Prop :=
  match Fetcher.response env with
  | Fetcher.Content content => Fetcher._validate_xml_structure content = false
  | _ => True
  end.

(** An alert fetch fails on the same request failures, or on a feed that
    the parser rejects as a whole. *)
Definition alert_fetch_fails `{PyRuntime} (env : Fetcher.FetchEnv) : Prop :=
  match Fetcher.response env with
  | Fetcher.Content content =>
      Feedparser.bozo (feedparser_parse content) = true
      /\ Feedparser.entries (feedparser_parse content) = []
  | _ => True
  end.

(** The metadata of a failed fetch. *)
Definition failed (m : Fetcher.FetchMetadata.t) : Prop :=
  Fetcher.FetchMetadata.success m = false
  /\ Fetcher.FetchMetadata.data_quality m = Fetcher.UNAVAILABLE
  /\ Fetcher.FetchMetadata.entries_count m = 0
  /\ Fetcher.FetchMetadata.valid_entries m = 0
  /\ Fetcher.FetchMetadata.is_fresh m = false
  /\ is_Some (Fetcher.FetchMetadata.error_message m).

(** The source-health row after a failed run, given the row before. *)
Definition health_after_failure (before : option Database.SourceStatus.t)
    (error : option string) (row : Database.SourceStatus.t) : Prop :=
  let old f := match before with Some r => f r | None => 0 end in
  Database.SourceStatus.status row = "error"
  /\ Database.SourceStatus.data_quality row = "unavailable"
  /\ Database.SourceStatus.is_fresh row = 0
  /\ Database.SourceStatus.entries_count row = 0
  /\ Database.SourceStatus.last_error row = error
  /\ Database.SourceStatus.fetch_count row
     = old Database.SourceStatus.fetch_count + 1
  /\ Database.SourceStatus.error_count row
     = old Database.SourceStatus.error_count + 1
  /\ Database.SourceStatus.success_count row
     = old Database.SourceStatus.success_count
  /\ Database.SourceStatus.consecutive_failures row
     = old Database.SourceStatus.consecutive_failures + 1.

(** The environment of a fetch with the given response and clock
    readings. *)
Definition env_at (response : Fetcher.Response) (start : string) (ms : Z)
    (now : string) : Fetcher.FetchEnv :=
  {| Fetcher.response := response; Fetcher.fetch_start_iso := start;
     Fetcher.elapsed_ms := ms; Fetcher.now_iso := now |}.


End FailureSpec.

(** ** The stored data, in the words of the specification *)

Module DbSpec.

(** The states of the database: the empty schema, followed by any calls of
    the writing methods, under any engine faults. *)
Inductive reachable : Database.t -> Prop :=
| reach_init : reachable Database.init
| reach_insert_forecast db fault now city forecast_date data_date temp_min
    temp_max conditions conditions_code source_url content_hash :
    reachable db ->
    reachable (Database.insert_forecast fault now db city forecast_date
                 data_date temp_min temp_max conditions conditions_code
                 source_url content_hash).1
| reach_insert_alert db fault now title description published_at link
    alert_level affected_zones time_range source_url content_hash :
    reachable db ->
    reachable (Database.insert_alert fault now db title description
                 published_at link alert_level affected_zones time_range
                 source_url content_hash).1
| reach_update_source_status db fault now source_url source_type source_name
    success data_quality is_fresh entries_count error_message
    response_time_ms db' :
    reachable db ->
    Database.update_source_status fault now db source_url source_type
      source_name success data_quality is_fresh entries_count error_message
      response_time_ms = inr db' ->
    reachable db'.

(** The rows of [city_forecasts] for one (city, forecast_date) key. *)
Definition rows_for (city forecast_date : string) (db : Database.t)
  : list Database.ForecastRow.t :=
  List.filter (Database.forecast_key_is city forecast_date)
              (Database.city_forecasts db).

(** The rows of [city_forecasts] for the other keys. *)
Definition rows_beside (city forecast_date : string) (db : Database.t)
  : list Database.ForecastRow.t :=
  List.filter (fun r => negb (Database.forecast_key_is city forecast_date r))
              (Database.city_forecasts db).

(** No rowid of [city_forecasts] is past the sequence of the table. *)
Definition forecast_ids_issued (db : Database.t) : Prop :=
  Forall (fun r => Database.ForecastRow.id r <= Database.city_forecasts_seq db)
         (Database.city_forecasts db).

Definition alert_hashes (db : Database.t) : list string :=
  List.map Database.AlertRow.content_hash (Database.weather_alerts db).

(** [insert_alert] called with the fields of an alert record, as the
    scheduler calls it. *)
Definition insert_alert_record (fault : Database.Fault) (now : string)
    (db : Database.t) (alert : Fetcher.WeatherAlert.t) : Database.t * bool :=
  Database.insert_alert fault now db
    (Fetcher.WeatherAlert.title alert)
    (Fetcher.WeatherAlert.description alert)
    (Fetcher.WeatherAlert.published_at alert)
    (Fetcher.WeatherAlert.link alert)
    (Fetcher.WeatherAlert.alert_level alert)
    (Fetcher.WeatherAlert.affected_zones alert)
    (Fetcher.WeatherAlert.time_range alert)
    (Fetcher.WeatherAlert.source_url alert)
    (Fetcher.WeatherAlert.content_hash alert).

(** The counters of a source-health row add up. *)
Definition counts_add_up (row : Database.SourceStatus.t) : Prop :=
  Database.SourceStatus.fetch_count row
  = Database.SourceStatus.success_count row
    + Database.SourceStatus.error_count row.

(** A counter of the row of a source, 0 without a row. *)
Definition counter (f : Database.SourceStatus.t -> Z) (db : Database.t)
    (source_url : string) : Z :=
  match Database.source_status db !! source_url with
  | Some row => f row
  | None => 0
  end.

(** The reliability percentage as the specification words it:
    success_count / fetch_count x 100, and 0 when fetch_count is 0. *)
Definition reliability_as_specified (row : Database.SourceStatus.t) : Q :=
  if Database.SourceStatus.fetch_count row =? 0 then 0%Q
  else (inject_Z (Database.SourceStatus.success_count row)
        / inject_Z (Database.SourceStatus.fetch_count row) * inject_Z 100)%Q.

End DbSpec.

(** ** Ordering of query results *)

Module Order.

Section Sort.
Context {A : Type}.
Variable leb : A -> A -> bool.

Fixpoint insert (x : A) (l : list A) : list A :=
  match l with
  | [] => [x]
  | y :: l' => if leb x y then x :: l else y :: insert x l'
  end.

(** A stable sort by insertion: the order of [sorted] and of ORDER BY (which
    leaves the order of rows with equal keys open; here they keep their
    table order). *)
Definition sort (l : list A) : list A := List.fold_right insert [] l.

End Sort.

(** NULL sorts before every text. *)
Definition option_leb (a b : option string) : bool :=
  match a, b with
  | None, _ => true
  | Some _, None => false
  | Some x, Some y => String.leb x y
  end.

End Order.

(** ** database.py: the reading methods and the retention job *)

Module DatabaseReads.

(** [get_city_forecast]: SELECT * FROM city_forecasts WHERE city = ?
    ORDER BY forecast_date ASC *)
Definition get_city_forecast (self : Database.t) (city : string)
  : list Database.ForecastRow.t :=
  Order.sort
    (fun a b => String.leb (Database.ForecastRow.forecast_date a)
                           (Database.ForecastRow.forecast_date b))
    (List.filter (fun r => String.eqb (Database.ForecastRow.city r) city)
                 (Database.city_forecasts self)).

(** [get_all_cities]: SELECT DISTINCT city FROM city_forecasts
    ORDER BY city ASC *)
Definition get_all_cities (self : Database.t) : list string :=
  Order.sort String.leb (Database.distinct_cities self).




(** ORDER BY published_at DESC *)
Definition published_desc (a b : Database.AlertRow.t) : bool :=
  Order.option_leb (Database.AlertRow.published_at b)
                   (Database.AlertRow.published_at a).

(** LIMIT ?: a negative limit is no limit *)
Definition sql_limit {A : Type} (limit : Z) (l : list A) : list A :=
  if limit <? 0 then l else List.firstn (Z.to_nat limit) l.

(** [get_active_alerts]: SELECT * FROM weather_alerts WHERE is_active = 1
    ORDER BY published_at DESC LIMIT ? *)
Definition get_active_alerts (self : Database.t) (limit : Z)
  : list Database.AlertRow.t :=
  sql_limit limit
    (Order.sort published_desc
       (List.filter (fun r => Database.AlertRow.is_active r =? 1)
                    (Database.weather_alerts self))).

(** [get_alerts_by_level]: SELECT * FROM weather_alerts
    WHERE alert_level = ? AND is_active = 1 ORDER BY published_at DESC *)
Definition get_alerts_by_level (self : Database.t) (level : string)
  : list Database.AlertRow.t :=
  Order.sort published_desc
    (List.filter
       (fun r =>
          match Database.AlertRow.alert_level r with
          | Some l => String.eqb l level
          | None => false
          end && (Database.AlertRow.is_active r =? 1))
       (Database.weather_alerts self)).

Definition set_inactive (r : Database.AlertRow.t) : Database.AlertRow.t :=
  {| Database.AlertRow.id := Database.AlertRow.id r;
     Database.AlertRow.title := Database.AlertRow.title r;
     Database.AlertRow.description := Database.AlertRow.description r;
     Database.AlertRow.published_at := Database.AlertRow.published_at r;
     Database.AlertRow.link := Database.AlertRow.link r;
     Database.AlertRow.alert_level := Database.AlertRow.alert_level r;
     Database.AlertRow.affected_zones := Database.AlertRow.affected_zones r;
     Database.AlertRow.time_range := Database.AlertRow.time_range r;
     Database.AlertRow.source_url := Database.AlertRow.source_url r;
     Database.AlertRow.content_hash := Database.AlertRow.content_hash r;
     Database.AlertRow.fetched_at := Database.AlertRow.fetched_at r;
     Database.AlertRow.is_active := 0 |}.

(** [deactivate_old_alerts]: UPDATE weather_alerts SET is_active = 0
    WHERE is_active = 1 AND datetime(fetched_at) < datetime('now', ?);
    the table afterwards and [cursor.rowcount].  [older hours t] is the
    value of the comparison for a row fetched at [t], read off the clock of
    the engine. *)
Definition deactivate_old_alerts (older : Z -> string -> bool)
    (self : Database.t) (hours : Z) : Database.t * Z :=
  let hit r :=
    (Database.AlertRow.is_active r =? 1)
    && older hours (Database.AlertRow.fetched_at r) in
  ({| Database.city_forecasts := Database.city_forecasts self;
      Database.city_forecasts_seq := Database.city_forecasts_seq self;
      Database.weather_alerts :=
        List.map (fun r => if hit r then set_inactive r else r)
                 (Database.weather_alerts self);
      Database.weather_alerts_seq := Database.weather_alerts_seq self;
      Database.source_status := Database.source_status self;
      Database.source_status_seq := Database.source_status_seq self |},
   Z.of_nat (List.length (List.filter hit (Database.weather_alerts self)))).

(** The dictionary of [get_data_summary]. *)
Record DataSummary := {
  forecast_entries : Z;
  alert_entries : Z;
  city_count : Z;
  total_entries : Z
}.

(** [get_data_summary] *)
Definition get_data_summary (self : Database.t) : DataSummary :=
  let forecast_count := Z.of_nat (List.length (Database.city_forecasts self)) in
  let alert_count :=
    Z.of_nat (List.length
                (List.filter (fun r => Database.AlertRow.is_active r =? 1)
                             (Database.weather_alerts self))) in
  let city_count := Z.of_nat (List.length (Database.distinct_cities self)) in
  {| forecast_entries := forecast_count;
     alert_entries := alert_count;
     city_count := city_count;
     total_entries := forecast_count + alert_count |}.

End DatabaseReads.

(** The states of the database under every method that writes. *)
Module Store.



Inductive reachable (older : Z -> string -> bool) : Database.t -> Prop :=
| reach_init : reachable older Database.init
| reach_insert_forecast db fault now city forecast_date data_date temp_min
    temp_max conditions conditions_code source_url content_hash :
    reachable older db ->
    reachable older
      (Database.insert_forecast fault now db city forecast_date data_date
         temp_min temp_max conditions conditions_code source_url
         content_hash).1
| reach_insert_alert db fault now title description published_at link
    alert_level affected_zones time_range source_url content_hash :
    reachable older db ->
    reachable older
      (Database.insert_alert fault now db title description published_at
         link alert_level affected_zones time_range source_url
         content_hash).1
| reach_update_source_status db fault now source_url source_type source_name
    success data_quality is_fresh entries_count error_message
    response_time_ms db' :
    reachable older db ->
    Database.update_source_status fault now db source_url source_type
      source_name success data_quality is_fresh entries_count error_message
      response_time_ms = inr db' ->
    reachable older db'
| reach_deactivate db hours :
    reachable older db ->
    reachable older (DatabaseReads.deactivate_old_alerts older db hours).1.



(** What every stored source-health row satisfies; [url] is its key. *)
Definition health_ok (url : string) (row : Database.SourceStatus.t) : Prop :=
  Database.SourceStatus.source_url row = url
  /\ 1 <= Database.SourceStatus.fetch_count row
  /\ 0 <= Database.SourceStatus.success_count row
  /\ 0 <= Database.SourceStatus.error_count row
  /\ Database.SourceStatus.fetch_count row
     = Database.SourceStatus.success_count row
       + Database.SourceStatus.error_count row
  /\ 0 <= Database.SourceStatus.consecutive_failures row
          <= Database.SourceStatus.error_count row
  /\ (Database.SourceStatus.status row = "ok"
      /\ Database.SourceStatus.consecutive_failures row = 0
      /\ Database.SourceStatus.last_success_at row
         = Database.SourceStatus.last_fetch_at row
      \/ Database.SourceStatus.status row = "error"
         /\ 1 <= Database.SourceStatus.consecutive_failures row)
  /\ is_Some (Database.SourceStatus.last_fetch_at row)
  /\ (Database.SourceStatus.success_count row = 0 <->
      Database.SourceStatus.last_success_at row = None)
  /\ (Database.SourceStatus.is_fresh row = 0
      \/ Database.SourceStatus.is_fresh row = 1).

(** One failed outcome to record: the arguments of [update_source_status]
    beside the source and the success flag. *)
Record Failure := {
  at_time : string;
  source_type : string;
  source_name : string;
  data_quality : string;
  is_fresh : bool;
  entries_count : Z;
  error_message : option string;
  response_time_ms : Z
}.

(** Recording failed outcomes for one source, one after the other, the
    engine working. *)
Fixpoint record_failures (url : string) (failures : list Failure)
    (db : Database.t) : string + Database.t :=
  match failures with
  | [] => inr db
  | f :: rest =>
      match
        Database.update_source_status None (at_time f) db url (source_type f)
          (source_name f) false (data_quality f) (is_fresh f)
          (entries_count f) (error_message f) (response_time_ms f)
      with
      | inr db' => record_failures url rest db'
      | inl e => inl e
      end
  end.

End Store.

(** ** api.py *)

Module Api.

(** The globals [db] and [scheduler] of the module after the lifespan has
    started: the scheduler, whose [database] is the object bound to [db];
    [None] before that. *)
Definition App : Type := option Scheduler.WeatherScheduler.

(** [x < 80] on the reliability column *)
Definition below (limit : Z) (x : Q) : bool := negb (Qle_bool (inject_Z limit) x).

(** The risks [detect_risks] reads off one row of [get_system_status]. *)
Definition source_risks (source : Database.SourceStatus.t * Q) : list string :=
  ((if 3 <=? Database.SourceStatus.consecutive_failures (fst source)
    then ["Source failing repeatedly: "
          +:+ Database.SourceStatus.source_name (fst source)]
    else [])
   ++ (if below 80 (snd source)
       then ["Low reliability: "
             +:+ Database.SourceStatus.source_name (fst source)]
       else []))%list.

(** [detect_risks] *)
Definition detect_risks (app : App) : list string :=
  match app with
  | None => ["System not initialized"]
  | Some scheduler =>
      let risks :=
        match Scheduler.get_sync_status scheduler with
        | Some sync_status =>
            ((if negb (Scheduler.truthy
                         (Scheduler.SyncStatus.forecast_healthy sync_status))
              then ["Forecast source unavailable"] else [])
             ++ (if negb (Scheduler.truthy
                            (Scheduler.SyncStatus.alert_healthy sync_status))
                 then ["Alert source unavailable"] else []))%list
        | None => []
        end in
      (risks
       ++ List.flat_map source_risks
            (Database.get_system_status (Scheduler.database scheduler)))%list
  end.

(** The [status] field of the /health response *)
Definition health_status (app : App) : string :=
  match detect_risks app with [] => "healthy" | _ => "degraded" end.

(** The [status] field of the /status response; [None] is the
    HTTPException 503 raised before the application is initialised. *)
Definition system_status (app : App) : option string :=
  match app with
  | None => None
  | Some _ =>
      Some (match detect_risks app with
            | [] => "healthy"
            | [_] => "degraded"
            | _ => "unhealthy"
            end)
  end.

(** The [by_level] dictionary of /alerts/count *)
Record LevelCounts := { YELLOW : Z; ORANGE : Z; RED : Z; OTHER : Z }.

(** The body of the loop of [get_alert_count] over the alerts *)
Definition count_level (counts : LevelCounts) (alert : Database.AlertRow.t)
  : LevelCounts :=
  match Database.AlertRow.alert_level alert with
  | Some level =>
      if String.eqb level "YELLOW" then
        {| YELLOW := YELLOW counts + 1; ORANGE := ORANGE counts;
           RED := RED counts; OTHER := OTHER counts |}
      else if String.eqb level "ORANGE" then
        {| YELLOW := YELLOW counts; ORANGE := ORANGE counts + 1;
           RED := RED counts; OTHER := OTHER counts |}
      else if String.eqb level "RED" then
        {| YELLOW := YELLOW counts; ORANGE := ORANGE counts;
           RED := RED counts + 1; OTHER := OTHER counts |}
      else
        {| YELLOW := YELLOW counts; ORANGE := ORANGE counts;
           RED := RED counts; OTHER := OTHER counts + 1 |}
  | None =>
      {| YELLOW := YELLOW counts; ORANGE := ORANGE counts;
         RED := RED counts; OTHER := OTHER counts + 1 |}
  end.

(** The endpoint /alerts/count: [total] and [by_level] *)
Definition get_alert_count (db : Database.t) : Z * LevelCounts :=
  let all_alerts := DatabaseReads.get_active_alerts db 100 in
  (Z.of_nat (List.length all_alerts),
   List.fold_left count_level all_alerts
     {| YELLOW := 0; ORANGE := 0; RED := 0; OTHER := 0 |}).

End Api.

(** ** Shapes of text *)

Module TextSpec.

(** White space in [s] is made of single ASCII spaces: every white-space
    character is a space and no two of them are adjacent; [after_space]
    tells whether a space precedes [s] (or [s] is at the start of a text
    that may not begin with one). *)
Fixpoint single_spaced (after_space : bool) (s : string) : bool :=
  match s with
  | EmptyString => true
  | String c s' =>
      if PyStr.is_space c
      then Ascii.eqb c " " && negb after_space && single_spaced true s'
      else single_spaced false s'
  end.



End TextSpec.

(** ** Further scenarios *)

Module Scenarios.

(** The retention test of [deactivate_old_alerts] at a clock for which
    the rows fetched before the first of May are too old. *)
Definition retention (hours : Z) (fetched_at : string) : bool :=
  String.leb fetched_at "2024-04-30 23:59:59".

(** A database with one forecast (stored twice), one alert and the
    source-health row of a source that failed once and then answered. *)
Definition with_alert : Database.t :=
  (Database.insert_alert None "2024-05-01 09:00:01"
     Examples.same_forecast_again.1
     "Cod galben" "ploi torentiale si vijelii" None None (Some "YELLOW")
     (Some "Judetul Cluj;") None Fetcher.ANM_ALERTS_RSS_URL "hash-yellow").1.

Definition failed_once : Database.t := Examples.record_outcome false with_alert.

Definition stocked : Database.t := Examples.record_outcome true failed_once.

(** Two failed fetches in a row. *)
Definition two_failures : list Store.Failure :=
  let failure at_time :=
    {| Store.at_time := at_time; Store.source_type := "forecast";
       Store.source_name := "Feed"; Store.data_quality := "unavailable";
       Store.is_fresh := false; Store.entries_count := 0;
       Store.error_message := Some "HTTP error 503";
       Store.response_time_ms := 95 |} in
  [failure "2024-05-01T08:00:00"; failure "2024-05-01T09:00:00"].

Definition after_two_failures : Database.t :=
  match Store.record_failures "feed" two_failures Database.init with
  | inr db => db
  | inl _ => Database.init
  end.

Definition recovered : Database.t := Examples.record_outcome true after_two_failures.


End Scenarios.

(** * Properties *)

(** ** The quality assessor *)

Lemma of_int_exact (n : Z) : 0 <= n < 2 ^ 53 -> PyFloat.of_int n = n.
Proof.
  intros [H0 H1]. unfold PyFloat.of_int.
  destruct (Z.eq_dec n 0) as [->|Hn]; [reflexivity|].
  assert (Z.log2 (Z.abs n) < 53).
  { rewrite Z.abs_eq by lia. apply Z.log2_lt_pow2; lia. }
  destruct (Z.leb_spec (Z.log2 (Z.abs n) - 52) 0); [reflexivity | lia].
Qed.

(** C1. For entry counts [0 <= valid <= total] (below 2^53, where binary64
    holds every integer), the quality assessor returns: unavailable when
    [total = 0]; invalid when [total > 0] and [valid = 0]; valid when
    [valid = total > 0]; partial when [0 < valid < total] and
    [valid >= total * 0.5]; invalid when [0 < valid < total * 0.5]. *)
Theorem assess_quality_cases (valid total : Z) :
  0 <= valid <= total -> total < 2 ^ 53 ->
  (total = 0 -> Fetcher._assess_quality valid total = Fetcher.UNAVAILABLE) /\
  (0 < total -> valid = 0 ->
     Fetcher._assess_quality valid total = Fetcher.INVALID) /\
  (0 < total -> valid = total ->
     Fetcher._assess_quality valid total = Fetcher.VALID) /\
  (0 < valid < total -> (inject_Z total * (1 # 2) <= inject_Z valid)%Q ->
     Fetcher._assess_quality valid total = Fetcher.PARTIAL) /\
  (0 < valid -> (inject_Z valid < inject_Z total * (1 # 2))%Q ->
     Fetcher._assess_quality valid total = Fetcher.INVALID).
Proof.
  intros Hvt Hb. unfold Fetcher._assess_quality, PyFloat.int_ge_half.
  rewrite of_int_exact by lia.
  assert (Hq : forall a b : Z, (inject_Z a * (1 # 2) <= inject_Z b)%Q <-> a <= 2 * b).
  { intros a b. unfold Qle, Qmult, inject_Z; simpl. lia. }
  assert (Hq' : forall a b : Z, (inject_Z b < inject_Z a * (1 # 2))%Q <-> 2 * b < a).
  { intros a b. unfold Qlt, Qmult, inject_Z; simpl. lia. }
  repeat split.
  - intros ->. reflexivity.
  - intros Ht ->. destruct (Z.eqb_spec total 0); [lia | reflexivity].
  - intros Ht ->. destruct (Z.eqb_spec total 0); [lia|].
    destruct (Z.eqb_spec total 0); [lia|]. rewrite Z.eqb_refl. reflexivity.
  - intros Hv Hh. apply Hq in Hh.
    destruct (Z.eqb_spec total 0); [lia|]. destruct (Z.eqb_spec valid 0); [lia|].
    destruct (Z.eqb_spec valid total); [lia|].
    destruct (Z.leb_spec total (2 * valid)); [reflexivity | lia].
  - intros Hv Hh. apply Hq' in Hh.
    destruct (Z.eqb_spec total 0); [lia|]. destruct (Z.eqb_spec valid 0); [lia|].
    destruct (Z.eqb_spec valid total); [lia|].
    destruct (Z.leb_spec total (2 * valid)); [lia | reflexivity].
Qed.



(** ** The forecast parser *)

Section ForecastParser.
Context `{PyRuntime}.

Lemma truthy_eqb (s : string) :
  PyStr.truthy s = negb (String.eqb s EmptyString).
Proof. destruct s; reflexivity. Qed.

(** One pass through the body of the loop over the entries. *)
Lemma parse_prognoza_step (now : string) (location p : ET.Element)
    (fs : list Fetcher.CityForecast.t) (v t : Z) :
  Fetcher.parse_prognoza now (ForecastSpec.name_of location)
    (ET.findtext location "DataPrognozei" "") (fs, v, t) p
  = ((fs ++ option_list (ForecastSpec.record_of now (location, p)))%list,
     v + (if ForecastSpec.entry_valid (location, p) then 1 else 0),
     t + 1).
Proof.
  unfold Fetcher.parse_prognoza, ForecastSpec.record_of,
    ForecastSpec.entry_valid, ForecastSpec.parses_as_int.
  cbn [List.forallb snd]. rewrite !truthy_eqb.
  destruct (String.eqb (ET.get p "data" "") EmptyString);
    destruct (String.eqb (ET.findtext p "temp_min" "") EmptyString);
    destruct (String.eqb (ET.findtext p "temp_max" "") EmptyString);
    destruct (int_of_str (ET.findtext p "temp_min" ""));
    destruct (int_of_str (ET.findtext p "temp_max" ""));
    cbn [negb andb option_list]; rewrite ?app_nil_r, ?Z.add_0_r; reflexivity.
Qed.

(** The loop over the entries of one location adds its entries to the
    total, its valid entries to the valid counter, and their records to the
    list. *)
Lemma parse_prognoza_loop (now : string) (location : ET.Element)
    (ps : list ET.Element) (fs : list Fetcher.CityForecast.t) (v t : Z) :
  List.fold_left
    (Fetcher.parse_prognoza now (ForecastSpec.name_of location)
       (ET.findtext location "DataPrognozei" ""))
    ps (fs, v, t)
  = let es := List.map (fun entry => (location, entry)) ps in
    ((fs ++ omap (ForecastSpec.record_of now) es)%list,
     v + Z.of_nat (List.length (List.filter ForecastSpec.entry_valid es)),
     t + Z.of_nat (List.length es)).
Proof.
  revert fs v t. induction ps as [|p ps IH]; intros fs v t.
  - cbn. rewrite app_nil_r. (f_equal; [f_equal|]); try reflexivity; lia.
  - cbn [List.fold_left]. rewrite parse_prognoza_step, IH. cbn zeta.
    cbn [List.map List.filter omap list_omap].
    destruct (ForecastSpec.record_of now (location, p)) eqn:Hr;
      destruct (ForecastSpec.entry_valid (location, p)) eqn:Hv;
      cbn [option_list List.length]; rewrite <- ?app_assoc; cbn [app];
      rewrite ?app_nil_r; (f_equal; [f_equal|]); try reflexivity; lia.
Qed.

(** The loop over the locations. *)
Lemma parse_localitate_loop (now : string) (ls : list ET.Element)
    (fs : list Fetcher.CityForecast.t) (v t : Z) :
  List.fold_left (Fetcher.parse_localitate now) ls (fs, v, t)
  = let es :=
      List.flat_map
        (fun location =>
           List.map (fun entry => (location, entry))
                    (ET.findall location "prognoza"))
        (List.filter ForecastSpec.has_name ls) in
    ((fs ++ omap (ForecastSpec.record_of now) es)%list,
     v + Z.of_nat (List.length (List.filter ForecastSpec.entry_valid es)),
     t + Z.of_nat (List.length es)).
Proof.
  revert fs v t. induction ls as [|l ls IH]; intros fs v t.
  - cbn. rewrite app_nil_r. (f_equal; [f_equal|]); try reflexivity; lia.
  - cbn [List.fold_left List.filter]. unfold Fetcher.parse_localitate at 2.
    fold (ForecastSpec.name_of l). rewrite truthy_eqb.
    fold (ForecastSpec.has_name l).
    destruct (ForecastSpec.has_name l); cbn [negb].
    + rewrite parse_prognoza_loop. cbn zeta. rewrite IH. cbn zeta.
      cbn [List.flat_map].
      rewrite omap_app, List.filter_app, !List.length_app, app_assoc.
      (f_equal; [f_equal|]); try reflexivity; lia.
    + apply IH.
Qed.

Lemma parse_forecast_xml_root (now : string) (content : bytes)
    (root : ET.Element) :
  ET_fromstring content = inr root ->
  Fetcher._parse_forecast_xml now content
  = inr (omap (ForecastSpec.record_of now) (ForecastSpec.entries root),
         Z.of_nat (List.length (List.filter ForecastSpec.entry_valid
                                  (ForecastSpec.entries root))),
         Z.of_nat (List.length (ForecastSpec.entries root))).
Proof.
  intros Hroot. unfold Fetcher._parse_forecast_xml. rewrite Hroot.
  rewrite parse_localitate_loop. reflexivity.
Qed.

Lemma records_length (now : string) (es : list (ET.Element * ET.Element)) :
  List.length (omap (ForecastSpec.record_of now) es)
  = List.length (List.filter ForecastSpec.entry_valid es).
Proof.
  induction es as [|[l p] es IH]; [reflexivity|].
  cbn [omap list_omap List.filter].
  unfold ForecastSpec.record_of at 1.
  destruct (ForecastSpec.entry_valid (l, p)) eqn:Hv; [|exact IH].
  unfold ForecastSpec.entry_valid, ForecastSpec.parses_as_int in Hv.
  cbn [snd] in Hv.
  destruct (int_of_str (ET.findtext p "temp_min" ""));
    [|rewrite !andb_false_r in Hv; discriminate].
  destruct (int_of_str (ET.findtext p "temp_max" ""));
    [|rewrite !andb_false_r in Hv; discriminate].
  cbn [List.length]. f_equal. exact IH.
Qed.

(** C6. For every forecast document: when the XML parses, the parser
    returns (it raises nothing), its total count is the number of per-day
    entries under the locations with a name (a location without a name
    contributes neither to the counts nor to the records), its valid count
    is the number of those entries with a forecast date and integer
    minimum and maximum temperatures, and its records are those of the
    valid entries, in order, the others being dropped one by one; the
    parser raises a validation error exactly when the XML of the document
    does not parse. *)
Theorem parse_forecast_xml_counts (now : string) (content : bytes) :
  match ET_fromstring content with
  | inr root =>
      let es := ForecastSpec.entries root in
      Fetcher._parse_forecast_xml now content
      = inr (omap (ForecastSpec.record_of now) es,
             Z.of_nat (List.length (List.filter ForecastSpec.entry_valid es)),
             Z.of_nat (List.length es))
      /\ List.length (omap (ForecastSpec.record_of now) es)
         = List.length (List.filter ForecastSpec.entry_valid es)
  | inl e =>
      Fetcher._parse_forecast_xml now content
      = inl (Fetcher.ValidationError ("XML parsing failed: " +:+ e))
  end.
Proof.
  destruct (ET_fromstring content) as [e|root] eqn:Hroot.
  - unfold Fetcher._parse_forecast_xml. rewrite Hroot. reflexivity.
  - cbn zeta. split; [apply parse_forecast_xml_root, Hroot|].
    apply records_length.
Qed.

End ForecastParser.

(** ** The narrative formatter *)

Lemma take_length (n : nat) (s : string) : (String.length (PyStr.take n s) <= n)%nat.
Proof.
  revert s. induction n as [|n IH]; intros [|c s]; cbn; try lia.
  specialize (IH s). lia.
Qed.

Lemma take_all (n : nat) (s : string) :
  (String.length s <= n)%nat -> PyStr.take n s = s.
Proof.
  revert s. induction n as [|n IH]; intros [|c s]; cbn; intros Hl; try reflexivity.
  - lia.
  - f_equal. apply IH. lia.
Qed.

Lemma clip_take (n : nat) (s : string) : PyStr.clip n s = PyStr.take n s.
Proof.
  unfold PyStr.clip, PyStr.len.
  destruct (Z.ltb_spec (Z.of_nat n) (Z.of_nat (String.length s))); [reflexivity|].
  symmetry. apply take_all. lia.
Qed.

Section Narrative.
Context `{PyRuntime}.

Lemma try_patterns_first_some (ps : list Re.regex) (clean : string) :
  Fetcher.try_patterns ps clean
  = option_map (PyStr.take 500)
      (NarrativeSpec.first_some
         (List.map (fun p => NarrativeSpec.capture true p clean) ps)).
Proof.
  induction ps as [|p ps IH]; [reflexivity|].
  cbn [Fetcher.try_patterns List.map NarrativeSpec.first_some].
  unfold NarrativeSpec.capture at 1.
  destruct (Re.search true p clean) as [mt|]; [|exact IH].
  cbn zeta.
  destruct (20 <? PyStr.len _); [|exact IH].
  cbn [option_map]. rewrite clip_take. reflexivity.
Qed.

Lemma first_some_app {A : Type} (l1 l2 : list (option A)) :
  NarrativeSpec.first_some (l1 ++ l2)
  = match NarrativeSpec.first_some l1 with
    | Some x => Some x
    | None => NarrativeSpec.first_some l2
    end.
Proof. induction l1 as [|[x|] l1 IH]; cbn; auto. Qed.

(** C8, amended. For every alert description text, the formatter tries in
    order the three label-based patterns and then the message-body
    pattern, and returns the first 500 characters of the first capture
    that exceeds 20 characters (the captures of the first three being
    trimmed of trailing validity-window text); when no pattern yields such
    a capture it returns the first 500 characters of the fully cleaned
    text; the result never exceeds 500 characters. *)
Theorem format_alert_description_narrative (text : string) :
  Fetcher._format_alert_description text = NarrativeSpec.narrative text
  /\ PyStr.len (Fetcher._format_alert_description text) <= 500.
Proof.
  assert (Heq : Fetcher._format_alert_description text
                = NarrativeSpec.narrative text).
  { unfold Fetcher._format_alert_description, NarrativeSpec.narrative.
    cbn zeta. rewrite try_patterns_first_some, first_some_app.
    destruct (NarrativeSpec.first_some _) as [c|]; [reflexivity|].
    cbn [option_map NarrativeSpec.first_some].
    unfold NarrativeSpec.capture.
    destruct (Re.search true Fetcher.mesaj_re _) as [mt|];
      [|apply clip_take].
    cbn zeta. destruct (20 <? PyStr.len _); apply clip_take. }
  split; [exact Heq|].
  rewrite Heq. unfold NarrativeSpec.narrative, PyStr.len. cbn zeta.
  destruct (NarrativeSpec.first_some _) as [c|];
    match goal with |- context [PyStr.take 500 ?s] =>
      pose proof (take_length 500 s) end; lia.
Qed.

End Narrative.

(** C8 as specified fails on the code: a capture longer than 500 characters
    is cut (the formatter returns 500 characters, the capture has 501), and
    a text with only the message-body label yields the capture of the
    fallback pattern, not the first 500 characters of the cleaned text. *)
Lemma format_alert_description_not_as_specified :
  @Fetcher._format_alert_description Examples.plain Examples.long_alert
    <> @NarrativeSpec.narrative_as_specified Examples.plain Examples.long_alert
  /\ @Fetcher._format_alert_description Examples.plain Examples.mesaj_alert
     <> @NarrativeSpec.narrative_as_specified Examples.plain Examples.mesaj_alert.
Proof. split; vm_compute; discriminate. Qed.

Example format_alert_description_long :
  @Fetcher._format_alert_description Examples.plain Examples.long_alert
  = Examples.times "a" 500.
Proof. vm_compute. reflexivity. Qed.

Example format_alert_description_mesaj :
  @Fetcher._format_alert_description Examples.plain Examples.mesaj_alert
  = "Ploi torentiale si vijelii puternice"
  /\ @NarrativeSpec.narrative_as_specified Examples.plain Examples.mesaj_alert
     = Examples.mesaj_alert.
Proof. split; vm_compute; reflexivity. Qed.

(** ** Failed fetches *)

Section FailedFetch.

(** A failed forecast fetch yields no record and failed metadata. *)
Lemma fetch_forecasts_failure `{PyRuntime} (env : Fetcher.FetchEnv)
    (self : Fetcher.ANMFetcher) :
  FailureSpec.forecast_fetch_fails env ->
  exists m self',
    Fetcher.fetch_forecasts env self = ([], m, self')
    /\ FailureSpec.failed m
    /\ Fetcher.FetchMetadata.source_url m = Fetcher.ANM_FORECAST_XML_URL
    /\ Fetcher._cached_cities self' = Fetcher._cached_cities self.
Proof.
  unfold FailureSpec.forecast_fetch_fails, Fetcher.fetch_forecasts,
    Fetcher._fetch_raw, FailureSpec.failed.
  destruct (Fetcher.response env) as [content| |e|code|e]; intros Hf;
    try rewrite Hf; cbn; do 2 eexists; repeat split; eauto.
Qed.

(** The outcome of a failed forecast fetch is settled by the request and
    the document-level check: two runtimes that decode and parse documents
    alike give the same outcome, whatever their per-entry functions do. *)
Lemma fetch_forecasts_failure_independent (rt1 rt2 : PyRuntime)
    (env : Fetcher.FetchEnv) (self : Fetcher.ANMFetcher) :
  (forall c, @utf8_decode_ignore rt1 c = @utf8_decode_ignore rt2 c) ->
  (forall c, @ET_fromstring rt1 c = @ET_fromstring rt2 c) ->
  @FailureSpec.forecast_fetch_fails rt1 env ->
  @Fetcher.fetch_forecasts rt1 env self = @Fetcher.fetch_forecasts rt2 env self.
Proof.
  intros Hd He.
  unfold FailureSpec.forecast_fetch_fails, Fetcher.fetch_forecasts,
    Fetcher._fetch_raw.
  destruct (Fetcher.response env) as [content| |e|code|e]; intros Hf;
    try reflexivity.
  assert (Hv : @Fetcher._validate_xml_structure rt2 content = false).
  { rewrite <- Hf. unfold Fetcher._validate_xml_structure.
    rewrite Hd, He. reflexivity. }
  rewrite Hf, Hv. reflexivity.
Qed.

Lemma store_forecasts_nil `{PyRuntime} (env : Scheduler.RunEnv) (i : nat)
    (db : Database.t) (added : Z) :
  Scheduler.store_forecasts env i db added [] = (db, added).
Proof. reflexivity. Qed.

(** C5. For every forecast fetch that fails (timeout, connection failure,
    HTTP error, request failure, or a document that does not validate),
    the fetch returns an empty record list and metadata with success =
    False, data_quality = unavailable and zero entry counts, the outcome
    not depending on the per-entry functions; no forecast row is written,
    and the source-health row of the source is still updated from this
    failed outcome (the engine accepting the update). *)
Theorem failed_fetch_still_updates_health (rt : PyRuntime)
    (env : Scheduler.RunEnv) (self : Scheduler.WeatherScheduler) :
  @FailureSpec.forecast_fetch_fails rt (Scheduler.net env) ->
  Scheduler.status_fault env = None ->
  (exists m f,
      @Fetcher.fetch_forecasts rt (Scheduler.net env) (Scheduler.fetcher self)
      = ([], m, f) /\ FailureSpec.failed m)
  /\ (forall rt' : PyRuntime,
        (forall c, @utf8_decode_ignore rt' c = @utf8_decode_ignore rt c) ->
        (forall c, @ET_fromstring rt' c = @ET_fromstring rt c) ->
        @Fetcher.fetch_forecasts rt' (Scheduler.net env) (Scheduler.fetcher self)
        = @Fetcher.fetch_forecasts rt (Scheduler.net env) (Scheduler.fetcher self))
  /\ let self' := (@Scheduler._fetch_forecasts rt env self).1 in
     let result := (@Scheduler._fetch_forecasts rt env self).2 in
     Scheduler.FetchResult.success result = false
     /\ Scheduler.FetchResult.entries_added result = 0
     /\ Scheduler.FetchResult.total_entries result = 0
     /\ Scheduler.FetchResult.data_quality result = "unavailable"
     /\ Scheduler._last_forecast_result self' = Some result
     /\ Database.city_forecasts (Scheduler.database self')
        = Database.city_forecasts (Scheduler.database self)
     /\ exists row,
          Database.source_status (Scheduler.database self')
            !! Fetcher.ANM_FORECAST_XML_URL = Some row
          /\ FailureSpec.health_after_failure
               (Database.source_status (Scheduler.database self)
                  !! Fetcher.ANM_FORECAST_XML_URL)
               (Scheduler.FetchResult.error_message result) row.
Proof.
  intros Hf Hs. split; [|split].
  - destruct (fetch_forecasts_failure (Scheduler.net env)
                (Scheduler.fetcher self) Hf) as (m & f & Heq & Hm & _).
    eauto.
  - intros rt' Hd He. symmetry.
    apply fetch_forecasts_failure_independent; auto.
  - destruct (fetch_forecasts_failure (Scheduler.net env)
                (Scheduler.fetcher self) Hf)
      as (m & f & Heq & (Hsucc & Hq & Hn & Hv & Hfr & Herr) & Hurl & _).
    unfold Scheduler._fetch_forecasts. rewrite Heq.
    rewrite store_forecasts_nil.
    unfold Database.update_source_status. rewrite Hs. cbn [Database.raises].
    rewrite Hurl, Hsucc, Hq, Hn, Hv, Hfr.
    destruct (Database.source_status (Scheduler.database self)
                !! Fetcher.ANM_FORECAST_XML_URL) as [old|] eqn:Hold;
      cbn -[Fetcher.ANM_FORECAST_XML_URL];
      repeat split; try reflexivity;
      (eexists; split; [apply lookup_insert_eq|]);
      unfold FailureSpec.health_after_failure; cbn; repeat split; lia.
Qed.

End FailedFetch.

Lemma failed_fetch_still_updates_health_witness :
  Scheduler.FetchResult.success
    (@Scheduler._fetch_forecasts Examples.plain Examples.timeout_env
       Examples.fresh_scheduler).2 = false
  /\ Scheduler.FetchResult.data_quality
       (@Scheduler._fetch_forecasts Examples.plain Examples.timeout_env
          Examples.fresh_scheduler).2 = "unavailable".
Proof.
  pose proof (failed_fetch_still_updates_health Examples.plain
                Examples.timeout_env Examples.fresh_scheduler I eq_refl)
    as (_ & _ & H1 & _ & _ & H2 & _).
  split; [exact H1 | exact H2].
Defined.

(** ** Freshness and quality *)

Lemma assess_quality_not_stale (valid total : Z) :
  Fetcher._assess_quality valid total <> Fetcher.STALE.
Proof.
  unfold Fetcher._assess_quality.
  repeat match goal with |- context [if ?b then _ else _] => destruct b end;
    discriminate.
Qed.

Section Freshness.
Context `{PyRuntime}.

Lemma validate_parses (content : bytes) :
  Fetcher._validate_xml_structure content = true ->
  exists root, ET_fromstring content = inr root.
Proof.
  unfold Fetcher._validate_xml_structure.
  destruct (ET_fromstring content) as [e|root]; [|eauto].
  repeat match goal with |- context [if ?b then _ else _] => destruct b end;
    discriminate.
Qed.

(** The metadata of a forecast fetch, by the cases of the response. *)
Lemma fetch_forecasts_metadata (env : Fetcher.FetchEnv) (self : Fetcher.ANMFetcher) :
  let m := (Fetcher.fetch_forecasts env self).1.2 in
  match Fetcher.response env with
  | Fetcher.Content content =>
      if Fetcher._validate_xml_structure content then
        exists root,
          ET_fromstring content = inr root
          /\ Fetcher.FetchMetadata.success m = true
          /\ Fetcher.FetchMetadata.is_fresh m = true
          /\ Fetcher.FetchMetadata.data_quality m
             = Fetcher._assess_quality
                 (Z.of_nat (List.length (List.filter ForecastSpec.entry_valid
                                           (ForecastSpec.entries root))))
                 (Z.of_nat (List.length (ForecastSpec.entries root)))
      else FailureSpec.failed m
  | _ => FailureSpec.failed m
  end.
Proof.
  unfold Fetcher.fetch_forecasts, Fetcher._fetch_raw, FailureSpec.failed.
  destruct (Fetcher.response env) as [content| |e|code|e]; cbn;
    try (repeat split; eauto; fail).
  destruct (Fetcher._validate_xml_structure content) eqn:Hv; cbn;
    [|repeat split; eauto].
  destruct (validate_parses content Hv) as [root Hroot].
  rewrite (parse_forecast_xml_root (Fetcher.now_iso env) content root Hroot).
  cbn. exists root. repeat split; auto.
Qed.

(** The loop of the alert parser counts every entry as seen and as valid. *)
Lemma parse_entry_loop (now : string) (es : list Feedparser.Entry)
    (alerts : list Fetcher.WeatherAlert.t) (v t : Z) :
  List.fold_left (Fetcher.parse_entry now) es (alerts, v, t)
  = ((alerts ++ List.map (Fetcher.alert_of_entry now) es)%list,
     v + Z.of_nat (List.length es), t + Z.of_nat (List.length es)).
Proof.
  revert alerts v t. induction es as [|e es IH]; intros alerts v t.
  - cbn. rewrite app_nil_r. (f_equal; [f_equal|]); try reflexivity; lia.
  - cbn [List.fold_left]. unfold Fetcher.parse_entry at 2. cbn zeta.
    rewrite IH. cbn [List.length List.map]. rewrite <- app_assoc.
    (f_equal; [f_equal|]); try reflexivity; lia.
Qed.

(** The metadata of an alert fetch, by the cases of the response. *)
Lemma fetch_alerts_metadata (env : Fetcher.FetchEnv) (self : Fetcher.ANMFetcher) :
  let m := (Fetcher.fetch_alerts env self).1.2 in
  match Fetcher.response env with
  | Fetcher.Content content =>
      let feed := feedparser_parse content in
      if Feedparser.bozo feed
         && match Feedparser.entries feed with [] => true | _ => false end
      then FailureSpec.failed m
      else Fetcher.FetchMetadata.success m = true
           /\ Fetcher.FetchMetadata.is_fresh m = true
           /\ Fetcher.FetchMetadata.data_quality m
              = Fetcher._assess_quality
                  (Z.of_nat (List.length (Feedparser.entries feed)))
                  (Z.of_nat (List.length (Feedparser.entries feed)))
  | _ => FailureSpec.failed m
  end.
Proof.
  unfold Fetcher.fetch_alerts, Fetcher._fetch_raw, FailureSpec.failed,
    Fetcher._parse_alert_rss.
  destruct (Fetcher.response env) as [content| |e|code|e]; cbn;
    try (repeat split; eauto; fail).
  destruct (Feedparser.bozo (feedparser_parse content)
            && match Feedparser.entries (feedparser_parse content) with
               | [] => true | _ => false end); cbn;
    [repeat split; eauto|].
  rewrite parse_entry_loop. cbn. repeat split; reflexivity.
Qed.

(** C10. For every fetch of forecasts or alerts, the [is_fresh] flag of
    the metadata equals its [success] flag, which is True exactly when the
    request and the document-level parse succeeded; the assessed quality
    is never STALE; and neither the quality nor the freshness depends on
    the clock (hence on the age of the data): the freshness thresholds are
    not consulted. *)
Theorem freshness_is_success (response : Fetcher.Response)
    (start start' now now' : string) (ms ms' : Z) (self : Fetcher.ANMFetcher) :
  let forecasts := fun env => (Fetcher.fetch_forecasts env self).1.2 in
  let alerts := fun env => (Fetcher.fetch_alerts env self).1.2 in
  let env := FailureSpec.env_at response start ms now in
  let env' := FailureSpec.env_at response start' ms' now' in
  (Fetcher.FetchMetadata.is_fresh (forecasts env)
   = Fetcher.FetchMetadata.success (forecasts env)
   /\ Fetcher.FetchMetadata.is_fresh (alerts env)
      = Fetcher.FetchMetadata.success (alerts env))
  /\ (Fetcher.FetchMetadata.data_quality (forecasts env) <> Fetcher.STALE
      /\ Fetcher.FetchMetadata.data_quality (alerts env) <> Fetcher.STALE)
  /\ (Fetcher.FetchMetadata.data_quality (forecasts env')
      = Fetcher.FetchMetadata.data_quality (forecasts env)
      /\ Fetcher.FetchMetadata.is_fresh (forecasts env')
         = Fetcher.FetchMetadata.is_fresh (forecasts env)
      /\ Fetcher.FetchMetadata.data_quality (alerts env')
         = Fetcher.FetchMetadata.data_quality (alerts env)
      /\ Fetcher.FetchMetadata.is_fresh (alerts env')
         = Fetcher.FetchMetadata.is_fresh (alerts env))
  /\ (Fetcher.FetchMetadata.success (forecasts env) = true <->
      exists content,
        response = Fetcher.Content content
        /\ Fetcher._validate_xml_structure content = true)
  /\ (Fetcher.FetchMetadata.success (alerts env) = true <->
      exists content,
        response = Fetcher.Content content
        /\ (Feedparser.bozo (feedparser_parse content) = false
            \/ Feedparser.entries (feedparser_parse content) <> [])).
Proof.
  cbn zeta.
  pose proof (fetch_forecasts_metadata (FailureSpec.env_at response start ms now) self) as Hf.
  pose proof (fetch_forecasts_metadata (FailureSpec.env_at response start' ms' now') self) as Hf'.
  pose proof (fetch_alerts_metadata (FailureSpec.env_at response start ms now) self) as Ha.
  pose proof (fetch_alerts_metadata (FailureSpec.env_at response start' ms' now') self) as Ha'.
  cbn zeta in Hf, Hf', Ha, Ha'. cbn [FailureSpec.env_at Fetcher.response] in Hf, Hf', Ha, Ha'.
  unfold FailureSpec.failed in *.
  destruct response as [content| |e|code|e].
  2-5: destruct Hf as (-> & -> & _ & _ & -> & _);
       destruct Hf' as (_ & -> & _ & _ & -> & _);
       destruct Ha as (-> & -> & _ & _ & -> & _);
       destruct Ha' as (_ & -> & _ & _ & -> & _);
       repeat split; try discriminate; try reflexivity;
       intros (c & Hc & _); discriminate.
  assert (HF :
    (Fetcher.FetchMetadata.is_fresh (Fetcher.fetch_forecasts (FailureSpec.env_at (Fetcher.Content content) start ms now) self).1.2
     = Fetcher.FetchMetadata.success (Fetcher.fetch_forecasts (FailureSpec.env_at (Fetcher.Content content) start ms now) self).1.2)
    /\ Fetcher.FetchMetadata.data_quality (Fetcher.fetch_forecasts (FailureSpec.env_at (Fetcher.Content content) start ms now) self).1.2 <> Fetcher.STALE
    /\ (Fetcher.FetchMetadata.data_quality (Fetcher.fetch_forecasts (FailureSpec.env_at (Fetcher.Content content) start' ms' now') self).1.2
        = Fetcher.FetchMetadata.data_quality (Fetcher.fetch_forecasts (FailureSpec.env_at (Fetcher.Content content) start ms now) self).1.2)
    /\ (Fetcher.FetchMetadata.is_fresh (Fetcher.fetch_forecasts (FailureSpec.env_at (Fetcher.Content content) start' ms' now') self).1.2
        = Fetcher.FetchMetadata.is_fresh (Fetcher.fetch_forecasts (FailureSpec.env_at (Fetcher.Content content) start ms now) self).1.2)
    /\ (Fetcher.FetchMetadata.success (Fetcher.fetch_forecasts (FailureSpec.env_at (Fetcher.Content content) start ms now) self).1.2 = true
        <-> Fetcher._validate_xml_structure content = true)).
  { destruct (Fetcher._validate_xml_structure content).
    - destruct Hf as (root & Hr & -> & -> & ->).
      destruct Hf' as (root' & Hr' & _ & -> & ->).
      rewrite Hr in Hr'. injection Hr' as <-.
      repeat split; auto using assess_quality_not_stale.
    - destruct Hf as (-> & -> & _ & _ & -> & _).
      destruct Hf' as (_ & -> & _ & _ & -> & _).
      repeat split; try discriminate; reflexivity. }
  assert (HA :
    (Fetcher.FetchMetadata.is_fresh (Fetcher.fetch_alerts (FailureSpec.env_at (Fetcher.Content content) start ms now) self).1.2
     = Fetcher.FetchMetadata.success (Fetcher.fetch_alerts (FailureSpec.env_at (Fetcher.Content content) start ms now) self).1.2)
    /\ Fetcher.FetchMetadata.data_quality (Fetcher.fetch_alerts (FailureSpec.env_at (Fetcher.Content content) start ms now) self).1.2 <> Fetcher.STALE
    /\ (Fetcher.FetchMetadata.data_quality (Fetcher.fetch_alerts (FailureSpec.env_at (Fetcher.Content content) start' ms' now') self).1.2
        = Fetcher.FetchMetadata.data_quality (Fetcher.fetch_alerts (FailureSpec.env_at (Fetcher.Content content) start ms now) self).1.2)
    /\ (Fetcher.FetchMetadata.is_fresh (Fetcher.fetch_alerts (FailureSpec.env_at (Fetcher.Content content) start' ms' now') self).1.2
        = Fetcher.FetchMetadata.is_fresh (Fetcher.fetch_alerts (FailureSpec.env_at (Fetcher.Content content) start ms now) self).1.2)
    /\ (Fetcher.FetchMetadata.success (Fetcher.fetch_alerts (FailureSpec.env_at (Fetcher.Content content) start ms now) self).1.2 = true
        <-> (Feedparser.bozo (feedparser_parse content) = false
             \/ Feedparser.entries (feedparser_parse content) <> []))).
  { destruct (Feedparser.bozo (feedparser_parse content));
      destruct (Feedparser.entries (feedparser_parse content)) as [|e es];
      cbn [andb] in Ha, Ha'.
    1: destruct Ha as (-> & -> & _ & _ & -> & _);
       destruct Ha' as (_ & -> & _ & _ & -> & _);
       repeat split; try discriminate; try reflexivity;
       intros [?|?]; [discriminate | congruence].
    all: destruct Ha as (-> & -> & ->); destruct Ha' as (_ & -> & ->);
         repeat split; auto using assess_quality_not_stale;
         intros _; (left; reflexivity) || (right; discriminate). }
  destruct HF as (F1 & F2 & F3 & F4 & F5).
  destruct HA as (A1 & A2 & A3 & A4 & A5).
  repeat split; auto.
  - intros Hs. exists content. split; [reflexivity | apply F5, Hs].
  - intros (c & Hc & Hv). injection Hc as <-. apply F5, Hv.
  - intros Hs. exists content. split; [reflexivity | apply A5, Hs].
  - intros (c & Hc & Hv). injection Hc as <-. apply A5, Hv.
Qed.

End Freshness.

(** ** Forecast rows: replace on insert *)

Lemma fold_max_ge (seq : Z) (ids : list Z) :
  seq <= List.fold_right Z.max seq ids
  /\ Forall (fun i => i <= List.fold_right Z.max seq ids) ids.
Proof.
  induction ids as [|i ids [IH1 IH2]]; cbn; [split; [lia | constructor]|].
  split; [lia|]. constructor; [lia|].
  eapply List.Forall_impl; [|exact IH2]. cbn. intros; lia.
Qed.

Lemma next_rowid_fresh (seq : Z) (ids : list Z) :
  seq < Database.next_rowid seq ids
  /\ Forall (fun i => i < Database.next_rowid seq ids) ids.
Proof.
  unfold Database.next_rowid. destruct (fold_max_ge seq ids) as [H1 H2].
  split; [lia|]. eapply List.Forall_impl; [|exact H2]. cbn. intros; lia.
Qed.

Lemma no_conflict_after_delete (city forecast_date content_hash : string)
    (db : Database.t) :
  Database.forecast_unique_conflict city forecast_date content_hash
    (Database.delete_forecasts city forecast_date db) = false.
Proof.
  unfold Database.forecast_unique_conflict, Database.delete_forecasts. cbn.
  induction (Database.city_forecasts db) as [|r rows IH]; [reflexivity|].
  cbn. destruct (Database.forecast_key_is city forecast_date r) eqn:Hk; cbn.
  - exact IH.
  - rewrite Hk. cbn. exact IH.
Qed.

Lemma filter_key_of_beside (city forecast_date : string)
    (rows : list Database.ForecastRow.t) :
  List.filter (Database.forecast_key_is city forecast_date)
    (List.filter (fun r => negb (Database.forecast_key_is city forecast_date r)) rows)
  = [].
Proof.
  induction rows as [|r rows IH]; [reflexivity|]. cbn.
  destruct (Database.forecast_key_is city forecast_date r) eqn:Hk; cbn;
    [exact IH | rewrite Hk; exact IH].
Qed.

Lemma filter_beside_idem (city forecast_date : string)
    (rows : list Database.ForecastRow.t) :
  List.filter (fun r => negb (Database.forecast_key_is city forecast_date r))
    (List.filter (fun r => negb (Database.forecast_key_is city forecast_date r)) rows)
  = List.filter (fun r => negb (Database.forecast_key_is city forecast_date r)) rows.
Proof.
  induction rows as [|r rows IH]; [reflexivity|]. cbn.
  destruct (Database.forecast_key_is city forecast_date r) eqn:Hk; cbn;
    [exact IH | rewrite Hk; cbn; f_equal; exact IH].
Qed.

(** The state after an [insert_forecast] that returns True. *)
Lemma insert_forecast_true (fault : Database.Fault) (now : string)
    (db db' : Database.t) (city forecast_date data_date : string)
    (temp_min temp_max : Z)
    (conditions conditions_code source_url content_hash : string) :
  Database.insert_forecast fault now db city forecast_date data_date temp_min
    temp_max conditions conditions_code source_url content_hash = (db', true) ->
  let kept := DbSpec.rows_beside city forecast_date db in
  let row :=
    {| Database.ForecastRow.id :=
         Database.next_rowid (Database.city_forecasts_seq db)
           (List.map Database.ForecastRow.id kept);
       Database.ForecastRow.city := city;
       Database.ForecastRow.forecast_date := forecast_date;
       Database.ForecastRow.data_date := data_date;
       Database.ForecastRow.temp_min := temp_min;
       Database.ForecastRow.temp_max := temp_max;
       Database.ForecastRow.conditions := conditions;
       Database.ForecastRow.conditions_code := conditions_code;
       Database.ForecastRow.source_url := source_url;
       Database.ForecastRow.content_hash := content_hash;
       Database.ForecastRow.fetched_at := now |} in
  Database.city_forecasts db' = (kept ++ [row])%list
  /\ Database.city_forecasts_seq db' = Database.ForecastRow.id row.
Proof.
  unfold Database.insert_forecast, Database.insert_forecast_row.
  destruct (Database.raises fault 0); [discriminate|].
  destruct (Database.raises fault 1); [discriminate|].
  rewrite no_conflict_after_delete. intros [= <-]. cbn. split; reflexivity.
Qed.


Lemma forecast_key_is_refl (city forecast_date : string) (r : Database.ForecastRow.t) :
  Database.ForecastRow.city r = city ->
  Database.ForecastRow.forecast_date r = forecast_date ->
  Database.forecast_key_is city forecast_date r = true.
Proof.
  intros <- <-. unfold Database.forecast_key_is. rewrite !String.eqb_refl.
  reflexivity.
Qed.

(** The rowids of [city_forecasts] stay below the sequence of the table. *)
Lemma forecast_ids_issued_reachable (db : Database.t) :
  DbSpec.reachable db -> DbSpec.forecast_ids_issued db.
Proof.
  unfold DbSpec.forecast_ids_issued.
  induction 1 as [|db fault now c d dd lo hi co cc su h Hr IH
                  |db fault now ti de pa li al az tr su h Hr IH
                  |db fault now su st sn ok q fr n em ms db' Hr IH Hu].
  - constructor.
  - destruct (Database.insert_forecast fault now db c d dd lo hi co cc su h)
      as [db' b] eqn:Hi. cbn [fst].
    assert (Hkept : Forall (fun r => Database.ForecastRow.id r
                                     <= Database.city_forecasts_seq db)
                      (DbSpec.rows_beside c d db)).
    { apply List.Forall_forall. intros r Hin. apply List.filter_In in Hin as [Hin _].
      rewrite List.Forall_forall in IH. apply IH, Hin. }
    destruct b.
    + apply insert_forecast_true in Hi. cbn zeta in Hi. destruct Hi as [-> ->].
      cbn [Database.ForecastRow.id].
      destruct (next_rowid_fresh (Database.city_forecasts_seq db)
                  (List.map Database.ForecastRow.id (DbSpec.rows_beside c d db)))
        as [Hs _].
      apply List.Forall_app. split.
      * eapply List.Forall_impl; [|exact Hkept]. cbn. intros; lia.
      * constructor; [cbn; lia | constructor].
    + unfold Database.insert_forecast, Database.insert_forecast_row in Hi.
      destruct (Database.raises fault 0); [injection Hi as <-; exact IH|].
      destruct (Database.raises fault 1); [injection Hi as <-; exact Hkept|].
      rewrite no_conflict_after_delete in Hi. discriminate.
  - unfold Database.insert_alert, Database.insert_or_ignore_alert.
    destruct (Database.raises fault 0); [exact IH|].
    destruct (Database.alert_hash_exists h db);
      destruct (Database.raises fault 1); exact IH.
  - unfold Database.update_source_status in Hu.
    destruct (Database.raises fault 0); [discriminate|].
    destruct (Database.raises fault 1); [discriminate|].
    destruct (Database.source_status db !! su); injection Hu as <-; exact IH.
Qed.

(** C2. For every state of the database and every call of [insert_forecast]
    that returns True, afterwards exactly one row exists in [city_forecasts]
    for the (city, forecast_date) key: the newly inserted one, with a rowid
    no earlier row has; every prior row for the key is gone, whatever its
    content hash (the new hash may equal the old one); the rows of the other
    keys are untouched. *)
Theorem insert_forecast_replaces (fault : Database.Fault) (now : string)
    (db db' : Database.t) (city forecast_date data_date : string)
    (temp_min temp_max : Z)
    (conditions conditions_code source_url content_hash : string) :
  DbSpec.reachable db ->
  Database.insert_forecast fault now db city forecast_date data_date temp_min
    temp_max conditions conditions_code source_url content_hash = (db', true) ->
  exists row,
    DbSpec.rows_for city forecast_date db' = [row]
    /\ (Database.ForecastRow.city row = city
        /\ Database.ForecastRow.forecast_date row = forecast_date
        /\ Database.ForecastRow.data_date row = data_date
        /\ Database.ForecastRow.temp_min row = temp_min
        /\ Database.ForecastRow.temp_max row = temp_max
        /\ Database.ForecastRow.conditions row = conditions
        /\ Database.ForecastRow.conditions_code row = conditions_code
        /\ Database.ForecastRow.source_url row = source_url
        /\ Database.ForecastRow.content_hash row = content_hash
        /\ Database.ForecastRow.fetched_at row = now)
    /\ (forall r, In r (Database.city_forecasts db) ->
                  Database.ForecastRow.id r < Database.ForecastRow.id row)
    /\ (forall r, In r (DbSpec.rows_for city forecast_date db) ->
                  ~ In r (Database.city_forecasts db'))
    /\ DbSpec.rows_beside city forecast_date db'
       = DbSpec.rows_beside city forecast_date db.
Proof.
  intros Hreach Hi. apply insert_forecast_true in Hi. cbn zeta in Hi.
  destruct Hi as [Hrows Hseq].
  set (row := {| Database.ForecastRow.id := _ |}) in Hrows, Hseq.
  assert (Hkey : Database.forecast_key_is city forecast_date row = true)
    by (apply forecast_key_is_refl; reflexivity).
  assert (Hid : forall r, In r (Database.city_forecasts db) ->
                          Database.ForecastRow.id r < Database.ForecastRow.id row).
  { intros r Hin.
    pose proof (forecast_ids_issued_reachable db Hreach) as Hissued.
    unfold DbSpec.forecast_ids_issued in Hissued.
    rewrite List.Forall_forall in Hissued. specialize (Hissued r Hin).
    destruct (next_rowid_fresh (Database.city_forecasts_seq db)
                (List.map Database.ForecastRow.id
                   (DbSpec.rows_beside city forecast_date db))) as [Hs _].
    subst row. cbn [Database.ForecastRow.id]. lia. }
  exists row. split; [|split; [|split; [|split]]].
  - unfold DbSpec.rows_for. rewrite Hrows, List.filter_app.
    unfold DbSpec.rows_beside. rewrite filter_key_of_beside. cbn.
    rewrite Hkey. reflexivity.
  - repeat split; reflexivity.
  - exact Hid.
  - intros r Hin Hin'. unfold DbSpec.rows_for in Hin.
    apply List.filter_In in Hin as [Hin Hk].
    rewrite Hrows in Hin'. apply List.in_app_iff in Hin' as [Hb|[<-|[]]].
    + unfold DbSpec.rows_beside in Hb. apply List.filter_In in Hb as [_ Hb].
      rewrite Hk in Hb. discriminate.
    + specialize (Hid _ Hin). lia.
  - unfold DbSpec.rows_beside at 1. rewrite Hrows, List.filter_app.
    unfold DbSpec.rows_beside. rewrite filter_beside_idem. cbn.
    rewrite Hkey. cbn. apply app_nil_r.
Qed.

(** ** Alert rows: one row per fingerprint *)

Lemma alert_hash_exists_In (h : string) (db : Database.t) :
  Database.alert_hash_exists h db = true <-> In h (DbSpec.alert_hashes db).
Proof.
  unfold Database.alert_hash_exists, DbSpec.alert_hashes.
  rewrite List.existsb_exists, List.in_map_iff. split.
  - intros (r & Hin & Heq). apply String.eqb_eq in Heq. eauto.
  - intros (r & Heq & Hin). exists r. split; [exact Hin|].
    apply String.eqb_eq, Heq.
Qed.




Section AlertRuns.
Context `{PyRuntime}.








End AlertRuns.

(** ** Source health *)

Lemma round1_tenths (x : Q) :
  exists n : Z,
    (Database.round1 x == inject_Z n / inject_Z 10)%Q
    /\ (Qabs (inject_Z n / inject_Z 10 - x) <= 1 # 20)%Q.
Proof.
  unfold Database.round1.
  set (t := (x * inject_Z 10)%Q).
  assert (Ht : (x == t / inject_Z 10)%Q) by (unfold t; field).
  destruct (Qle_bool 0 t) eqn:Hs.
  - exists (Qfloor (t + (1 # 2))). split; [apply Qred_correct|].
    pose proof (Qfloor_le (t + (1 # 2))) as Hlo.
    pose proof (Qlt_floor (t + (1 # 2))) as Hhi.
    rewrite inject_Z_plus in Hhi.
    apply Qabs_case; intros _; rewrite Ht; clear Ht;
      generalize dependent (inject_Z (Qfloor (t + (1 # 2)))); intros q Hlo Hhi;
      change (inject_Z 10) with (10 # 1)%Q; change (inject_Z 1) with (1 # 1)%Q in Hhi;
      unfold Qdiv; change (/ (10 # 1))%Q with (1 # 10)%Q; lra.
  - exists (- Qfloor (- t + (1 # 2))). split; [apply Qred_correct|].
    pose proof (Qfloor_le (- t + (1 # 2))) as Hlo.
    pose proof (Qlt_floor (- t + (1 # 2))) as Hhi.
    rewrite inject_Z_plus in Hhi. rewrite inject_Z_opp.
    apply Qabs_case; intros _; rewrite Ht; clear Ht;
      generalize dependent (inject_Z (Qfloor (- t + (1 # 2)))); intros q Hlo Hhi;
      change (inject_Z 10) with (10 # 1)%Q; change (inject_Z 1) with (1 # 1)%Q in Hhi;
      unfold Qdiv; change (/ (10 # 1))%Q with (1 # 10)%Q; lra.
Qed.

Lemma insert_status_In (x y : Database.SourceStatus.t)
    (l : list Database.SourceStatus.t) :
  In y (Database.insert_status x l) <-> y = x \/ In y l.
Proof.
  induction l as [|z l IH]; cbn; [intuition congruence|].
  destruct (Database.status_leb x z); cbn; [intuition congruence|].
  rewrite IH. intuition congruence.
Qed.

(** [get_system_status] reports exactly the stored rows, each with the
    reliability computed from its counters. *)
Lemma get_system_status_In (db : Database.t) (row : Database.SourceStatus.t) (rel : Q) :
  In (row, rel) (Database.get_system_status db)
  <-> (exists url, Database.source_status db !! url = Some row)
      /\ rel = Database.reliability_percent row.
Proof.
  unfold Database.get_system_status. rewrite List.in_map_iff.
  assert (Hsort : forall l r,
             In r (List.fold_right Database.insert_status [] l) <-> In r l).
  { induction l as [|z l IH]; intros r; cbn; [tauto|].
    rewrite insert_status_In, IH. intuition congruence. }
  split.
  - intros (r & [= -> <-] & Hin). apply (proj1 (Hsort _ _)) in Hin.
    apply List.in_map_iff in Hin as ([url r'] & Heq & Hin). cbn in Heq. subst r'.
    apply list_elem_of_In, elem_of_map_to_list in Hin. eauto.
  - intros ((url & Hl) & ->). exists row. split; [reflexivity|].
    apply (proj2 (Hsort _ _)), List.in_map_iff.
    exists (url, row). split; [reflexivity|].
    apply list_elem_of_In, elem_of_map_to_list, Hl.
Qed.

(** One call of [update_source_status] that returns: the row of the source
    afterwards, against the row before. *)
Lemma update_source_status_row (fault : Database.Fault) (now : string)
    (db db' : Database.t) (url ty name : string) (ok : bool) (q : string)
    (fresh : bool) (n : Z) (err : option string) (ms : Z) :
  Database.update_source_status fault now db url ty name ok q fresh n err ms
  = inr db' ->
  (forall other, other <> url ->
     Database.source_status db' !! other = Database.source_status db !! other)
  /\ exists row,
       Database.source_status db' !! url = Some row
       /\ Database.SourceStatus.fetch_count row
          = DbSpec.counter Database.SourceStatus.fetch_count db url + 1
       /\ Database.SourceStatus.success_count row
          = DbSpec.counter Database.SourceStatus.success_count db url
            + (if ok then 1 else 0)
       /\ Database.SourceStatus.error_count row
          = DbSpec.counter Database.SourceStatus.error_count db url
            + (if ok then 0 else 1)
       /\ Database.SourceStatus.consecutive_failures row
          = (if ok then 0
             else DbSpec.counter Database.SourceStatus.consecutive_failures db url + 1).
Proof.
  unfold Database.update_source_status, DbSpec.counter.
  destruct (Database.raises fault 0); [discriminate|].
  destruct (Database.raises fault 1); [discriminate|].
  destruct (Database.source_status db !! url) as [old|] eqn:Hold;
    intros [= <-]; cbn [Database.source_status]; (split;
      [intros other Hne; apply lookup_insert_ne; congruence|]);
    eexists; (split; [apply lookup_insert_eq|]); cbn;
    destruct ok; repeat split; lia.
Qed.

(** C4, amended. Starting from no [source_status] row for a source, one
    failed fetch followed by one successful fetch, each recorded by
    [update_source_status], yields fetch_count = 2, success_count = 1,
    error_count = 1 and consecutive_failures = 0; the reliability is not
    stored: [get_system_status] derives it from the counters of the row, as
    success_count / fetch_count x 100 rounded to one decimal place (0 when
    fetch_count is 0), which gives 50.0 in this scenario. *)
Theorem failure_then_success_health (db db1 db2 : Database.t) (url : string)
    (fault fault' : Database.Fault) (now now' ty ty' name name' q q' : string)
    (fresh fresh' : bool) (n n' : Z) (err err' : option string) (ms ms' : Z) :
  Database.source_status db !! url = None ->
  Database.update_source_status fault now db url ty name false q fresh n err ms
  = inr db1 ->
  Database.update_source_status fault' now' db1 url ty' name' true q' fresh' n'
    err' ms' = inr db2 ->
  (exists row,
      Database.source_status db2 !! url = Some row
      /\ Database.SourceStatus.fetch_count row = 2
      /\ Database.SourceStatus.success_count row = 1
      /\ Database.SourceStatus.error_count row = 1
      /\ Database.SourceStatus.consecutive_failures row = 0
      /\ In (row, (50 # 1)%Q) (Database.get_system_status db2))
  /\ (forall any row rel,
        In (row, rel) (Database.get_system_status any) ->
        rel = Database.reliability_percent row
        /\ (Database.SourceStatus.fetch_count row = 0 -> rel = 0%Q)
        /\ (0 < Database.SourceStatus.fetch_count row ->
            exists tenths : Z,
              (rel == inject_Z tenths / inject_Z 10)%Q
              /\ (Qabs (inject_Z tenths / inject_Z 10
                        - DbSpec.reliability_as_specified row) <= 1 # 20)%Q)).
Proof.
  intros Hnone H1 H2. split.
  - apply update_source_status_row in H1 as (_ & r1 & Hr1 & Hf1 & Hs1 & He1 & Hc1).
    apply update_source_status_row in H2 as (_ & r2 & Hr2 & Hf2 & Hs2 & He2 & Hc2).
    unfold DbSpec.counter in *. rewrite Hnone in *. rewrite Hr1 in *.
    exists r2. repeat split; try lia; [exact Hr2|].
    apply get_system_status_In. split; [eauto|].
    unfold Database.reliability_percent.
    replace (Database.SourceStatus.fetch_count r2) with 2 by lia.
    replace (Database.SourceStatus.success_count r2) with 1 by lia.
    vm_compute. reflexivity.
  - intros any row rel Hin. apply get_system_status_In in Hin as [_ ->].
    split; [reflexivity|]. unfold Database.reliability_percent,
      DbSpec.reliability_as_specified. split.
    + intros ->. reflexivity.
    + intros Hpos. destruct (Z.ltb_spec 0 (Database.SourceStatus.fetch_count row));
        [|lia].
      destruct (Z.eqb_spec (Database.SourceStatus.fetch_count row) 0); [lia|].
      apply round1_tenths.
Qed.

(** C4 as specified fails on the code: for a source with one success in
    three fetches the reported reliability is 33.3, not 100/3. *)
Lemma reliability_is_rounded :
  exists row,
    Examples.feed_row Examples.one_in_three = Some row
    /\ Database.SourceStatus.fetch_count row = 3
    /\ Database.SourceStatus.success_count row = 1
    /\ Database.reliability_percent row = (333 # 10)%Q
    /\ ~ (Database.reliability_percent row
          == DbSpec.reliability_as_specified row)%Q.
Proof.
  eexists. split; [vm_compute; reflexivity|].
  repeat split; try (vm_compute; reflexivity).
  vm_compute. discriminate.
Qed.

Lemma insert_forecast_status (fault : Database.Fault) (now : string)
    (db : Database.t) (c d dd : string) (lo hi : Z) (co cc su h : string) :
  Database.source_status
    (Database.insert_forecast fault now db c d dd lo hi co cc su h).1
  = Database.source_status db.
Proof.
  unfold Database.insert_forecast, Database.insert_forecast_row.
  destruct (Database.raises fault 0); [reflexivity|].
  destruct (Database.raises fault 1); [reflexivity|].
  rewrite no_conflict_after_delete. reflexivity.
Qed.

Lemma insert_alert_status (fault : Database.Fault) (now : string)
    (db : Database.t) (ti de : string) (pa li al az tr : option string)
    (su h : string) :
  Database.source_status
    (Database.insert_alert fault now db ti de pa li al az tr su h).1
  = Database.source_status db.
Proof.
  unfold Database.insert_alert, Database.insert_or_ignore_alert.
  destruct (Database.raises fault 0); [reflexivity|].
  destruct (Database.alert_hash_exists h db);
    destruct (Database.raises fault 1); reflexivity.
Qed.

(** One call of [update_source_status] keeps the counters adding up. *)
Lemma update_source_status_keeps (fault : Database.Fault) (now : string)
    (db db' : Database.t) (url ty name : string) (ok : bool) (q : string)
    (fresh : bool) (n : Z) (err : option string) (ms : Z) :
  (forall u row, Database.source_status db !! u = Some row ->
                 DbSpec.counts_add_up row) ->
  Database.update_source_status fault now db url ty name ok q fresh n err ms
  = inr db' ->
  forall u row, Database.source_status db' !! u = Some row ->
                DbSpec.counts_add_up row.
Proof.
  intros Hinv Hu u row Hrow.
  apply update_source_status_row in Hu as (Hother & r & Hr & Hf & Hs & He & _).
  destruct (String.string_dec u url) as [->|Hne].
  - rewrite Hr in Hrow. injection Hrow as <-.
    unfold DbSpec.counts_add_up. rewrite Hf, Hs, He. unfold DbSpec.counter.
    destruct (Database.source_status db !! url) as [old|] eqn:Hold.
    + specialize (Hinv url old Hold). unfold DbSpec.counts_add_up in Hinv.
      destruct ok; lia.
    + destruct ok; lia.
  - rewrite Hother in Hrow by exact Hne. eapply Hinv, Hrow.
Qed.

Lemma counts_add_up_reachable (db : Database.t) :
  DbSpec.reachable db ->
  forall u row, Database.source_status db !! u = Some row ->
                DbSpec.counts_add_up row.
Proof.
  induction 1 as [|db fault now c d dd lo hi co cc su h Hr IH
                  |db fault now ti de pa li al az tr su h Hr IH
                  |db fault now su st sn ok q fr n em ms db' Hr IH Hu].
  - intros u row Hrow. unfold Database.init in Hrow.
    cbn [Database.source_status] in Hrow. rewrite lookup_empty in Hrow.
    discriminate.
  - rewrite insert_forecast_status. exact IH.
  - rewrite insert_alert_status. exact IH.
  - eapply update_source_status_keeps; eauto.
Qed.

(** C9. For every [source_status] row, fetch_count = success_count +
    error_count: [update_source_status] establishes it with its initial
    insert (fetch_count 1, and 1 in exactly one of success_count and
    error_count) and preserves it with every later update, which adds 1 to
    fetch_count and 1 to exactly one of success_count and error_count, for
    a success and for a failure alike. *)
Theorem source_status_counts_add_up (db : Database.t) :
  DbSpec.reachable db ->
  (forall url row, Database.source_status db !! url = Some row ->
                   DbSpec.counts_add_up row)
  /\ (forall fault now url ty name ok q fresh n err ms db',
        Database.update_source_status fault now db url ty name ok q fresh n
          err ms = inr db' ->
        (exists row,
            Database.source_status db' !! url = Some row
            /\ match Database.source_status db !! url with
               | None =>
                   Database.SourceStatus.fetch_count row = 1
                   /\ Database.SourceStatus.success_count row
                      = (if ok then 1 else 0)
                   /\ Database.SourceStatus.error_count row
                      = (if ok then 0 else 1)
               | Some old =>
                   Database.SourceStatus.fetch_count row
                   = Database.SourceStatus.fetch_count old + 1
                   /\ Database.SourceStatus.success_count row
                      = Database.SourceStatus.success_count old
                        + (if ok then 1 else 0)
                   /\ Database.SourceStatus.error_count row
                      = Database.SourceStatus.error_count old
                        + (if ok then 0 else 1)
               end)
        /\ (forall u row, Database.source_status db' !! u = Some row ->
                          DbSpec.counts_add_up row)).
Proof.
  intros Hreach. split; [apply counts_add_up_reachable, Hreach|].
  intros fault now url ty name ok q fresh n err ms db' Hu. split.
  - apply update_source_status_row in Hu as (_ & r & Hr & Hf & Hs & He & _).
    exists r. split; [exact Hr|]. unfold DbSpec.counter in *.
    destruct (Database.source_status db !! url); repeat split; lia.
  - eapply update_source_status_keeps; [|exact Hu].
    apply counts_add_up_reachable, Hreach.
Qed.

(** ** The sync status *)

(** [_update_sync_status] computes the overall quality from the last
    outcomes: valid when both succeeded, partial when exactly one did,
    unavailable when neither did. *)
Lemma update_sync_status_overall (now : string) (self : Scheduler.WeatherScheduler)
    (f a : Scheduler.FetchResult.t) :
  Scheduler._last_forecast_result self = Some f ->
  Scheduler._last_alert_result self = Some a ->
  exists st,
    Scheduler.get_sync_status (Scheduler._update_sync_status now self) = Some st
    /\ Scheduler.SyncStatus.forecast_healthy st
       = Some (Scheduler.FetchResult.success f)
    /\ Scheduler.SyncStatus.alert_healthy st
       = Some (Scheduler.FetchResult.success a)
    /\ Scheduler.SyncStatus.overall_quality st
       = match Scheduler.FetchResult.success f, Scheduler.FetchResult.success a with
         | true, true => "valid"
         | false, false => "unavailable"
         | _, _ => "partial"
         end.
Proof.
  intros Hf Ha. unfold Scheduler.get_sync_status, Scheduler._update_sync_status.
  cbn. rewrite Hf, Ha. cbn. eexists. repeat split.
  destruct (Scheduler.FetchResult.success f), (Scheduler.FetchResult.success a);
    reflexivity.
Qed.

(** A run of a recurring job never touches the sync status. *)
Lemma run_job_keeps_sync_status `{PyRuntime} (id : string)
    (env : Scheduler.RunEnv) (self : Scheduler.WeatherScheduler) :
  Scheduler.get_sync_status (Scheduler.run_job id env self)
  = Scheduler.get_sync_status self.
Proof.
  unfold Scheduler.run_job, Scheduler.get_sync_status.
  destruct (Scheduler._is_running self); [|reflexivity].
  destruct (Scheduler.scheduler self !! id) as [job|]; [|reflexivity].
  destruct (Scheduler.func job).
  - unfold Scheduler._fetch_forecasts.
    destruct (Fetcher.fetch_forecasts _ _) as [[fs m] f1].
    destruct (Scheduler.store_forecasts _ _ _ _ _) as [db1 added].
    destruct (Database.update_source_status _ _ _ _ _ _ _ _ _ _ _ _); reflexivity.
  - unfold Scheduler._fetch_alerts.
    destruct (Fetcher.fetch_alerts _ _) as [[als m] f1].
    destruct (Scheduler.store_alerts _ _ _ _ _) as [db1 added].
    destruct (Database.update_source_status _ _ _ _ _ _ _ _ _ _ _ _); reflexivity.
Qed.

(** C7 on the code. After the start-up fetch of both sources has succeeded,
    the recurring forecast job runs while the source times out: the last
    forecast outcome is a failure, yet [get_sync_status] still returns the
    status computed at start-up, with the forecast source healthy and the
    overall quality valid; recomputed from the latest outcomes it would be
    partial, with the forecast source not healthy. *)
Theorem sync_status_stale_after_job :
  (exists r,
      Scheduler._last_forecast_result Examples.after_failed_job = Some r
      /\ Scheduler.FetchResult.success r = false)
  /\ (exists st,
        Scheduler.get_sync_status Examples.after_failed_job = Some st
        /\ Scheduler.get_sync_status Examples.started = Some st
        /\ Scheduler.SyncStatus.forecast_healthy st = Some true
        /\ Scheduler.SyncStatus.overall_quality st = "valid")
  /\ (exists st,
        Scheduler.get_sync_status
          (Scheduler._update_sync_status "2024-05-01T10:00:16"
             Examples.after_failed_job) = Some st
        /\ Scheduler.SyncStatus.forecast_healthy st = Some false
        /\ Scheduler.SyncStatus.overall_quality st = "partial").
Proof.
  split; [|split].
  - eexists. split; [vm_compute; reflexivity | reflexivity].
  - eexists. split; [vm_compute; reflexivity|].
    split; [vm_compute; reflexivity|]. split; reflexivity.
  - eexists. split; [vm_compute; reflexivity|]. split; reflexivity.
Qed.

(** ** Instances *)

Lemma assess_quality_cases_witness :
  Fetcher._assess_quality 8 10 = Fetcher.PARTIAL.
Proof.
  refine (proj1 (proj2 (proj2 (proj2 (assess_quality_cases 8 10 _ _)))) _ _).
  - lia.
  - lia.
  - lia.
  - vm_compute. discriminate.
Defined.

Lemma insert_forecast_replaces_witness :
  exists row,
    DbSpec.rows_for "Cluj" "2024-05-02" Examples.same_forecast_again.1 = [row]
    /\ Database.ForecastRow.fetched_at row = "2024-05-01 10:00:01".
Proof.
  destruct (insert_forecast_replaces None "2024-05-01 10:00:01"
              Examples.one_forecast Examples.same_forecast_again.1
              "Cluj" "2024-05-02" "2024-05-01" 5 17 "Clear Sky" "1"
              Fetcher.ANM_FORECAST_XML_URL "hash-5-17"
              (DbSpec.reach_insert_forecast _ _ _ _ _ _ _ _ _ _ _ _
                 DbSpec.reach_init)
              eq_refl)
    as (row & Hrows & (_ & _ & _ & _ & _ & _ & _ & _ & _ & Hat) & _).
  exists row. split; [exact Hrows | exact Hat].
Defined.


Lemma failure_then_success_health_witness :
  exists row,
    Examples.feed_row
      (Examples.record_outcome true
         (Examples.record_outcome false Database.init)) = Some row
    /\ Database.SourceStatus.fetch_count row = 2
    /\ Database.SourceStatus.success_count row = 1
    /\ Database.SourceStatus.error_count row = 1
    /\ Database.SourceStatus.consecutive_failures row = 0.
Proof.
  destruct (failure_then_success_health Database.init
              (Examples.record_outcome false Database.init)
              (Examples.record_outcome true
                 (Examples.record_outcome false Database.init))
              "feed" None None "2024-05-01T10:00:00" "2024-05-01T10:00:00"
              "forecast" "forecast" "Feed" "Feed" "unavailable" "valid"
              false true 0 7 (Some "HTTP error 503") None 120 120
              eq_refl eq_refl eq_refl)
    as ((row & Hrow & Hf & Hs & He & Hc & _) & _).
  exists row. repeat split; assumption.
Defined.

Lemma source_status_counts_add_up_witness :
  exists row,
    Examples.feed_row (Examples.record_outcome false Database.init) = Some row
    /\ DbSpec.counts_add_up row.
Proof.
  eexists. split; [vm_compute; reflexivity|].
  refine (proj1 (source_status_counts_add_up
                   (Examples.record_outcome false Database.init)
                   (DbSpec.reach_update_source_status Database.init None
                      "2024-05-01T10:00:00" "feed" "forecast" "Feed" false
                      "unavailable" false 0 (Some "HTTP error 503") 120 _
                      DbSpec.reach_init eq_refl))
                "feed" _ _).
  vm_compute. reflexivity.
Defined.

(** * Further properties *)

(** ** Sorting *)

Section SortFacts.
Context {A : Type}.
Variable leb : A -> A -> bool.

Lemma insert_perm (x : A) (l : list A) :
  Permutation (Order.insert leb x l) (x :: l).
Proof.
  induction l as [|y l IH]; cbn; [reflexivity|].
  destruct (leb x y); [reflexivity|].
  rewrite IH. apply perm_swap.
Qed.

Lemma sort_perm (l : list A) : Permutation (Order.sort leb l) l.
Proof.
  induction l as [|x l IH]; cbn; [reflexivity|].
  rewrite insert_perm. constructor. exact IH.
Qed.

Lemma sort_In (l : list A) (x : A) : In x (Order.sort leb l) <-> In x l.
Proof.
  split; apply Permutation_in; [|symmetry]; apply sort_perm.
Qed.

Lemma sort_length (l : list A) : List.length (Order.sort leb l) = List.length l.
Proof. apply Permutation_length, sort_perm. Qed.

Hypothesis leb_total : forall a b, leb a b = true \/ leb b a = true.

Lemma insert_keeps_sorted (x : A) (l : list A) :
  Sorted (fun a b => leb a b = true) l ->
  Sorted (fun a b => leb a b = true) (Order.insert leb x l).
Proof using leb_total.
  induction l as [|y l IH]; intros Hs; cbn; [repeat constructor|].
  destruct (leb x y) eqn:Hxy.
  - constructor; [exact Hs | constructor; exact Hxy].
  - inversion Hs as [|? ? Hs' Hhd]; subst.
    assert (Hyx : leb y x = true) by (destruct (leb_total x y); congruence).
    constructor; [apply IH, Hs'|].
    destruct l as [|z l]; cbn; [constructor; exact Hyx|].
    destruct (leb x z); constructor; [exact Hyx|].
    inversion Hhd; assumption.
Qed.

Lemma sort_sorted (l : list A) :
  Sorted (fun a b => leb a b = true) (Order.sort leb l).
Proof using leb_total.
  induction l as [|x l IH]; cbn; [constructor|]. apply insert_keeps_sorted, IH.
Qed.

End SortFacts.

Lemma filter_length_le {A : Type} (f : A -> bool) (l : list A) :
  (List.length (List.filter f l) <= List.length l)%nat.
Proof.
  induction l as [|x l IH]; cbn; [lia|]. destruct (f x); cbn; lia.
Qed.

Lemma filter_filter_length_le {A : Type} (f g : A -> bool) (l : list A) :
  (List.length (List.filter f (List.filter g l))
   <= List.length (List.filter f l))%nat.
Proof.
  induction l as [|x l IH]; cbn; [lia|].
  destruct (g x) eqn:Hg; destruct (f x) eqn:Hf; cbn; rewrite ?Hf; cbn; lia.
Qed.

(** ** Invariants of the stored tables *)

Section StoreInvariants.
Variable older : Z -> string -> bool.

Lemma deactivate_tables (db : Database.t) (hours : Z) :
  let db' := (DatabaseReads.deactivate_old_alerts older db hours).1 in
  Database.city_forecasts db' = Database.city_forecasts db
  /\ Database.city_forecasts_seq db' = Database.city_forecasts_seq db
  /\ Database.source_status db' = Database.source_status db
  /\ Database.weather_alerts_seq db' = Database.weather_alerts_seq db
  /\ List.map Database.AlertRow.content_hash (Database.weather_alerts db')
     = List.map Database.AlertRow.content_hash (Database.weather_alerts db)
  /\ List.map Database.AlertRow.id (Database.weather_alerts db')
     = List.map Database.AlertRow.id (Database.weather_alerts db).
Proof.
  cbn. repeat split; rewrite List.map_map; apply List.map_ext; intros r;
    destruct (_ && _); reflexivity.
Qed.

(** What each writing method does to the forecast rows. *)
Lemma insert_forecast_rows (fault : Database.Fault) (now : string)
    (db : Database.t) (c d dd : string) (lo hi : Z) (co cc su h : string) :
  let res := Database.insert_forecast fault now db c d dd lo hi co cc su h in
  (res.2 = false /\ Database.city_forecasts res.1 = Database.city_forecasts db
   /\ Database.city_forecasts_seq res.1 = Database.city_forecasts_seq db)
  \/ (res.2 = false
      /\ Database.city_forecasts res.1 = DbSpec.rows_beside c d db
      /\ Database.city_forecasts_seq res.1 = Database.city_forecasts_seq db)
  \/ (res.2 = true
      /\ exists row,
           Database.city_forecasts res.1
           = (DbSpec.rows_beside c d db ++ [row])%list
           /\ Database.city_forecasts_seq res.1 = Database.ForecastRow.id row
           /\ Database.ForecastRow.city row = c
           /\ Database.ForecastRow.forecast_date row = d
           /\ Database.ForecastRow.id row
              = Database.next_rowid (Database.city_forecasts_seq db)
                  (List.map Database.ForecastRow.id (DbSpec.rows_beside c d db))).
Proof.
  cbn zeta. unfold Database.insert_forecast, Database.insert_forecast_row.
  destruct (Database.raises fault 0); [left; repeat split|].
  destruct (Database.raises fault 1); [right; left; repeat split|].
  rewrite no_conflict_after_delete. right; right. cbn.
  split; [reflexivity|]. eexists. repeat split.
Qed.

Lemma insert_alert_forecasts (fault : Database.Fault) (now : string)
    (db : Database.t) (ti de : string) (pa li al az tr : option string)
    (su h : string) :
  let db' := (Database.insert_alert fault now db ti de pa li al az tr su h).1 in
  Database.city_forecasts db' = Database.city_forecasts db
  /\ Database.city_forecasts_seq db' = Database.city_forecasts_seq db.
Proof.
  cbn zeta. unfold Database.insert_alert, Database.insert_or_ignore_alert.
  destruct (Database.raises fault 0); [split; reflexivity|].
  destruct (Database.alert_hash_exists h db);
    destruct (Database.raises fault 1); split; reflexivity.
Qed.

Lemma update_source_status_tables (fault : Database.Fault) (now : string)
    (db db' : Database.t) (url ty name : string) (ok : bool) (q : string)
    (fresh : bool) (n : Z) (err : option string) (ms : Z) :
  Database.update_source_status fault now db url ty name ok q fresh n err ms
  = inr db' ->
  Database.city_forecasts db' = Database.city_forecasts db
  /\ Database.city_forecasts_seq db' = Database.city_forecasts_seq db
  /\ Database.weather_alerts db' = Database.weather_alerts db
  /\ Database.weather_alerts_seq db' = Database.weather_alerts_seq db.
Proof.
  unfold Database.update_source_status.
  destruct (Database.raises fault 0); [discriminate|].
  destruct (Database.raises fault 1); [discriminate|].
  destruct (Database.source_status db !! url); intros [= <-];
    repeat split; reflexivity.
Qed.

Lemma rows_for_beside_other (c d c' d' : string) (rows : list Database.ForecastRow.t) :
  (List.length
     (List.filter (Database.forecast_key_is c' d')
        (List.filter (fun r => negb (Database.forecast_key_is c d r)) rows))
   <= List.length (List.filter (Database.forecast_key_is c' d') rows))%nat.
Proof. apply filter_filter_length_le. Qed.

Lemma forecast_key_is_inj (c d c' d' : string) (r : Database.ForecastRow.t) :
  Database.forecast_key_is c d r = true ->
  Database.forecast_key_is c' d' r = true ->
  c = c' /\ d = d'.
Proof.
  unfold Database.forecast_key_is. rewrite !andb_true_iff, !String.eqb_eq.
  intros [<- <-] [<- <-]. split; reflexivity.
Qed.

Lemma one_row_per_key_reachable (db : Database.t) :
  Store.reachable older db ->
  forall c d, (List.length (DbSpec.rows_for c d db) <= 1)%nat.
Proof.
  induction 1 as [|db fault now c0 d0 dd lo hi co cc su h Hr IH
                  |db fault now ti de pa li al az tr su h Hr IH
                  |db fault now su st sn ok q fr n em ms db' Hr IH Hu
                  |db hours Hr IH]; intros c d.
  - cbn. lia.
  - unfold DbSpec.rows_for.
    destruct (insert_forecast_rows fault now db c0 d0 dd lo hi co cc su h)
      as [(_ & -> & _)|[(_ & -> & _)|(_ & row & -> & _ & Hc & Hd & _)]].
    + apply IH.
    + etransitivity; [apply rows_for_beside_other | apply IH].
    + rewrite List.filter_app, List.length_app. cbn.
      destruct (Database.forecast_key_is c d row) eqn:Hk; cbn.
      * assert (Hk0 : Database.forecast_key_is c0 d0 row = true)
          by (apply forecast_key_is_refl; assumption).
        destruct (forecast_key_is_inj _ _ _ _ _ Hk Hk0) as [-> ->].
        unfold DbSpec.rows_beside. rewrite filter_key_of_beside. cbn. lia.
      * rewrite Nat.add_0_r.
        etransitivity; [apply rows_for_beside_other | apply IH].
  - unfold DbSpec.rows_for.
    rewrite (proj1 (insert_alert_forecasts fault now db ti de pa li al az tr su h)).
    apply IH.
  - unfold DbSpec.rows_for.
    rewrite (proj1 (update_source_status_tables _ _ _ _ _ _ _ _ _ _ _ _ _ Hu)).
    apply IH.
  - apply IH.
Qed.

Lemma NoDup_map_filter {A B : Type} (f : A -> B) (g : A -> bool) (l : list A) :
  List.NoDup (List.map f l) -> List.NoDup (List.map f (List.filter g l)).
Proof.
  induction l as [|x l IH]; cbn; intros Hn; [constructor|].
  apply List.NoDup_cons_iff in Hn as [Hx Hn].
  destruct (g x); cbn; [|apply IH, Hn].
  apply List.NoDup_cons_iff. split; [|apply IH, Hn].
  intros Hin. apply Hx.
  apply List.in_map_iff in Hin as (y & <- & Hy).
  apply List.filter_In in Hy as [Hy _]. apply List.in_map, Hy.
Qed.

Lemma NoDup_app_fresh {A : Type} (l : list A) (x : A) :
  List.NoDup l -> ~ In x l -> List.NoDup (l ++ [x]).
Proof.
  induction l as [|y l IH]; cbn; intros Hn Hx.
  - apply List.NoDup_cons_iff. split; [intros [] | constructor].
  - apply List.NoDup_cons_iff in Hn as [Hy Hn].
    apply List.NoDup_cons_iff. split.
    + rewrite List.in_app_iff. cbn. intuition congruence.
    + apply IH; [exact Hn | tauto].
Qed.

(** What [insert_alert] does to the alert rows. *)
Lemma insert_alert_table (fault : Database.Fault) (now : string)
    (db : Database.t) (ti de : string) (pa li al az tr : option string)
    (su h : string) :
  let db' := (Database.insert_alert fault now db ti de pa li al az tr su h).1 in
  (Database.weather_alerts db' = Database.weather_alerts db
   /\ Database.weather_alerts_seq db' = Database.weather_alerts_seq db)
  \/ (exists row,
        Database.weather_alerts db' = (Database.weather_alerts db ++ [row])%list
        /\ Database.weather_alerts_seq db' = Database.AlertRow.id row
        /\ Database.AlertRow.id row
           = Database.next_rowid (Database.weather_alerts_seq db)
               (List.map Database.AlertRow.id (Database.weather_alerts db))
        /\ Database.AlertRow.content_hash row = h
        /\ Database.AlertRow.is_active row = 1
        /\ ~ In h (DbSpec.alert_hashes db)).
Proof.
  cbn zeta. unfold Database.insert_alert, Database.insert_or_ignore_alert.
  destruct (Database.raises fault 0); [left; split; reflexivity|].
  destruct (Database.alert_hash_exists h db) eqn:Hex.
  - destruct (Database.raises fault 1); left; split; reflexivity.
  - assert (Hnew : ~ In h (DbSpec.alert_hashes db)).
    { intros Hin. apply alert_hash_exists_In in Hin. congruence. }
    destruct (Database.raises fault 1); right; cbn; eexists; repeat split;
      exact Hnew.
Qed.

Lemma alert_hashes_distinct_reachable (db : Database.t) :
  Store.reachable older db -> List.NoDup (DbSpec.alert_hashes db).
Proof.
  induction 1 as [|db fault now c0 d0 dd lo hi co cc su h Hr IH
                  |db fault now ti de pa li al az tr su h Hr IH
                  |db fault now su st sn ok q fr n em ms db' Hr IH Hu
                  |db hours Hr IH].
  - constructor.
  - unfold DbSpec.alert_hashes.
    replace (Database.weather_alerts
               (Database.insert_forecast fault now db c0 d0 dd lo hi co cc su h).1)
      with (Database.weather_alerts db); [exact IH|].
    unfold Database.insert_forecast, Database.insert_forecast_row.
    destruct (Database.raises fault 0); [reflexivity|].
    destruct (Database.raises fault 1); [reflexivity|].
    rewrite no_conflict_after_delete. reflexivity.
  - unfold DbSpec.alert_hashes.
    destruct (insert_alert_table fault now db ti de pa li al az tr su h)
      as [[-> _]|(row & -> & _ & _ & Hh & _ & Hnew)]; [exact IH|].
    rewrite List.map_app. cbn. rewrite Hh. apply NoDup_app_fresh; assumption.
  - unfold DbSpec.alert_hashes.
    destruct (update_source_status_tables _ _ _ _ _ _ _ _ _ _ _ _ _ Hu)
      as (_ & _ & -> & _). exact IH.
  - unfold DbSpec.alert_hashes.
    destruct (deactivate_tables db hours) as (_ & _ & _ & _ & -> & _). exact IH.
Qed.




Lemma In_firstn {A : Type} (n : nat) (l : list A) (x : A) :
  In x (List.firstn n l) -> In x l.
Proof.
  revert l. induction n as [|n IH]; intros [|y l]; cbn; try tauto.
  intros [->|Hin]; [left; reflexivity | right; apply IH, Hin].
Qed.

Lemma NoDup_firstn {A : Type} (n : nat) (l : list A) :
  List.NoDup l -> List.NoDup (List.firstn n l).
Proof.
  revert l. induction n as [|n IH]; intros [|x l] Hn; cbn; try constructor.
  - apply List.NoDup_cons_iff in Hn as [Hx Hn]. intros Hin. apply Hx.
    eapply In_firstn, Hin.
  - apply IH. apply List.NoDup_cons_iff in Hn. tauto.
Qed.

Lemma NoDup_map_of_counts {A : Type} (f : A -> string) (l : list A) :
  (forall d, (List.length (List.filter (fun r => String.eqb (f r) d) l) <= 1)%nat) ->
  List.NoDup (List.map f l).
Proof.
  induction l as [|x l IH]; intros Hc; cbn; [constructor|].
  apply List.NoDup_cons_iff. split.
  - intros Hin. apply List.in_map_iff in Hin as (y & Hy & Hin).
    specialize (Hc (f x)). cbn in Hc. rewrite String.eqb_refl in Hc. cbn in Hc.
    assert (Hy' : In y (List.filter (fun r => String.eqb (f r) (f x)) l)).
    { apply List.filter_In. split; [exact Hin|]. apply String.eqb_eq, Hy. }
    destruct (List.filter _ l); [destruct Hy' | cbn in Hc; lia].
  - apply IH. intros d. specialize (Hc d). cbn in Hc.
    destruct (String.eqb (f x) d); cbn in Hc; lia.
Qed.

Lemma rows_for_as_filters (c d : string) (rows : list Database.ForecastRow.t) :
  List.filter (Database.forecast_key_is c d) rows
  = List.filter (fun r => String.eqb (Database.ForecastRow.forecast_date r) d)
      (List.filter (fun r => String.eqb (Database.ForecastRow.city r) c) rows).
Proof.
  induction rows as [|r rows IH]; [reflexivity|]. cbn.
  unfold Database.forecast_key_is at 1.
  destruct (String.eqb (Database.ForecastRow.city r) c); cbn;
    [destruct (String.eqb (Database.ForecastRow.forecast_date r) d); cbn;
       rewrite IH; reflexivity
    | exact IH].
Qed.

(** X1. In every state of the database there is at most one forecast row
    per (city, forecast_date), so the forecast of a city has one row per
    day. *)
Theorem one_forecast_per_city_and_date (db : Database.t) :
  Store.reachable older db ->
  (forall city forecast_date,
      (List.length (DbSpec.rows_for city forecast_date db) <= 1)%nat)
  /\ (forall city,
        List.NoDup (List.map Database.ForecastRow.forecast_date
                      (DatabaseReads.get_city_forecast db city))).
Proof.
  intros Hreach.
  pose proof (one_row_per_key_reachable db Hreach) as Hone.
  split; [exact Hone|]. intros city. unfold DatabaseReads.get_city_forecast.
  eapply Permutation.Permutation_NoDup;
    [symmetry; apply Permutation_map, sort_perm|].
  apply NoDup_map_of_counts. intros d.
  rewrite <- rows_for_as_filters. apply Hone.
Qed.

(** X2. In every state of the database the fingerprints of the alert rows
    are pairwise distinct, so no listing of active alerts shows an alert
    twice. *)
Theorem alert_fingerprints_distinct (db : Database.t) (limit : Z) :
  Store.reachable older db ->
  List.NoDup (DbSpec.alert_hashes db)
  /\ List.NoDup (List.map Database.AlertRow.content_hash
                   (DatabaseReads.get_active_alerts db limit)).
Proof.
  intros Hreach.
  pose proof (alert_hashes_distinct_reachable db Hreach) as Hn.
  split; [exact Hn|].
  unfold DatabaseReads.get_active_alerts, DatabaseReads.sql_limit.
  assert (Hs : List.NoDup
                 (List.map Database.AlertRow.content_hash
                    (Order.sort DatabaseReads.published_desc
                       (List.filter (fun r => Database.AlertRow.is_active r =? 1)
                          (Database.weather_alerts db))))).
  { eapply Permutation.Permutation_NoDup;
      [symmetry; apply Permutation_map, sort_perm|].
    apply NoDup_map_filter, Hn. }
  destruct (limit <? 0); [exact Hs|].
  rewrite <- List.firstn_map. apply NoDup_firstn, Hs.
Qed.


End StoreInvariants.

(** ** Reading the forecasts back *)

(** X4. [insert_forecast] is not atomic: when the engine fails at the
    DELETE nothing changes, but when it fails at the INSERT the rows of the
    key are already deleted (autocommit), so the call returns False and
    leaves the (city, forecast_date) without any row; the other keys keep
    their rows. *)
Theorem insert_forecast_fault (now : string) (db : Database.t)
    (msg city forecast_date data_date : string) (temp_min temp_max : Z)
    (conditions conditions_code source_url content_hash : string) :
  Database.insert_forecast (Some (0%nat, msg)) now db city forecast_date
    data_date temp_min temp_max conditions conditions_code source_url
    content_hash = (db, false)
  /\ let res :=
       Database.insert_forecast (Some (1%nat, msg)) now db city forecast_date
         data_date temp_min temp_max conditions conditions_code source_url
         content_hash in
     res.2 = false
     /\ DbSpec.rows_for city forecast_date res.1 = []
     /\ DbSpec.rows_beside city forecast_date res.1
        = DbSpec.rows_beside city forecast_date db
     /\ Database.city_forecasts res.1 = DbSpec.rows_beside city forecast_date db.
Proof.
  split; [reflexivity|]. cbn. unfold DbSpec.rows_for, DbSpec.rows_beside. cbn.
  rewrite filter_key_of_beside, filter_beside_idem. repeat split.
Qed.

Lemma string_leb_total (a b : string) : String.leb a b = true \/ String.leb b a = true.
Proof. apply String.leb_total. Qed.

(** X5. [get_city_forecast] returns exactly the stored rows of the city, in
    ascending order of forecast date; a city without rows gives the empty
    list. *)
Theorem get_city_forecast_sorted (db : Database.t) (city : string) :
  Permutation (DatabaseReads.get_city_forecast db city)
    (List.filter (fun r => String.eqb (Database.ForecastRow.city r) city)
                 (Database.city_forecasts db))
  /\ Sorted (fun a b => String.leb (Database.ForecastRow.forecast_date a)
                                   (Database.ForecastRow.forecast_date b) = true)
            (DatabaseReads.get_city_forecast db city)
  /\ (forall r, In r (DatabaseReads.get_city_forecast db city) <->
                In r (Database.city_forecasts db)
                /\ Database.ForecastRow.city r = city)
  /\ ((forall r, In r (Database.city_forecasts db) ->
                 Database.ForecastRow.city r <> city) ->
      DatabaseReads.get_city_forecast db city = []).
Proof.
  unfold DatabaseReads.get_city_forecast. split; [apply sort_perm|].
  split; [apply sort_sorted; intros a b; apply string_leb_total|]. split.
  - intros r. rewrite sort_In, List.filter_In, String.eqb_eq. reflexivity.
  - intros Hnone.
    assert (Hnil : List.filter
                     (fun r => String.eqb (Database.ForecastRow.city r) city)
                     (Database.city_forecasts db) = []).
    { induction (Database.city_forecasts db) as [|r rows IH]; [reflexivity|].
      cbn. destruct (String.eqb_spec (Database.ForecastRow.city r) city) as [He|_].
      - exfalso. apply (Hnone r); [left; reflexivity | exact He].
      - apply IH. intros r' Hr'. apply Hnone. right. exact Hr'. }
    rewrite Hnil. reflexivity.
Qed.

(** X6. A forecast stored by [insert_forecast] is read back by
    [get_city_forecast]: after a call that returns True the forecast of the
    city contains a row with the values of the call, and it is the only row
    of the city for that date. *)
Theorem insert_then_get_city_forecast (fault : Database.Fault) (now : string)
    (db db' : Database.t) (city forecast_date data_date : string)
    (temp_min temp_max : Z)
    (conditions conditions_code source_url content_hash : string) :
  Database.insert_forecast fault now db city forecast_date data_date temp_min
    temp_max conditions conditions_code source_url content_hash = (db', true) ->
  exists row,
    In row (DatabaseReads.get_city_forecast db' city)
    /\ Database.ForecastRow.forecast_date row = forecast_date
    /\ Database.ForecastRow.data_date row = data_date
    /\ Database.ForecastRow.temp_min row = temp_min
    /\ Database.ForecastRow.temp_max row = temp_max
    /\ Database.ForecastRow.conditions row = conditions
    /\ Database.ForecastRow.conditions_code row = conditions_code
    /\ Database.ForecastRow.content_hash row = content_hash
    /\ Database.ForecastRow.fetched_at row = now
    /\ (forall r, In r (DatabaseReads.get_city_forecast db' city) ->
                  Database.ForecastRow.forecast_date r = forecast_date ->
                  r = row).
Proof.
  intros Hi. apply insert_forecast_true in Hi. cbn zeta in Hi.
  destruct Hi as [Hrows _].
  set (row := {| Database.ForecastRow.id := _ |}) in Hrows.
  exists row. unfold DatabaseReads.get_city_forecast.
  split.
  { apply sort_In, List.filter_In. split.
    - rewrite Hrows. apply List.in_app_iff. right. left. reflexivity.
    - apply String.eqb_refl. }
  repeat split; try reflexivity.
  intros r Hin Hd. apply sort_In, List.filter_In in Hin as [Hin Hc].
  apply String.eqb_eq in Hc.
  rewrite Hrows in Hin. apply List.in_app_iff in Hin as [Hb|[<-|[]]];
    [|reflexivity].
  unfold DbSpec.rows_beside in Hb. apply List.filter_In in Hb as [_ Hb].
  rewrite (forecast_key_is_refl city forecast_date r Hc Hd) in Hb. discriminate.
Qed.

Lemma distinct_cities_In (db : Database.t) (c : string) :
  In c (Database.distinct_cities db) <->
  exists r, In r (Database.city_forecasts db) /\ Database.ForecastRow.city r = c.
Proof.
  unfold Database.distinct_cities.
  rewrite <- list_elem_of_In, elem_of_remove_dups, list_elem_of_In, List.in_map_iff.
  split; intros (r & H1 & H2); exists r; tauto.
Qed.

Lemma remove_dups_length (l : list string) :
  (List.length (remove_dups l) <= List.length l)%nat.
Proof.
  induction l as [|x l IH]; cbn; [lia|].
  destruct (decide_rel elem_of x l); cbn; lia.
Qed.

(** X7. [get_all_cities] lists every city that has a forecast row, each
    once, in ascending order. *)
Theorem get_all_cities_sorted (db : Database.t) :
  (forall c, In c (DatabaseReads.get_all_cities db) <->
             exists r, In r (Database.city_forecasts db)
                       /\ Database.ForecastRow.city r = c)
  /\ List.NoDup (DatabaseReads.get_all_cities db)
  /\ Sorted (fun a b => String.leb a b = true) (DatabaseReads.get_all_cities db).
Proof.
  unfold DatabaseReads.get_all_cities. split; [|split].
  - intros c. rewrite sort_In. apply distinct_cities_In.
  - eapply Permutation.Permutation_NoDup; [symmetry; apply sort_perm|].
    apply NoDup_ListNoDup, NoDup_remove_dups.
  - apply sort_sorted, string_leb_total.
Qed.

(** X8. The figures of [get_data_summary] agree with the other readings:
    the number of cities is the length of [get_all_cities] and at most the
    number of forecast rows (and 0 exactly when there is none), the alert
    figure is [get_alert_count], and the total is the sum of the forecast
    and alert figures. *)
Theorem data_summary_consistent (db : Database.t) :
  let summary := DatabaseReads.get_data_summary db in
  DatabaseReads.city_count summary
  = Z.of_nat (List.length (DatabaseReads.get_all_cities db))
  /\ 0 <= DatabaseReads.city_count summary
        <= DatabaseReads.forecast_entries summary
  /\ (DatabaseReads.city_count summary = 0 <->
      DatabaseReads.forecast_entries summary = 0)
  /\ DatabaseReads.alert_entries summary = Database.get_alert_count db
  /\ DatabaseReads.total_entries summary
     = DatabaseReads.forecast_entries summary
       + DatabaseReads.alert_entries summary.
Proof.
  cbn. unfold DatabaseReads.get_all_cities. rewrite sort_length.
  unfold Database.distinct_cities.
  pose proof (remove_dups_length
                (List.map Database.ForecastRow.city (Database.city_forecasts db)))
    as Hle.
  rewrite List.length_map in Hle.
  split; [reflexivity|]. split; [lia|]. split; [|split; reflexivity].
  destruct (Database.city_forecasts db) as [|r rows]; [cbn; tauto|].
  split; [|cbn [List.length]; lia].
  intros H0. exfalso.
  assert (Hin : In (Database.ForecastRow.city r)
                  (remove_dups (List.map Database.ForecastRow.city (r :: rows)))).
  { apply list_elem_of_In, elem_of_remove_dups, list_elem_of_In. left. reflexivity. }
  destruct (remove_dups _); [destruct Hin | cbn in H0; lia].
Qed.

(** ** The alert table *)

Lemma active_count_app (rows : list Database.AlertRow.t) (row : Database.AlertRow.t) :
  Database.AlertRow.is_active row = 1 ->
  List.length (List.filter (fun r => Database.AlertRow.is_active r =? 1)
                 (rows ++ [row]))
  = S (List.length (List.filter (fun r => Database.AlertRow.is_active r =? 1) rows)).
Proof.
  intros Ha. rewrite List.filter_app, List.length_app. cbn. rewrite Ha. cbn. lia.
Qed.

(** X9. The count of active alerts after [insert_alert]: with the engine
    working it grows by one exactly when the call returns True; when the
    engine fails only at reading [changes()], a new alert is stored and
    counted although the call returns False. *)
Theorem alert_count_after_insert (now msg : string) (db : Database.t)
    (alert : Fetcher.WeatherAlert.t) :
  (let res := DbSpec.insert_alert_record None now db alert in
   Database.get_alert_count res.1
   = Database.get_alert_count db + (if res.2 then 1 else 0))
  /\ (~ In (Fetcher.WeatherAlert.content_hash alert) (DbSpec.alert_hashes db) ->
      let res := DbSpec.insert_alert_record (Some (1%nat, msg)) now db alert in
      res.2 = false
      /\ Database.get_alert_count res.1 = Database.get_alert_count db + 1
      /\ In (Fetcher.WeatherAlert.content_hash alert) (DbSpec.alert_hashes res.1)).
Proof.
  split.
  - cbn zeta. unfold DbSpec.insert_alert_record, Database.insert_alert,
      Database.insert_or_ignore_alert. cbn [Database.raises].
    destruct (Database.alert_hash_exists _ db); cbn [fst snd].
    + cbn. lia.
    + unfold Database.get_alert_count. cbn [Database.weather_alerts].
      rewrite active_count_app by reflexivity. cbn. lia.
  - intros Hnew. cbn zeta.
    assert (Hex : Database.alert_hash_exists
                    (Fetcher.WeatherAlert.content_hash alert) db = false).
    { destruct (Database.alert_hash_exists _ db) eqn:He; [|reflexivity].
      apply alert_hash_exists_In in He. contradiction. }
    unfold DbSpec.insert_alert_record, Database.insert_alert,
      Database.insert_or_ignore_alert. cbn [Database.raises Nat.eqb].
    rewrite Hex. cbn [fst snd]. split; [reflexivity|]. split.
    + unfold Database.get_alert_count. cbn [Database.weather_alerts].
      rewrite active_count_app by reflexivity. lia.
    + unfold DbSpec.alert_hashes. cbn [Database.weather_alerts].
      rewrite List.map_app. apply List.in_app_iff. right. left. reflexivity.
Qed.

Section Retention.
Variable older : Z -> string -> bool.





End Retention.

Lemma option_leb_total (a b : option string) :
  Order.option_leb a b = true \/ Order.option_leb b a = true.
Proof.
  destruct a as [x|], b as [y|]; cbn; auto. apply String.leb_total.
Qed.

Lemma firstn_length_le {A : Type} (n : nat) (l : list A) :
  (List.length (List.firstn n l) <= n)%nat.
Proof. rewrite List.length_firstn. lia. Qed.

(** X11. [get_active_alerts] returns active rows of the table only, newest
    publication first with the unpublished ones last, and at most [limit] of
    them; when the limit covers the active alerts it returns them all. *)
Theorem get_active_alerts_bounded (db : Database.t) (limit : Z) :
  0 <= limit ->
  (Z.of_nat (List.length (DatabaseReads.get_active_alerts db limit)) <= limit)
  /\ (forall r, In r (DatabaseReads.get_active_alerts db limit) ->
                In r (Database.weather_alerts db)
                /\ Database.AlertRow.is_active r = 1)
  /\ Sorted (fun a b => Order.option_leb (Database.AlertRow.published_at b)
                                         (Database.AlertRow.published_at a) = true)
            (DatabaseReads.get_active_alerts db limit)
  /\ (Database.get_alert_count db <= limit ->
      Permutation (DatabaseReads.get_active_alerts db limit)
        (List.filter (fun r => Database.AlertRow.is_active r =? 1)
                     (Database.weather_alerts db))).
Proof.
  intros Hl. unfold DatabaseReads.get_active_alerts, DatabaseReads.sql_limit.
  destruct (Z.ltb_spec limit 0); [lia|].
  set (sorted := Order.sort DatabaseReads.published_desc _).
  assert (Hs : Sorted (fun a b => DatabaseReads.published_desc a b = true) sorted).
  { apply sort_sorted. intros a b. apply option_leb_total. }
  split; [|split; [|split]].
  - pose proof (firstn_length_le (Z.to_nat limit) sorted). lia.
  - intros r Hin. apply In_firstn in Hin. apply sort_In in Hin.
    apply List.filter_In in Hin as [Hin Ha]. split; [exact Hin | lia].
  - clear -Hs. revert Hs. generalize (Z.to_nat limit) as n.
    induction sorted as [|x l IH]; intros n Hs; [destruct n; constructor|].
    destruct n as [|n]; cbn; [constructor|].
    inversion Hs as [|? ? Hs' Hhd]; subst. constructor; [apply IH, Hs'|].
    destruct l as [|y l]; [destruct n; constructor|].
    destruct n; cbn; constructor. inversion Hhd; assumption.
  - intros Hc. rewrite List.firstn_all2; [apply sort_perm|].
    unfold sorted. rewrite sort_length. unfold Database.get_alert_count in Hc. lia.
Qed.

(** ** Source health: invariants and figures *)

Lemma update_source_status_health (fault : Database.Fault) (now : string)
    (db db' : Database.t) (url ty name : string) (ok : bool) (q : string)
    (fresh : bool) (n : Z) (err : option string) (ms : Z) :
  (forall u row, Database.source_status db !! u = Some row -> Store.health_ok u row) ->
  Database.update_source_status fault now db url ty name ok q fresh n err ms
  = inr db' ->
  forall u row, Database.source_status db' !! u = Some row -> Store.health_ok u row.
Proof.
  intros Hinv Hu u row Hrow. unfold Database.update_source_status in Hu.
  destruct (Database.raises fault 0); [discriminate|].
  destruct (Database.raises fault 1); [discriminate|].
  destruct (String.string_dec u url) as [->|Hne].
  - destruct (Database.source_status db !! url) as [old|] eqn:Hold;
      injection Hu as <-; cbn [Database.source_status] in Hrow;
      rewrite lookup_insert_eq in Hrow; injection Hrow as <-.
    + destruct (Hinv url old Hold)
        as (Hk & Hf & Hs & He & Hsum & Hc & Hst & Hlf & Hls & Hfr).
      unfold Store.health_ok. cbn.
      split; [exact Hk|]. destruct ok; cbn.
      * do 5 (split; [lia|]). split; [left; repeat split; reflexivity|].
        split; [eexists; reflexivity|].
        split; [split; [lia | discriminate]|]. destruct fresh; auto.
      * do 5 (split; [lia|]). split; [right; split; [reflexivity | lia]|].
        split; [eexists; reflexivity|].
        split; [rewrite Z.add_0_r; exact Hls|]. destruct fresh; auto.
    + unfold Store.health_ok. cbn.
      split; [reflexivity|]. destruct ok; cbn.
      * do 5 (split; [lia|]). split; [left; repeat split; reflexivity|].
        split; [eexists; reflexivity|].
        split; [split; [lia | discriminate]|]. destruct fresh; auto.
      * do 5 (split; [lia|]). split; [right; split; [reflexivity | lia]|].
        split; [eexists; reflexivity|].
        split; [tauto|]. destruct fresh; auto.
  - apply Hinv.
    destruct (Database.source_status db !! url); injection Hu as <-;
      cbn [Database.source_status] in Hrow;
      rewrite lookup_insert_ne in Hrow by congruence; exact Hrow.
Qed.

Section HealthInvariants.
Variable older : Z -> string -> bool.

Lemma health_ok_reachable (db : Database.t) :
  Store.reachable older db ->
  forall u row, Database.source_status db !! u = Some row -> Store.health_ok u row.
Proof.
  induction 1 as [|db fault now c0 d0 dd lo hi co cc su h Hr IH
                  |db fault now ti de pa li al az tr su h Hr IH
                  |db fault now su st sn ok q fr n em ms db' Hr IH Hu
                  |db hours Hr IH].
  - intros u row Hrow. unfold Database.init in Hrow.
    cbn [Database.source_status] in Hrow. rewrite lookup_empty in Hrow.
    discriminate.
  - rewrite insert_forecast_status. exact IH.
  - rewrite insert_alert_status. exact IH.
  - eapply update_source_status_health; eauto.
  - exact IH.
Qed.

(** X12. Every stored source-health row, in every state of the database:
    its key is its URL; fetch_count >= 1 and equals success_count +
    error_count, both non-negative; the failure streak is between 0 and
    error_count; the status is ok exactly with a streak of 0, and then the
    last success is the last fetch; a row has a last-success time exactly
    when success_count is not 0. *)
Theorem source_health_invariant (db : Database.t) (url : string)
    (row : Database.SourceStatus.t) :
  Store.reachable older db ->
  Database.source_status db !! url = Some row ->
  Store.health_ok url row
  /\ (Database.SourceStatus.status row = "ok" <->
      Database.SourceStatus.consecutive_failures row = 0).
Proof.
  intros Hreach Hrow.
  pose proof (health_ok_reachable db Hreach url row Hrow) as Hok.
  split; [exact Hok|].
  destruct Hok as (_ & _ & _ & _ & _ & _ & [(Hs & Hc & _)|(Hs & Hc)] & _).
  - rewrite Hs, Hc. tauto.
  - rewrite Hs. split; [discriminate | lia].
Qed.

Lemma round1_comp (x y : Q) : (x == y)%Q -> Database.round1 x = Database.round1 y.
Proof.
  intros Hxy. unfold Database.round1.
  assert (Ht : (x * inject_Z 10 == y * inject_Z 10)%Q) by (rewrite Hxy; reflexivity).
  assert (Hb : Qle_bool 0 (x * inject_Z 10) = Qle_bool 0 (y * inject_Z 10))
    by (rewrite Ht; reflexivity).
  assert (H1 : Qfloor (x * inject_Z 10 + (1 # 2)) = Qfloor (y * inject_Z 10 + (1 # 2)))
    by (apply Qfloor_comp; rewrite Ht; reflexivity).
  assert (H2 : Qfloor (- (x * inject_Z 10) + (1 # 2))
               = Qfloor (- (y * inject_Z 10) + (1 # 2)))
    by (apply Qfloor_comp; rewrite Ht; reflexivity).
  rewrite Hb, H1, H2. reflexivity.
Qed.

Lemma round1_range (x : Q) :
  (0 <= x)%Q -> (x <= 100)%Q ->
  (0 <= Database.round1 x)%Q /\ (Database.round1 x <= 100)%Q.
Proof.
  intros H0 H100. destruct (round1_tenths x) as (n & Heq & Habs).
  apply Qabs_Qle_condition in Habs as [Hlo Hhi].
  assert (Hn : 0 <= n <= 1000).
  { assert (H1 : (- (1 # 20) <= inject_Z n / inject_Z 10)%Q) by lra.
    assert (H2 : (inject_Z n / inject_Z 10 <= 100 + (1 # 20))%Q) by lra.
    unfold Qle, Qdiv, Qmult, Qinv, Qplus, Qopp, inject_Z in H1, H2.
    cbn in H1, H2. lia. }
  rewrite Heq. unfold Qle, Qdiv, Qmult, Qinv, inject_Z. cbn. lia.
Qed.

Lemma ratio_range (s f : Z) :
  0 <= s <= f -> 1 <= f ->
  (0 <= inject_Z s / inject_Z f * inject_Z 100)%Q
  /\ (inject_Z s / inject_Z f * inject_Z 100 <= 100)%Q.
Proof.
  intros Hs Hf.
  assert (Hqf : (0 < inject_Z f)%Q) by (unfold Qlt, inject_Z; cbn; lia).
  assert (Hqs : (0 <= inject_Z s)%Q) by (unfold Qle, inject_Z; cbn; lia).
  assert (Hsf : (inject_Z s <= inject_Z f)%Q) by (unfold Qle, inject_Z; cbn; lia).
  assert (H0 : (0 <= inject_Z s / inject_Z f)%Q).
  { apply Qle_shift_div_l; [exact Hqf|]. lra. }
  assert (H1 : (inject_Z s / inject_Z f <= 1)%Q).
  { apply Qle_shift_div_r; [exact Hqf|]. lra. }
  change (inject_Z 100) with (100 # 1)%Q.
  generalize dependent (inject_Z s / inject_Z f)%Q. intros r H0 H1. split; lra.
Qed.

(** X13. In every state of the database, the reliability that
    [get_system_status] reports for a source lies between 0 and 100; it is
    0 for a source that never succeeded and 100 for a source that never
    failed. *)
Theorem reliability_in_range (db : Database.t) (row : Database.SourceStatus.t)
    (rel : Q) :
  Store.reachable older db ->
  In (row, rel) (Database.get_system_status db) ->
  (0 <= rel)%Q /\ (rel <= 100)%Q
  /\ (Database.SourceStatus.success_count row = 0 -> rel = 0%Q)
  /\ (Database.SourceStatus.error_count row = 0 -> rel = (100 # 1)%Q).
Proof.
  intros Hreach Hin. apply get_system_status_In in Hin as [(url & Hrow) ->].
  destruct (health_ok_reachable db Hreach url row Hrow)
    as (_ & Hf & Hs & He & Hsum & _).
  unfold Database.reliability_percent.
  destruct (Z.ltb_spec 0 (Database.SourceStatus.fetch_count row)); [|lia].
  destruct (ratio_range (Database.SourceStatus.success_count row)
              (Database.SourceStatus.fetch_count row)) as [H0 H100]; [lia | lia|].
  destruct (round1_range _ H0 H100) as [Hr0 Hr100].
  assert (Hqf : ~ (inject_Z (Database.SourceStatus.fetch_count row) == 0)%Q).
  { intros Heq. unfold Qeq, inject_Z in Heq. cbn in Heq. lia. }
  split; [exact Hr0|]. split; [exact Hr100|]. split.
  - intros Hz. rewrite Hz.
    rewrite (round1_comp _ 0%Q); [reflexivity|]. field. exact Hqf.
  - intros Hz. replace (Database.SourceStatus.success_count row)
      with (Database.SourceStatus.fetch_count row) by lia.
    rewrite (round1_comp _ (100 # 1)%Q); [reflexivity|].
    change (inject_Z 100) with (100 # 1)%Q. field. exact Hqf.
Qed.

End HealthInvariants.


Lemma record_failures_counts (url : string) (failures : list Store.Failure) :
  forall db db',
    Store.record_failures url failures db = inr db' ->
    let k := Z.of_nat (List.length failures) in
    (forall other, other <> url ->
        Database.source_status db' !! other = Database.source_status db !! other)
    /\ DbSpec.counter Database.SourceStatus.fetch_count db' url
       = DbSpec.counter Database.SourceStatus.fetch_count db url + k
    /\ DbSpec.counter Database.SourceStatus.error_count db' url
       = DbSpec.counter Database.SourceStatus.error_count db url + k
    /\ DbSpec.counter Database.SourceStatus.success_count db' url
       = DbSpec.counter Database.SourceStatus.success_count db url
    /\ DbSpec.counter Database.SourceStatus.consecutive_failures db' url
       = DbSpec.counter Database.SourceStatus.consecutive_failures db url + k.
Proof.
  induction failures as [|f rest IH]; intros db db' Hrec; cbn zeta.
  - injection Hrec as <-. cbn. repeat split; lia.
  - cbn [Store.record_failures] in Hrec.
    destruct (Database.update_source_status None _ db url _ _ false _ _ _ _ _)
      as [e|db1] eqn:Hu; [discriminate|].
    apply update_source_status_row in Hu as (Hother & r & Hr & Hf & Hs & He & Hc).
    destruct (IH db1 db' Hrec) as (Ho & IHf & IHe & IHs & IHc).
    cbn [List.length]. split.
    + intros other Hne. rewrite Ho, Hother by exact Hne. reflexivity.
    + rewrite IHf, IHe, IHs, IHc. unfold DbSpec.counter at 1 3 5 7.
      rewrite Hr. repeat split; lia.
Qed.

(** X15. Recording k failed outcomes in a row for a source raises its
    fetch_count, its error_count and its failure streak by k each (one per
    recorded outcome) and keeps its success_count; one success afterwards
    resets the streak to 0 and counts one success.  The rows of the other
    sources are not touched. *)
Theorem failure_streak (url : string) (failures : list Store.Failure)
    (db db' db'' : Database.t) (fault : Database.Fault)
    (now ty name q : string) (fresh : bool) (n : Z) (err : option string)
    (ms : Z) :
  Store.record_failures url failures db = inr db' ->
  Database.update_source_status fault now db' url ty name true q fresh n err ms
  = inr db'' ->
  let k := Z.of_nat (List.length failures) in
  (DbSpec.counter Database.SourceStatus.consecutive_failures db' url
   = DbSpec.counter Database.SourceStatus.consecutive_failures db url + k
   /\ DbSpec.counter Database.SourceStatus.error_count db' url
      = DbSpec.counter Database.SourceStatus.error_count db url + k
   /\ DbSpec.counter Database.SourceStatus.fetch_count db' url
      = DbSpec.counter Database.SourceStatus.fetch_count db url + k
   /\ DbSpec.counter Database.SourceStatus.success_count db' url
      = DbSpec.counter Database.SourceStatus.success_count db url)
  /\ (DbSpec.counter Database.SourceStatus.consecutive_failures db'' url = 0
      /\ DbSpec.counter Database.SourceStatus.success_count db'' url
         = DbSpec.counter Database.SourceStatus.success_count db url + 1
      /\ DbSpec.counter Database.SourceStatus.error_count db'' url
         = DbSpec.counter Database.SourceStatus.error_count db url + k)
  /\ (forall other, other <> url ->
        Database.source_status db'' !! other = Database.source_status db !! other).
Proof.
  intros Hrec Hu. cbn zeta.
  destruct (record_failures_counts url failures db db' Hrec)
    as (Ho & Hf & He & Hs & Hc).
  apply update_source_status_row in Hu as (Hother & r & Hr & Hf' & Hs' & He' & Hc').
  split; [repeat split; assumption|]. split.
  - unfold DbSpec.counter at 1 2 4. rewrite Hr. repeat split; lia.
  - intros other Hne. rewrite Hother, Ho by exact Hne. reflexivity.
Qed.


(** X16. The stored error text: an update of an existing row clears it on
    success and replaces it on failure, whereas the first call for a source
    stores the error message it is given, also when it reports a success. *)
Theorem last_error_after_update (fault : Database.Fault) (now : string)
    (db db' : Database.t) (url ty name : string) (ok : bool) (q : string)
    (fresh : bool) (n : Z) (err : option string) (ms : Z) :
  Database.update_source_status fault now db url ty name ok q fresh n err ms
  = inr db' ->
  exists row,
    Database.source_status db' !! url = Some row
    /\ Database.SourceStatus.last_error row
       = match Database.source_status db !! url with
         | Some _ => if ok then None else err
         | None => err
         end
    /\ Database.SourceStatus.status row = (if ok then "ok" else "error")
    /\ Database.SourceStatus.last_success_at row
       = (if ok then Some now
          else match Database.source_status db !! url with
               | Some old => Database.SourceStatus.last_success_at old
               | None => None
               end).
Proof.
  unfold Database.update_source_status.
  destruct (Database.raises fault 0); [discriminate|].
  destruct (Database.raises fault 1); [discriminate|].
  destruct (Database.source_status db !! url) as [old|]; intros [= <-];
    cbn [Database.source_status]; eexists; (split; [apply lookup_insert_eq|]);
    cbn; destruct ok; repeat split.
Qed.

(** ** The status endpoints *)

Lemma app_nil_both {A : Type} (l1 l2 : list A) :
  (l1 ++ l2)%list = [] <-> l1 = [] /\ l2 = [].
Proof. destruct l1; cbn; split; [tauto|tauto|discriminate|intros [H _]; discriminate]. Qed.

Lemma flat_map_nil {A B : Type} (f : A -> list B) (l : list A) :
  List.flat_map f l = [] <-> forall x, In x l -> f x = [].
Proof.
  induction l as [|x l IH]; cbn; [tauto|].
  rewrite app_nil_both, IH. split.
  - intros [Hx Hl] y [<-|Hy]; auto.
  - intros H. split; [apply H; left; reflexivity|]. intros y Hy. apply H. right. exact Hy.
Qed.

(** X17. [detect_risks] and the status built from it: before the
    application is initialised the only risk is "System not initialized",
    /health answers degraded and /status raises; afterwards there is no
    risk exactly when the sync status, if there is one, reports both
    sources healthy and every source row has a failure streak below 3 and
    a reliability of at least 80, and /status says healthy for no risk,
    degraded for one risk and unhealthy for more; /health says healthy
    exactly when there is no risk. *)
Theorem risks_and_status (app : Api.App) :
  (app = None ->
   Api.detect_risks app = ["System not initialized"]
   /\ Api.health_status app = "degraded"
   /\ Api.system_status app = None)
  /\ (forall scheduler,
        app = Some scheduler ->
        (Api.detect_risks app = [] <->
         (forall st, Scheduler.get_sync_status scheduler = Some st ->
                     Scheduler.SyncStatus.forecast_healthy st = Some true
                     /\ Scheduler.SyncStatus.alert_healthy st = Some true)
         /\ (forall row rel,
               In (row, rel)
                  (Database.get_system_status (Scheduler.database scheduler)) ->
               Database.SourceStatus.consecutive_failures row < 3
               /\ (80 <= rel)%Q))
        /\ exists status,
             Api.system_status app = Some status
             /\ (status = "healthy" <-> Api.detect_risks app = [])
             /\ (status = "degraded" <->
                 List.length (Api.detect_risks app) = 1%nat)
             /\ (status = "unhealthy" <->
                 (2 <= List.length (Api.detect_risks app))%nat))
  /\ (Api.health_status app = "healthy" <-> Api.detect_risks app = []).
Proof.
  split; [intros ->; repeat split; reflexivity|]. split.
  - intros scheduler ->. split;
      [|unfold Api.system_status; eexists; split; [reflexivity|];
        destruct (Api.detect_risks (Some scheduler)) as [|r1 [|r2 rest]]; cbn;
        repeat split; intros; try discriminate; try reflexivity; lia].
    unfold Api.detect_risks.
    rewrite app_nil_both, flat_map_nil. split.
    + intros [Hsync Hrows]. split.
      * intros st Hst. rewrite Hst in Hsync. apply app_nil_both in Hsync as [H1 H2].
        destruct (Scheduler.SyncStatus.forecast_healthy st) as [[|]|];
          destruct (Scheduler.SyncStatus.alert_healthy st) as [[|]|];
          cbn in H1, H2; try discriminate. split; reflexivity.
      * intros row rel Hin. specialize (Hrows _ Hin).
        unfold Api.source_risks in Hrows. cbn [fst snd] in Hrows.
        apply app_nil_both in Hrows as [H1 H2].
        destruct (Z.leb_spec 3 (Database.SourceStatus.consecutive_failures row));
          [discriminate|].
        unfold Api.below in H2.
        destruct (Qle_bool (inject_Z 80) rel) eqn:Hq; [|discriminate].
        split; [lia|]. apply Qle_bool_iff in Hq. exact Hq.
    + intros [Hsync Hrows]. split.
      * destruct (Scheduler.get_sync_status scheduler) as [st|]; [|reflexivity].
        destruct (Hsync st eq_refl) as [-> ->]. reflexivity.
      * intros [row rel] Hin. destruct (Hrows row rel Hin) as [Hc Hr].
        unfold Api.source_risks, Api.below. cbn [fst snd].
        destruct (Z.leb_spec 3 (Database.SourceStatus.consecutive_failures row));
          [lia|].
        apply Qle_bool_iff in Hr. change (inject_Z 80) with (80 # 1)%Q.
        rewrite Hr. reflexivity.
  - unfold Api.health_status.
    destruct (Api.detect_risks app) as [|r1 rest]; cbn;
      split; intros; try discriminate; reflexivity.
Qed.

Lemma count_level_sum (alerts : list Database.AlertRow.t) (counts : Api.LevelCounts) :
  let counts' := List.fold_left Api.count_level alerts counts in
  Api.YELLOW counts' + Api.ORANGE counts' + Api.RED counts' + Api.OTHER counts'
  = Api.YELLOW counts + Api.ORANGE counts + Api.RED counts + Api.OTHER counts
    + Z.of_nat (List.length alerts)
  /\ Api.YELLOW counts <= Api.YELLOW counts'
  /\ Api.ORANGE counts <= Api.ORANGE counts'
  /\ Api.RED counts <= Api.RED counts'
  /\ Api.OTHER counts <= Api.OTHER counts'.
Proof.
  revert counts. induction alerts as [|a alerts IH]; intros counts; cbn zeta.
  - cbn. lia.
  - cbn [List.fold_left List.length].
    specialize (IH (Api.count_level counts a)). cbn zeta in IH.
    assert (Hstep :
      Api.YELLOW (Api.count_level counts a) + Api.ORANGE (Api.count_level counts a)
      + Api.RED (Api.count_level counts a) + Api.OTHER (Api.count_level counts a)
      = Api.YELLOW counts + Api.ORANGE counts + Api.RED counts + Api.OTHER counts + 1
      /\ Api.YELLOW counts <= Api.YELLOW (Api.count_level counts a)
      /\ Api.ORANGE counts <= Api.ORANGE (Api.count_level counts a)
      /\ Api.RED counts <= Api.RED (Api.count_level counts a)
      /\ Api.OTHER counts <= Api.OTHER (Api.count_level counts a)).
    { unfold Api.count_level.
      destruct (Database.AlertRow.alert_level a) as [l|]; [|cbn; lia].
      destruct (String.eqb l "YELLOW"); [cbn; lia|].
      destruct (String.eqb l "ORANGE"); [cbn; lia|].
      destruct (String.eqb l "RED"); cbn; lia. }
    lia.
Qed.

(** X18. The endpoint /alerts/count: the four level figures are
    non-negative and add up to the total, and the total is the number of
    active alerts capped at 100. *)
Theorem alert_counts_add_up (db : Database.t) :
  let counts := (Api.get_alert_count db).2 in
  let total := (Api.get_alert_count db).1 in
  Api.YELLOW counts + Api.ORANGE counts + Api.RED counts + Api.OTHER counts
  = total
  /\ 0 <= Api.YELLOW counts /\ 0 <= Api.ORANGE counts
  /\ 0 <= Api.RED counts /\ 0 <= Api.OTHER counts
  /\ total = Z.min 100 (Database.get_alert_count db).
Proof.
  cbn zeta. unfold Api.get_alert_count. cbn [fst snd].
  pose proof (count_level_sum (DatabaseReads.get_active_alerts db 100)
                {| Api.YELLOW := 0; Api.ORANGE := 0; Api.RED := 0; Api.OTHER := 0 |})
    as Hsum.
  cbn zeta in Hsum. cbn [Api.YELLOW Api.ORANGE Api.RED Api.OTHER] in Hsum.
  split; [lia|]. do 4 (split; [lia|]).
  unfold DatabaseReads.get_active_alerts, DatabaseReads.sql_limit,
    Database.get_alert_count. cbn [Z.ltb Z.compare].
  rewrite List.length_firstn, sort_length. lia.
Qed.

(** ** The scheduler *)


(** X20. After [fetch_all] (and so after [trigger_immediate_fetch]) the
    sync status is the one of this run: it reports each source healthy
    exactly when the result returned for it is a success, its overall
    quality is valid, partial or unavailable by the number of successes,
    its alert figure is the count of active alerts of the database, and
    [get_last_results] returns the two results of the run, the forecast one
    first. *)
Theorem fetch_all_sync_status `{PyRuntime} (env_forecast env_alert : Scheduler.RunEnv)
    (now : string) (self : Scheduler.WeatherScheduler) :
  let run := Scheduler.trigger_immediate_fetch env_forecast env_alert now self in
  exists rf ra st,
    run.2 = [rf; ra]
    /\ Scheduler.get_last_results run.1 = [rf; ra]
    /\ Scheduler.FetchResult.source_type rf = "forecast"
    /\ Scheduler.FetchResult.source_type ra = "alert"
    /\ Scheduler.get_sync_status run.1 = Some st
    /\ Scheduler.SyncStatus.last_sync_time st = now
    /\ Scheduler.SyncStatus.forecast_healthy st
       = Some (Scheduler.FetchResult.success rf)
    /\ Scheduler.SyncStatus.alert_healthy st
       = Some (Scheduler.FetchResult.success ra)
    /\ Scheduler.SyncStatus.overall_quality st
       = match Scheduler.FetchResult.success rf, Scheduler.FetchResult.success ra with
         | true, true => "valid"
         | false, false => "unavailable"
         | _, _ => "partial"
         end
    /\ Scheduler.SyncStatus.active_alerts st
       = Database.get_alert_count (Scheduler.database run.1).
Proof.
  cbn zeta. unfold Scheduler.trigger_immediate_fetch, Scheduler.fetch_all.
  destruct (Scheduler._fetch_forecasts env_forecast self) as [self1 rf] eqn:Hf.
  destruct (Scheduler._fetch_alerts env_alert self1) as [self2 ra] eqn:Ha.
  assert (Hlf : Scheduler._last_forecast_result self1 = Some rf
                /\ Scheduler.FetchResult.source_type rf = "forecast").
  { unfold Scheduler._fetch_forecasts in Hf.
    destruct (Fetcher.fetch_forecasts _ _) as [[fs m] f1].
    destruct (Scheduler.store_forecasts _ _ _ _ _) as [db1 added].
    destruct (Database.update_source_status _ _ _ _ _ _ _ _ _ _ _ _);
      injection Hf as <- <-; split; reflexivity. }
  assert (Hla : Scheduler._last_alert_result self2 = Some ra
                /\ Scheduler._last_forecast_result self2
                   = Scheduler._last_forecast_result self1
                /\ Scheduler.FetchResult.source_type ra = "alert").
  { unfold Scheduler._fetch_alerts in Ha.
    destruct (Fetcher.fetch_alerts _ _) as [[als m] f1].
    destruct (Scheduler.store_alerts _ _ _ _ _) as [db1 added].
    destruct (Database.update_source_status _ _ _ _ _ _ _ _ _ _ _ _);
      injection Ha as <- <-; repeat split; reflexivity. }
  destruct Hlf as [Hlf Htf]. destruct Hla as (Hla & Hkeep & Hta).
  rewrite Hlf in Hkeep.
  exists rf, ra. eexists. cbn [fst snd].
  unfold Scheduler.get_last_results, Scheduler.get_sync_status,
    Scheduler._update_sync_status.
  cbn [Scheduler._last_forecast_result Scheduler._last_alert_result
       Scheduler._last_sync_status Scheduler.database].
  rewrite Hkeep, Hla. cbn [Scheduler.and_success].
  repeat split; try assumption; try reflexivity.
  destruct (Scheduler.FetchResult.success rf), (Scheduler.FetchResult.success ra);
    reflexivity.
Qed.





Section ForecastRuns.
Context `{PyRuntime}.

(** The shape of what [fetch_forecasts] returns. *)
Lemma fetch_forecasts_shape (env : Fetcher.FetchEnv) (self : Fetcher.ANMFetcher) :
  let records := (Fetcher.fetch_forecasts env self).1.1 in
  let m := (Fetcher.fetch_forecasts env self).1.2 in
  Fetcher.FetchMetadata.source_url m = Fetcher.ANM_FORECAST_XML_URL
  /\ Fetcher.FetchMetadata.valid_entries m = Z.of_nat (List.length records)
  /\ 0 <= Fetcher.FetchMetadata.valid_entries m
          <= Fetcher.FetchMetadata.entries_count m
  /\ (Fetcher.FetchMetadata.success m = true <->
      Fetcher.FetchMetadata.error_message m = None)
  /\ Fetcher._cached_cities (Fetcher.fetch_forecasts env self).2
     = (if Fetcher.FetchMetadata.success m
        then remove_dups (List.map Fetcher.CityForecast.city records)
        else Fetcher._cached_cities self).
Proof.
  cbn zeta. unfold Fetcher.fetch_forecasts, Fetcher._fetch_raw.
  destruct (Fetcher.response env) as [content| |e|code|e]; cbn;
    try (repeat split; try lia; try discriminate; fail).
  destruct (Fetcher._validate_xml_structure content) eqn:Hv; cbn;
    [|repeat split; try lia; discriminate].
  destruct (validate_parses content Hv) as [root Hroot].
  rewrite (parse_forecast_xml_root (Fetcher.now_iso env) content root Hroot).
  cbn. rewrite records_length.
  pose proof (filter_length_le ForecastSpec.entry_valid (ForecastSpec.entries root)).
  repeat split; try lia; try reflexivity.
Qed.



End ForecastRuns.

(** ** The cached cities *)

Lemma sorted_is_sort (l : list string) : Fetcher.sorted l = Order.sort String.leb l.
Proof.
  unfold Fetcher.sorted, Order.sort. induction l as [|x l IH]; [reflexivity|].
  cbn. rewrite IH. generalize (List.fold_right (Order.insert String.leb) [] l).
  intros m. induction m as [|y m IHm]; [reflexivity|]. cbn.
  destruct (String.leb x y); [reflexivity|]. rewrite IHm. reflexivity.
Qed.

(** X23. [get_available_cities] after a forecast fetch: when the fetch
    succeeds it lists the cities of the returned records, each once, in
    ascending order (none for a document without valid entries); when the
    fetch fails it still returns the cities of the earlier fetch.  An alert
    fetch never changes it. *)
Theorem available_cities_after_fetch `{PyRuntime} (env : Fetcher.FetchEnv)
    (self : Fetcher.ANMFetcher) :
  let records := (Fetcher.fetch_forecasts env self).1.1 in
  let m := (Fetcher.fetch_forecasts env self).1.2 in
  let cities := Fetcher.get_available_cities (Fetcher.fetch_forecasts env self).2 in
  (Fetcher.FetchMetadata.success m = true ->
   (forall c, In c cities <-> exists f, In f records /\ Fetcher.CityForecast.city f = c)
   /\ List.NoDup cities
   /\ Sorted (fun a b => String.leb a b = true) cities)
  /\ (Fetcher.FetchMetadata.success m = false ->
      records = [] /\ cities = Fetcher.get_available_cities self)
  /\ Fetcher.get_available_cities (Fetcher.fetch_alerts env self).2
     = Fetcher.get_available_cities self.
Proof.
  cbn zeta.
  destruct (fetch_forecasts_shape env self) as (_ & Hvalid & _ & _ & Hcache).
  cbn zeta in Hvalid, Hcache. unfold Fetcher.get_available_cities.
  rewrite Hcache. split; [|split].
  - intros Hs. rewrite Hs, sorted_is_sort. split; [|split].
    + intros c. rewrite sort_In, <- list_elem_of_In, elem_of_remove_dups,
        list_elem_of_In, List.in_map_iff.
      split; intros (f & H1 & H2); exists f; tauto.
    + eapply Permutation.Permutation_NoDup; [symmetry; apply sort_perm|].
      apply NoDup_ListNoDup, NoDup_remove_dups.
    + apply sort_sorted, string_leb_total.
  - intros Hs. rewrite Hs. split; [|reflexivity].
    revert Hs Hvalid. unfold Fetcher.fetch_forecasts, Fetcher._fetch_raw.
    destruct (Fetcher.response env) as [content| |e|code|e]; cbn; try reflexivity.
    destruct (Fetcher._validate_xml_structure content) eqn:Hv; cbn;
      [|reflexivity].
    destruct (validate_parses content Hv) as [root Hroot].
    rewrite (parse_forecast_xml_root (Fetcher.now_iso env) content root Hroot).
    cbn. discriminate.
  - unfold Fetcher.fetch_alerts.
    destruct (Fetcher._fetch_raw self env) as [e|[raw rt]]; [reflexivity|].
    destruct (Fetcher._parse_alert_rss (Fetcher.now_iso env) raw)
      as [e|[[als v] t]]; reflexivity.
Qed.

(** ** The records of the parsers *)

Lemma lstrip_head (s : string) :
  match PyStr.lstrip s with
  | String c _ => PyStr.is_space c = false
  | EmptyString => True
  end.
Proof.
  induction s as [|c s IH]; cbn; [exact I|].
  destruct (PyStr.is_space c) eqn:Hc; [exact IH | cbn; exact Hc].
Qed.

Lemma lstrip_fixed (s : string) :
  match s with String c _ => PyStr.is_space c = false | EmptyString => True end ->
  PyStr.lstrip s = s.
Proof. destruct s as [|c s]; cbn; [reflexivity|]. intros ->. reflexivity. Qed.

Lemma rstrip_head (s : string) :
  match s with String c _ => PyStr.is_space c = false | EmptyString => True end ->
  match PyStr.rstrip s with
  | String c _ => PyStr.is_space c = false
  | EmptyString => True
  end.
Proof.
  destruct s as [|c s]; cbn; [tauto|]. intros Hc.
  destruct (PyStr.rstrip s); [rewrite Hc|]; exact Hc.
Qed.

Lemma rstrip_idem (s : string) : PyStr.rstrip (PyStr.rstrip s) = PyStr.rstrip s.
Proof.
  induction s as [|c s IH]; [reflexivity|]. cbn.
  destruct (PyStr.rstrip s) as [|d r] eqn:Hr.
  - destruct (PyStr.is_space c) eqn:Hc; [reflexivity|]. cbn. rewrite Hc. reflexivity.
  - cbn [PyStr.rstrip] in IH |- *. fold PyStr.rstrip in *.
    change (PyStr.rstrip (String c (String d r)))
      with (match PyStr.rstrip (String d r) with
            | EmptyString => if PyStr.is_space c then EmptyString
                             else String c EmptyString
            | x => String c x
            end).
    rewrite IH. reflexivity.
Qed.

(** White space is stripped once and for all. *)
Lemma strip_idem (s : string) : PyStr.strip (PyStr.strip s) = PyStr.strip s.
Proof.
  unfold PyStr.strip.
  rewrite (lstrip_fixed (PyStr.rstrip (PyStr.lstrip s)));
    [apply rstrip_idem | apply rstrip_head, lstrip_head].
Qed.

Section Records.
Context `{PyRuntime}.

Lemma entries_have_name (root : ET.Element) (l p : ET.Element) :
  In (l, p) (ForecastSpec.entries root) -> ForecastSpec.has_name l = true.
Proof.
  unfold ForecastSpec.entries. rewrite List.in_flat_map.
  intros (l' & Hl' & Hin). apply List.filter_In in Hl' as [_ Hname].
  apply List.in_map_iff in Hin as (p' & [= <- <-] & _). exact Hname.
Qed.

(** X24. Every forecast record a fetch returns is well formed: its city is
    not empty and carries no white space at either end, its forecast date
    is not empty, its source is the forecast URL, it is stamped with the
    clock of the fetch, and its fingerprint is computed from the city, the
    date, the two temperatures and the conditions as written in the
    document (not their translation). *)
Theorem forecast_records_well_formed (env : Fetcher.FetchEnv)
    (self : Fetcher.ANMFetcher) :
  List.Forall
    (fun f =>
       Fetcher.CityForecast.city f <> EmptyString
       /\ PyStr.strip (Fetcher.CityForecast.city f) = Fetcher.CityForecast.city f
       /\ Fetcher.CityForecast.forecast_date f <> EmptyString
       /\ Fetcher.CityForecast.source_url f = Fetcher.ANM_FORECAST_XML_URL
       /\ Fetcher.CityForecast.fetched_at f = Fetcher.now_iso env
       /\ exists raw,
            Fetcher.CityForecast.conditions f = Fetcher._translate_conditions raw
            /\ Fetcher.CityForecast.content_hash f
               = Fetcher._compute_hash
                   [Fetcher.CityForecast.city f;
                    Fetcher.CityForecast.forecast_date f;
                    pretty (Fetcher.CityForecast.temp_min f);
                    pretty (Fetcher.CityForecast.temp_max f); raw])
    (Fetcher.fetch_forecasts env self).1.1.
Proof.
  unfold Fetcher.fetch_forecasts, Fetcher._fetch_raw.
  destruct (Fetcher.response env) as [content| |e|code|e]; cbn;
    try apply List.Forall_nil.
  destruct (Fetcher._validate_xml_structure content) eqn:Hv; cbn;
    [|apply List.Forall_nil].
  destruct (validate_parses content Hv) as [root Hroot].
  rewrite (parse_forecast_xml_root (Fetcher.now_iso env) content root Hroot).
  cbn. apply List.Forall_forall. intros f Hf.
  apply list_elem_of_In, list_elem_of_omap in Hf as ([l p] & Hin & Hrec).
  apply list_elem_of_In, entries_have_name in Hin.
  unfold ForecastSpec.record_of in Hrec.
  destruct (ForecastSpec.entry_valid (l, p)) eqn:Hvalid; [|discriminate].
  destruct (int_of_str (ET.findtext p "temp_min" "")) as [lo|]; [|discriminate].
  destruct (int_of_str (ET.findtext p "temp_max" "")) as [hi|]; [|discriminate].
  injection Hrec as <-. cbn.
  unfold ForecastSpec.has_name in Hin. apply negb_true_iff in Hin.
  apply String.eqb_neq in Hin.
  unfold ForecastSpec.entry_valid in Hvalid. cbn [snd] in Hvalid.
  apply andb_prop in Hvalid as [Hvalid _]. apply andb_prop in Hvalid as [Hd _].
  apply negb_true_iff, String.eqb_neq in Hd.
  repeat split; try assumption.
  - unfold ForecastSpec.name_of. apply strip_idem.
  - exists (ET.findtext p "fenomen_descriere" ""). split; reflexivity.
Qed.

(** X25. An alert feed is taken entry by entry: a feed that the parser
    flags as malformed and that has no entry is a failed fetch with no
    record; any other feed (also a flagged one with entries) is a
    successful fetch that returns one alert per entry, in order, counts
    every entry as valid, and is assessed VALID, or UNAVAILABLE when it has
    no entry - never PARTIAL or INVALID. *)
Theorem alert_feed_entry_by_entry (content : bytes) (start now : string)
    (ms : Z) (self : Fetcher.ANMFetcher) :
  let env := FailureSpec.env_at (Fetcher.Content content) start ms now in
  let feed := feedparser_parse content in
  let alerts := (Fetcher.fetch_alerts env self).1.1 in
  let m := (Fetcher.fetch_alerts env self).1.2 in
  (Feedparser.bozo feed = true /\ Feedparser.entries feed = [] ->
   alerts = []
   /\ Fetcher.FetchMetadata.success m = false
   /\ Fetcher.FetchMetadata.error_message m
      = Some ("RSS parsing failed: " +:+ Feedparser.bozo_exception feed))
  /\ (Feedparser.bozo feed = false \/ Feedparser.entries feed <> [] ->
      alerts = List.map (Fetcher.alert_of_entry now) (Feedparser.entries feed)
      /\ Fetcher.FetchMetadata.success m = true
      /\ Fetcher.FetchMetadata.entries_count m
         = Z.of_nat (List.length (Feedparser.entries feed))
      /\ Fetcher.FetchMetadata.valid_entries m
         = Z.of_nat (List.length (Feedparser.entries feed))
      /\ Fetcher.FetchMetadata.data_quality m
         = match Feedparser.entries feed with
           | [] => Fetcher.UNAVAILABLE
           | _ => Fetcher.VALID
           end).
Proof.
  cbn zeta. unfold Fetcher.fetch_alerts, Fetcher._fetch_raw,
    Fetcher._parse_alert_rss, FailureSpec.env_at.
  cbn [Fetcher.response Fetcher.now_iso Fetcher.elapsed_ms].
  split.
  - intros [-> ->]. cbn. repeat split; reflexivity.
  - intros Hok.
    assert (Hb : Feedparser.bozo (feedparser_parse content)
                 && match Feedparser.entries (feedparser_parse content) with
                    | [] => true | _ => false end = false).
    { destruct Hok as [-> | Hne]; [reflexivity|].
      destruct (Feedparser.entries (feedparser_parse content));
        [contradiction | apply andb_false_r]. }
    rewrite Hb, parse_entry_loop. cbn.
    repeat split; try reflexivity.
    unfold Fetcher._assess_quality.
    destruct (Feedparser.entries (feedparser_parse content)) as [|e es];
      [reflexivity|].
    cbn [List.length].
    destruct (Z.eqb_spec (Z.of_nat (S (List.length es))) 0) as [H0|_]; [lia|].
    rewrite Z.eqb_refl. reflexivity.
Qed.

(** X26. The alert built from a feed entry: its title is never empty
    (the default title stands in for a missing one), its source is the
    alert URL, its link is the one of the entry, its zones never exceed
    200 characters; without a parsed publication time it has no
    publication time, whatever the textual one of the entry; and its
    fingerprint does not depend on the link of the entry nor on the clock,
    so that an entry republished under another link is the same alert. *)
Theorem alert_of_entry_fields (now : string) (item : Feedparser.Entry) :
  let a := Fetcher.alert_of_entry now item in
  Fetcher.WeatherAlert.title a <> EmptyString
  /\ (Feedparser.title item = None ->
      Fetcher.WeatherAlert.title a = "Weather Alert")
  /\ Fetcher.WeatherAlert.source_url a = Fetcher.ANM_ALERTS_RSS_URL
  /\ Fetcher.WeatherAlert.fetched_at a = now
  /\ Fetcher.WeatherAlert.link a = Feedparser.link item
  /\ (forall z, Fetcher.WeatherAlert.affected_zones a = Some z ->
        PyStr.len z <= 200)
  /\ (Feedparser.published_parsed item = None ->
      Fetcher.WeatherAlert.published_at a = None)
  /\ (forall now' link',
        Fetcher.WeatherAlert.content_hash
          (Fetcher.alert_of_entry now'
             {| Feedparser.title := Feedparser.title item;
                Feedparser.summary := Feedparser.summary item;
                Feedparser.description := Feedparser.description item;
                Feedparser.published_parsed := Feedparser.published_parsed item;
                Feedparser.published := Feedparser.published item;
                Feedparser.link := link' |})
        = Fetcher.WeatherAlert.content_hash a).
Proof.
  cbn zeta. unfold Fetcher.alert_of_entry. cbn.
  repeat split.
  - destruct (PyStr.truthy _) eqn:Ht; [|discriminate].
    intros Heq. rewrite Heq in Ht. discriminate.
  - intros ->. reflexivity.
  - intros z. unfold Fetcher._extract_zones.
    destruct (Re.search false Fetcher.zones_re _); [|discriminate].
    intros [= <-]. rewrite clip_take. unfold PyStr.len.
    pose proof (take_length 200 (PyStr.strip (Re.group m 1))). lia.
  - intros ->. reflexivity.
Qed.

End Records.

(** ** The translation of the conditions *)

Lemma startswith_app (p q s : string) :
  PyStr.startswith (p +:+ q) s = true -> PyStr.startswith p s = true.
Proof.
  revert s. induction p as [|a p IH]; intros s; [reflexivity|].
  cbn. destruct s as [|b s]; [discriminate|].
  intros Hs. apply andb_prop in Hs as [-> Hs]. cbn. apply IH, Hs.
Qed.

Lemma contains_app (p q s : string) :
  PyStr.contains (p +:+ q) s = true -> PyStr.contains p s = true.
Proof.
  induction s as [|b s IH]; cbn [PyStr.contains]; intros Hc;
    apply orb_prop in Hc as [Hc|Hc]; apply orb_true_iff.
  - left. eapply startswith_app, Hc.
  - discriminate.
  - left. eapply startswith_app, Hc.
  - right. apply IH, Hc.
Qed.

Lemma append_assoc (a b c : string) : (a +:+ b) +:+ c = a +:+ (b +:+ c).
Proof.
  induction a as [|x a IH]; [reflexivity|].
  change (String x ((a +:+ b) +:+ c) = String x (a +:+ (b +:+ c))).
  f_equal. exact IH.
Qed.

Lemma append_nil_r (a : string) : a +:+ EmptyString = a.
Proof.
  induction a as [|x a IH]; [reflexivity|].
  change (String x (a +:+ EmptyString) = String x a). f_equal. exact IH.
Qed.

(** Two neighbours of a list stay neighbours in its [join]. *)
Lemma join_neighbours (sep x y : string) (before after : list string) :
  exists b a,
    PyStr.join sep (before ++ x :: y :: after)%list
    = b +:+ (x +:+ sep +:+ y) +:+ a.
Proof.
  induction before as [|z before (b & a & IH)].
  - exists EmptyString. destruct after as [|w after].
    + exists EmptyString. cbn. rewrite append_nil_r. reflexivity.
    + exists (sep +:+ PyStr.join sep (w :: after)).
      cbn [app PyStr.join]. cbn [append]. rewrite !append_assoc. reflexivity.
  - exists (z +:+ sep +:+ b), a.
    change ((z :: before) ++ x :: y :: after)%list
      with (z :: (before ++ x :: y :: after))%list.
    destruct (before ++ x :: y :: after)%list as [|w rest] eqn:Hl.
    + destruct before; discriminate.
    + change (PyStr.join sep (z :: w :: rest))
        with (z +:+ sep +:+ PyStr.join sep (w :: rest)).
      rewrite IH, !append_assoc. reflexivity.
Qed.

Lemma filter_neighbours {A : Type} (f : A -> bool) (a b : A) (pre post : list A) :
  f a = true -> f b = true ->
  List.filter f (pre ++ a :: b :: post)%list
  = (List.filter f pre ++ a :: b :: List.filter f post)%list.
Proof.
  intros Ha Hb. rewrite List.filter_app. cbn [List.filter].
  rewrite Ha, Hb. reflexivity.
Qed.

Lemma filter_none {A : Type} (f : A -> bool) (l : list A) :
  (forall x, In x l -> f x = false) -> List.filter f l = [].
Proof.
  induction l as [|x l IH]; [reflexivity|]. intros Hall. cbn.
  rewrite (Hall x) by (left; reflexivity).
  apply IH. intros y Hy. apply Hall. right. exact Hy.
Qed.

Section Translation.
Context `{PyRuntime}.

(** Two entries of the table that both occur in the text, the second right
    after the first in the table, are both in the translation, side by
    side. *)
Lemma translate_neighbours (text : string) (k1 v1 k2 v2 : string)
    (pre post : list (string * string)) :
  Fetcher.translations = (pre ++ (k1, v1) :: (k2, v2) :: post)%list ->
  text <> EmptyString ->
  PyStr.contains k1 (str_upper text) = true ->
  PyStr.contains k2 (str_upper text) = true ->
  exists b a,
    Fetcher._translate_conditions text = b +:+ (v1 +:+ ", " +:+ v2) +:+ a.
Proof.
  intros Htable Htext H1 H2. unfold Fetcher._translate_conditions.
  destruct text as [|c text]; [contradiction|]. cbn [PyStr.truthy negb].
  cbv zeta. rewrite Htable.
  rewrite (filter_neighbours _ (k1, v1) (k2, v2) pre post H1 H2).
  rewrite List.map_app. cbn [List.map snd].
  set (p1 := List.map snd (List.filter _ pre)).
  set (p2 := List.map snd (List.filter _ post)).
  destruct (p1 ++ v1 :: v2 :: p2)%list as [|w rest] eqn:Hparts.
  - destruct p1; discriminate.
  - rewrite <- Hparts. apply join_neighbours.
Qed.

(** X27. [_translate_conditions]: the empty text is "Unknown"; a text in
    which no key of the table occurs is returned in title case; and the
    keys are looked for one by one without regard to overlaps, so that a
    text with "PLOAIE SLABA" is translated with both "Light Rain" and
    "Rain", and a text with "NINSOARE SLABA" with both "Light Snow" and
    "Snow". *)
Theorem translate_conditions_overlap (text : string) :
  Fetcher._translate_conditions EmptyString = "Unknown"
  /\ (text <> EmptyString ->
      (forall k v, In (k, v) Fetcher.translations ->
                   PyStr.contains k (str_upper text) = false) ->
      Fetcher._translate_conditions text = str_title text)
  /\ (text <> EmptyString ->
      PyStr.contains "PLOAIE SLABA" (str_upper text) = true ->
      exists b a,
        Fetcher._translate_conditions text = b +:+ "Light Rain, Rain" +:+ a)
  /\ (text <> EmptyString ->
      PyStr.contains "NINSOARE SLABA" (str_upper text) = true ->
      exists b a,
        Fetcher._translate_conditions text = b +:+ "Light Snow, Snow" +:+ a).
Proof.
  split; [reflexivity|]. split; [|split].
  - intros Htext Hnone. unfold Fetcher._translate_conditions.
    destruct text as [|c text]; [contradiction|]. cbn [PyStr.truthy negb].
    cbv zeta. rewrite filter_none; [reflexivity|].
    intros [k v] Hin. apply (Hnone k v Hin).
  - intros Htext Hc.
    apply (translate_neighbours text "PLOAIE SLABA" "Light Rain" "PLOAIE" "Rain"
             (List.firstn 6 Fetcher.translations)
             (List.skipn 8 Fetcher.translations));
      [reflexivity | exact Htext | exact Hc |].
    apply (contains_app "PLOAIE" " SLABA"), Hc.
  - intros Htext Hc.
    apply (translate_neighbours text "NINSOARE SLABA" "Light Snow" "NINSOARE"
             "Snow" (List.firstn 12 Fetcher.translations)
             (List.skipn 14 Fetcher.translations));
      [reflexivity | exact Htext | exact Hc |].
    apply (contains_app "NINSOARE" " SLABA"), Hc.
Qed.

End Translation.

(** ** The cleaned text *)

Lemma lstrip_length (s : string) :
  (String.length (PyStr.lstrip s) <= String.length s)%nat.
Proof.
  induction s as [|c s IH]; cbn; [lia|].
  destruct (PyStr.is_space c); cbn; lia.
Qed.

(** A greedy run of white space before a continuation that accepts
    anything takes all the white space there is. *)
Lemma star_space_greedy {A : Type} (ic : bool)
    (k : string -> (nat -> string) -> option A) :
  (forall s g, k s g <> None) ->
  forall s g, Re.m ic (Re.Star true Fetcher.ws) s g k = k (PyStr.lstrip s) g.
Proof.
  intros Hk s g. unfold Fetcher.ws. cbn [Re.m].
  assert (Hn : (String.length s <= String.length s)%nat) by lia.
  revert Hn. generalize (String.length s) at 2 3. intros n. revert s g.
  induction n as [|n IH]; intros s g Hn.
  - destruct s as [|c s]; [reflexivity | cbn in Hn; lia].
  - destruct s as [|c s]; [reflexivity|].
    cbn [Re.m Re.cls_match PyStr.lstrip].
    destruct (PyStr.is_space c) eqn:Hc; [|reflexivity].
    assert (Hlt : (String.length s <? String.length (String c s))%nat = true)
      by (apply Nat.ltb_lt; cbn; lia).
    rewrite Hlt. cbn in Hn. rewrite IH by lia.
    destruct (k (PyStr.lstrip s) g) eqn:Hks; [reflexivity|].
    exfalso. exact (Hk _ _ Hks).
Qed.

(** The pattern of a run of white space at the head of a text: it matches
    when the text starts with white space, and takes all of it. *)
Lemma match_here_spaces (c : ascii) (s : string) :
  Re.match_here false (Re.Plus true Fetcher.ws) (String c s)
  = if PyStr.is_space c
    then Some {| Re.group := fun _ => EmptyString; Re.rest := PyStr.lstrip s |}
    else None.
Proof.
  unfold Re.match_here, Re.Plus.
  transitivity
    (if PyStr.is_space c
     then Re.m false (Re.Star true Fetcher.ws) s (fun _ => EmptyString)
            (fun s' g => Some {| Re.group := g; Re.rest := s' |})
     else None); [reflexivity|].
  destruct (PyStr.is_space c); [|reflexivity].
  apply star_space_greedy. discriminate.
Qed.

Lemma sub_spaces (n : nat) (s : string) :
  (String.length s <= n)%nat ->
  let r := Re.sub_from n false (Re.Plus true Fetcher.ws) " " s in
  TextSpec.single_spaced false r = true
  /\ (match s with
      | String c _ => PyStr.is_space c = false
      | EmptyString => True
      end -> TextSpec.single_spaced true r = true).
Proof.
  revert s. induction n as [|n IH]; intros s Hn; cbn zeta.
  - destruct s; [split; reflexivity | cbn in Hn; lia].
  - destruct s as [|c s]; [split; reflexivity|].
    cbn [Re.sub_from]. rewrite match_here_spaces. cbn in Hn.
    destruct (PyStr.is_space c) eqn:Hc.
    + cbn [Re.rest].
      pose proof (lstrip_length s) as Hl.
      assert (Hlt : (String.length (PyStr.lstrip s)
                     <? String.length (String c s))%nat = true)
        by (apply Nat.ltb_lt; cbn; lia).
      rewrite Hlt.
      destruct (IH (PyStr.lstrip s) ltac:(lia)) as [_ Hhead].
      specialize (Hhead (lstrip_head s)).
      split; [|discriminate].
      change (TextSpec.single_spaced true
                (Re.sub_from n false (Re.Plus true Fetcher.ws) " "
                   (PyStr.lstrip s)) = true).
      exact Hhead.
    + destruct (IH s ltac:(lia)) as [Hany _].
      split; [|intros _]; cbn [TextSpec.single_spaced]; rewrite Hc; exact Hany.
Qed.

Lemma single_spaced_lstrip (b : bool) (s : string) :
  TextSpec.single_spaced b s = true ->
  TextSpec.single_spaced true (PyStr.lstrip s) = true.
Proof.
  revert b. induction s as [|c s IH]; intros b; [reflexivity|].
  cbn [TextSpec.single_spaced PyStr.lstrip].
  destruct (PyStr.is_space c) eqn:Hc.
  - intros Hs. apply andb_prop in Hs as [_ Hs]. apply (IH true), Hs.
  - cbn [TextSpec.single_spaced]. rewrite Hc. tauto.
Qed.

Lemma single_spaced_rstrip (b : bool) (s : string) :
  TextSpec.single_spaced b s = true ->
  TextSpec.single_spaced b (PyStr.rstrip s) = true.
Proof.
  revert b. induction s as [|c s IH]; intros b; [reflexivity|].
  cbn [TextSpec.single_spaced PyStr.rstrip].
  destruct (PyStr.is_space c) eqn:Hc.
  - intros Hs. apply andb_prop in Hs as [Hcb Hs].
    apply IH in Hs. destruct (PyStr.rstrip s) as [|d r]; [reflexivity|].
    cbn [TextSpec.single_spaced]. rewrite Hc, Hcb. exact Hs.
  - intros Hs. apply IH in Hs. destruct (PyStr.rstrip s) as [|d r];
      cbn [TextSpec.single_spaced]; rewrite Hc; [reflexivity | exact Hs].
Qed.

(** X28. The text [_clean_html] returns is normalised: every white-space
    character in it is a single space between two other characters (no
    tab or line break is left, no two spaces are adjacent, none starts or
    ends the text), whatever the tags and the character references of its
    argument. *)
Theorem clean_html_normalised `{PyRuntime} (text : string) :
  TextSpec.single_spaced true (Fetcher._clean_html text) = true
  /\ PyStr.strip (Fetcher._clean_html text) = Fetcher._clean_html text.
Proof.
  unfold Fetcher._clean_html.
  destruct (PyStr.truthy text); cbn [negb]; [|split; reflexivity].
  split; [|apply strip_idem].
  unfold PyStr.strip. apply single_spaced_rstrip.
  apply (single_spaced_lstrip false). unfold Re.sub.
  apply sub_spaces. lia.
Qed.

(** ** The search for cities *)







(** ** Instances of the further properties *)

Lemma stocked_reachable (older : Z -> string -> bool) :
  Store.reachable older Scenarios.stocked.
Proof.
  refine (Store.reach_update_source_status older Scenarios.failed_once None
            "2024-05-01T10:00:00" "feed" "forecast" "Feed" true "valid" true 7
            None 120 _ _ eq_refl).
  refine (Store.reach_update_source_status older Scenarios.with_alert None
            "2024-05-01T10:00:00" "feed" "forecast" "Feed" false "unavailable"
            false 0 (Some "HTTP error 503") 120 _ _ eq_refl).
  apply Store.reach_insert_alert.
  apply (Store.reach_insert_forecast older Examples.one_forecast).
  apply (Store.reach_insert_forecast older Database.init).
  apply Store.reach_init.
Defined.

Lemma one_forecast_per_city_and_date_witness :
  (List.length (DbSpec.rows_for "Cluj" "2024-05-02" Scenarios.stocked) <= 1)%nat.
Proof.
  exact (proj1 (one_forecast_per_city_and_date Scenarios.retention
                  Scenarios.stocked (stocked_reachable _))
           "Cluj" "2024-05-02").
Defined.

Lemma alert_fingerprints_distinct_witness :
  List.NoDup (DbSpec.alert_hashes Scenarios.stocked).
Proof.
  exact (proj1 (alert_fingerprints_distinct Scenarios.retention
                  Scenarios.stocked 10 (stocked_reachable _))).
Defined.


Lemma insert_then_get_city_forecast_witness :
  exists row,
    In row (DatabaseReads.get_city_forecast Examples.same_forecast_again.1 "Cluj")
    /\ Database.ForecastRow.temp_max row = 17.
Proof.
  destruct (insert_then_get_city_forecast None "2024-05-01 10:00:01"
              Examples.one_forecast Examples.same_forecast_again.1
              "Cluj" "2024-05-02" "2024-05-01" 5 17 "Clear Sky" "1"
              Fetcher.ANM_FORECAST_XML_URL "hash-5-17" eq_refl)
    as (row & Hin & _ & _ & _ & Hmax & _).
  exists row. split; [exact Hin | exact Hmax].
Defined.

Lemma get_active_alerts_bounded_witness :
  Z.of_nat (List.length (DatabaseReads.get_active_alerts Scenarios.stocked 10))
  <= 10.
Proof.
  apply (get_active_alerts_bounded Scenarios.stocked 10). lia.
Defined.

Lemma source_health_invariant_witness :
  exists row,
    Examples.feed_row Scenarios.stocked = Some row
    /\ Store.health_ok "feed" row.
Proof.
  eexists. split; [vm_compute; reflexivity|].
  refine (proj1 (source_health_invariant Scenarios.retention Scenarios.stocked
                   "feed" _ (stocked_reachable _) _)).
  vm_compute. reflexivity.
Defined.

Lemma reliability_in_range_witness :
  exists row rel,
    In (row, rel) (Database.get_system_status Scenarios.stocked)
    /\ (0 <= rel)%Q /\ (rel <= 100)%Q.
Proof.
  eexists. eexists. split; [vm_compute; left; reflexivity|].
  refine (let H := reliability_in_range Scenarios.retention Scenarios.stocked
                     _ _ (stocked_reachable _) _ in
          conj (proj1 H) (proj1 (proj2 H))).
  vm_compute. left. reflexivity.
Defined.


Lemma failure_streak_witness :
  DbSpec.counter Database.SourceStatus.consecutive_failures
    Scenarios.after_two_failures "feed"
  = DbSpec.counter Database.SourceStatus.consecutive_failures
      Database.init "feed"
    + Z.of_nat (List.length Scenarios.two_failures).
Proof.
  exact (proj1 (proj1 (failure_streak "feed" Scenarios.two_failures
                         Database.init Scenarios.after_two_failures
                         Scenarios.recovered None "2024-05-01T10:00:00"
                         "forecast" "Feed" "valid" true 7 None 120
                         eq_refl eq_refl))).
Defined.

Lemma last_error_after_update_witness :
  exists row,
    Database.source_status Scenarios.stocked !! "feed" = Some row
    /\ Database.SourceStatus.status row = "ok".
Proof.
  destruct (last_error_after_update None "2024-05-01T10:00:00"
              Scenarios.failed_once Scenarios.stocked "feed" "forecast" "Feed"
              true "valid" true 7 None 120 eq_refl)
    as (row & Hrow & _ & Hstatus & _).
  exists row. split; [exact Hrow | exact Hstatus].
Defined.


